(** * A shallow embedding of [core/_sklearn.py] (class [SKLearnForQlik])

    The class keeps a process-wide [OrderedDict] of recently used models
    ([model_cache], bounded by [cache_limit = 3]), persists models to disk
    through [PersistentModel.save]/[load], configures a model from argument
    strings ([setup]/[_set_params]), attaches a feature definition frame
    ([set_features]), reads it back ([get_features]), trains a scikit-learn
    pipeline ([fit]) and applies it ([predict]).

    Python objects that are shared by reference (the model objects held by
    the cache, the pandas frame held by a model) live in an explicit heap;
    the disk store holds deep copies (snapshots).  The numeric libraries
    (pandas type conversion, scikit-learn fitting and scoring) and the
    argument parsers of [_utils] are parameters of the development. *)

From Stdlib Require Import String Ascii List ZArith QArith Bool Lia.
Import ListNotations.
Open Scope nat_scope.
Open Scope list_scope.
Open Scope string_scope.

(** ** Python values and exceptions *)

(** Values produced by [_utils.get_kwargs_by_type]. *)
Inductive PyVal :=
| VStr (s : string)
| VInt (z : Z)
| VFloat (q : Q)
| VBool (b : bool).

(** The Python exceptions the modelled code can raise. *)
Inductive PyExc :=
| Exception_ (msg : string)        (** [raise Exception(err)] *)
| KeyError (key : string)          (** dict lookup of a missing key *)
| IndexError                       (** [target.index[0]] on an empty index, [classes_[i]] out of range *)
| AttributeError (attr : string)   (** attribute missing on an object (or on [None]) *)
| NotFittedError                   (** scikit-learn: pipeline used before [fit] *)
| FileNotFoundError (name : string) (** [PersistentModel.load] of a name with no snapshot *)
| ValueError (msg : string)        (** failed parse or coercion *)
| ExternalError (msg : string).    (** any failure inside pandas / scikit-learn *)

Inductive Result (A : Type) : Type :=
| Ok (a : A)
| Raise (e : PyExc).
Arguments Ok {A} a.
Arguments Raise {A} e.

Definition rbind {A B} (r : Result A) (k : A -> Result B) : Result B :=
  match r with Ok a => k a | Raise e => Raise e end.

Notation "x <-? r ;; k" := (rbind r (fun x => k))
  (at level 61, r at next level, right associativity).

(** ** An OrderedDict with string keys

    Keys are unique; insertion order is list order (oldest first). *)
Section OrderedDict.
Context {A : Type}.

Definition od_mem (k : string) (d : list (string * A)) : bool :=
  existsb (fun p => String.eqb (fst p) k) d.

Fixpoint od_get (k : string) (d : list (string * A)) : option A :=
  match d with
  | [] => None
  | (k', v) :: d' => if String.eqb k' k then Some v else od_get k d'
  end.

(** [del d[k]] *)
Definition od_del (k : string) (d : list (string * A)) : list (string * A) :=
  filter (fun p => negb (String.eqb (fst p) k)) d.

(** [d[k] = v]: replaces in place when [k] is present, appends otherwise. *)
Definition od_set (k : string) (v : A) (d : list (string * A)) : list (string * A) :=
  if od_mem k d
  then map (fun p => if String.eqb (fst p) k then (k, v) else p) d
  else app d [(k, v)].

(** [d.popitem(last=False)]: removes the oldest item. *)
Definition od_popitem_first (d : list (string * A)) : Result (list (string * A)) :=
  match d with
  | [] => Raise (KeyError "dictionary is empty")
  | _ :: d' => Ok d'
  end.

Definition od_keys (d : list (string * A)) : list string := map fst d.

End OrderedDict.

(** ** The model cache: [SKLearnForQlik._update_cache] *)

Definition cache_limit : nat := 3.

(** The cache update on the dictionary itself, for any value type:
<<
    if self.__class__.cache_limit == len(self.__class__.model_cache):
        self.__class__.model_cache.popitem(last=False)
    if self.model.name in self.__class__.model_cache:
        del self.__class__.model_cache[self.model.name]
    self.__class__.model_cache[self.model.name] = self.model
>> *)
Definition update_cache_dict {A} (name : string) (m : A) (cache : list (string * A))
  : Result (list (string * A)) :=
  c1 <-? (if Nat.eqb cache_limit (length cache) then od_popitem_first cache else Ok cache) ;;
  let c2 := if od_mem name c1 then od_del name c1 else c1 in
  Ok (od_set name m c2).

(** ** Data model *)

(** One row of the feature definition frame built by [set_features] from the
    request columns [model_name, name, variable_type, data_type,
    feature_strategy, hash_features]; the frame is indexed by [name]. *)
Record FeatureSpec := mkFeatureSpec {
  f_model_name : string;
  f_name : string;
  variable_type : string;
  data_type : string;
  feature_strategy : string;
  hash_features : Z
}.

(** A pandas frame of feature definitions: its rows, plus the numeric
    columns assigned to it later by [frame[col] = Series(...)], each stored
    as one value per row. *)
Record Frame := mkFrame {
  frame_rows : list FeatureSpec;
  frame_extra : list (string * list Z)
}.

(** [frame[col] = values] *)
Definition frame_set_column (col : string) (vals : list Z) (f : Frame) : Frame :=
  mkFrame (frame_rows f) (od_set col vals (frame_extra f)).

Fixpoint mask_filter {A} (mask : list bool) (l : list A) : list A :=
  match mask, l with
  | b :: mask', x :: l' => if b then x :: mask_filter mask' l' else mask_filter mask' l'
  | _, _ => []
  end.

(** [frame.loc[mask]] *)
Definition frame_loc_mask (mask : list bool) (f : Frame) : Frame :=
  mkFrame (mask_filter mask (frame_rows f))
          (map (fun p => (fst p, mask_filter mask (snd p))) (frame_extra f)).

(** Stages of a scikit-learn [Pipeline]; an estimator stage carries the
    class labels ([classes_]) it knows after fitting. *)
Inductive Stage :=
| Preprocessor
| EstimatorStage (cls : string) (classes_ : list string)
| ReductionStage (cls : string).

Record Pipeline := mkPipeline {
  steps : list (string * Stage);
  fitted : bool
}.

(** The attributes of a [PersistentModel] used by this class.  An [option]
    field is [None] while the attribute has not been assigned. *)
Record Model := mkModel {
  name : string;
  overwrite : bool;
  debug : bool;
  test_size : Q;
  random_state : Z;
  compress : Z;
  retain_data : bool;
  scaler : option string;
  missing : option string;
  scale_hashed : option bool;
  scaler_kwargs : list (string * PyVal);
  estimator : option string;
  estimator_kwargs : list (string * PyVal);
  reduction : option string;
  dim_reduction_args : list (string * PyVal);
  dim_reduction : bool;
  features_df : option nat;            (** reference to a frame in the heap *)
  pipe : option Pipeline;
  estimation_step : nat;
  score : option Q
}.

(** Modelled from the spec: [PersistentModel()] of [_machine_learning] (not
    part of this file): a fresh model with no configuration, no feature
    contract and no pipeline. *)
Definition PersistentModel_new (n : string) : Model :=
  mkModel n false false 0 0 0 false None None None [] None [] None [] false None None 0 None.

(** Record updates used by the code. *)
Definition set_features_df (fl : option nat) (m : Model) : Model :=
  mkModel (name m) (overwrite m) (debug m) (test_size m) (random_state m) (compress m)
    (retain_data m) (scaler m) (missing m) (scale_hashed m) (scaler_kwargs m)
    (estimator m) (estimator_kwargs m) (reduction m) (dim_reduction_args m)
    (dim_reduction m) fl (pipe m) (estimation_step m) (score m).

Definition set_pipe (p : option Pipeline) (step : nat) (m : Model) : Model :=
  mkModel (name m) (overwrite m) (debug m) (test_size m) (random_state m) (compress m)
    (retain_data m) (scaler m) (missing m) (scale_hashed m) (scaler_kwargs m)
    (estimator m) (estimator_kwargs m) (reduction m) (dim_reduction_args m)
    (dim_reduction m) (features_df m) p step (score m).

Definition set_score (s : Q) (m : Model) : Model :=
  mkModel (name m) (overwrite m) (debug m) (test_size m) (random_state m) (compress m)
    (retain_data m) (scaler m) (missing m) (scale_hashed m) (scaler_kwargs m)
    (estimator m) (estimator_kwargs m) (reduction m) (dim_reduction_args m)
    (dim_reduction m) (features_df m) (pipe m) (estimation_step m) (Some s).

(** A persisted snapshot: a deep copy of the model and of its frame. *)
Record Snapshot := mkSnapshot {
  snap_model : Model;
  snap_features : option Frame
}.

Inductive Obj :=
| OModel (m : Model)
| OFrame (f : Frame).

(** The process state: the heap of shared Python objects, the class-level
    [model_cache] (name to model reference) and the model directory on disk. *)
Record State := mkState {
  heap : nat -> option Obj;
  next_loc : nat;
  model_cache : list (string * nat);
  store : string -> option Snapshot
}.

(** ** The state and exception monad

    An exception leaves the state as it was when it was raised. *)
Definition M (A : Type) : Type := State -> Result A * State.

Definition ret {A} (a : A) : M A := fun st => (Ok a, st).
Definition raise {A} (e : PyExc) : M A := fun st => (Raise e, st).
Definition bind {A B} (c : M A) (k : A -> M B) : M B :=
  fun st => match c st with
            | (Ok a, st') => k a st'
            | (Raise e, st') => (Raise e, st')
            end.
Definition lift {A} (r : Result A) : M A :=
  fun st => (r, st).

Notation "x <- c ;; k" := (bind c (fun x => k))
  (at level 61, c at next level, right associativity).
Notation "c ;;; k" := (bind c (fun _ => k))
  (at level 61, right associativity).

Definition heap_upd (l : nat) (o : Obj) (h : nat -> option Obj) : nat -> option Obj :=
  fun l' => if Nat.eqb l' l then Some o else h l'.

Definition alloc (o : Obj) : M nat :=
  fun st => (Ok (next_loc st),
             mkState (heap_upd (next_loc st) o (heap st)) (S (next_loc st))
                     (model_cache st) (store st)).

Definition write (l : nat) (o : Obj) : M unit :=
  fun st => (Ok tt, mkState (heap_upd l o (heap st)) (next_loc st) (model_cache st) (store st)).

Definition read_model (l : nat) : M Model :=
  fun st => match heap st l with
            | Some (OModel m) => (Ok m, st)
            | _ => (Raise (AttributeError "model"), st)
            end.

(** Reading the [features_df] attribute and the frame it refers to. *)
Definition read_features (m : Model) : M (nat * Frame) :=
  fun st => match features_df m with
            | Some fl => match heap st fl with
                         | Some (OFrame f) => (Ok (fl, f), st)
                         | _ => (Raise (AttributeError "features_df"), st)
                         end
            | None => (Raise (AttributeError "features_df"), st)
            end.

Definition get_cache : M (list (string * nat)) := fun st => (Ok (model_cache st), st).
Definition put_cache (c : list (string * nat)) : M unit :=
  fun st => (Ok tt, mkState (heap st) (next_loc st) c (store st)).

(** Modelled from the spec: [PersistentModel.save(name, path, compress)]
    writes a snapshot of the full model (with its feature contract) under its
    name and returns the model itself. *)
Definition save (l : nat) : M nat :=
  fun st => match heap st l with
            | Some (OModel m) =>
                let fr := match features_df m with
                          | Some fl => match heap st fl with Some (OFrame f) => Some f | _ => None end
                          | None => None
                          end in
                (Ok l, mkState (heap st) (next_loc st) (model_cache st)
                          (fun n => if String.eqb n (name m) then Some (mkSnapshot m fr) else store st n))
            | _ => (Raise (AttributeError "save"), st)
            end.

(** Modelled from the spec: [PersistentModel.load(name, path)] rebuilds a
    fresh model object (and a fresh frame) from the snapshot, and fails when
    no snapshot exists for the name. *)
Definition load (n : string) : M nat :=
  fun st => match store st n with
            | None => (Raise (FileNotFoundError n), st)
            | Some s =>
                (match snap_features s with
                 | Some f => fl <- alloc (OFrame f) ;; alloc (OModel (set_features_df (Some fl) (snap_model s)))
                 | None => alloc (OModel (set_features_df None (snap_model s)))
                 end) st
            end.

(** [_update_cache]: the cache update keyed by [self.model.name]. *)
Definition _update_cache (l : nat) : M unit :=
  m <- read_model l ;;
  c <- get_cache ;;
  c' <- lift (update_cache_dict (name m) l c) ;;
  put_cache c'.

(** [_get_model]:
<<
    if self.model.name in self.__class__.model_cache:
        self.model = self.__class__.model_cache[self.model.name]
    else:
        self.model = self.model.load(self.model.name, self.path)
        self._update_cache()
>>
    The result is the reference now held in [self.model]. *)
Definition _get_model (n : string) : M nat :=
  c <- get_cache ;;
  if od_mem n c
  then match od_get n c with Some l => ret l | None => raise (KeyError n) end
  else l <- load n ;; _update_cache l ;;; ret l.

(** ** A concrete cache scenario

    Four configured models [m1..m4] at references [0..3]; "put" is the cache
    update that ends [setup], [set_features] and [fit]; "get" is
    [_get_model]. *)
Definition demo_heap : nat -> option Obj :=
  fun l => match l with
           | 0%nat => Some (OModel (PersistentModel_new "m1"))
           | 1%nat => Some (OModel (PersistentModel_new "m2"))
           | 2%nat => Some (OModel (PersistentModel_new "m3"))
           | 3%nat => Some (OModel (PersistentModel_new "m4"))
           | _ => None
           end.

Definition demo_state : State := mkState demo_heap 4%nat [] (fun _ => None).

Definition cache_keys : M (list string) := c <- get_cache ;; ret (od_keys c).

(** put m1, put m2, put m3, get m1, put m4 *)
Definition eviction_run : M (list string) :=
  _update_cache 0%nat ;;; _update_cache 1%nat ;;; _update_cache 2%nat ;;;
  _get_model "m1" ;;; _update_cache 3%nat ;;; cache_keys.

(** ** Helpers for Python string operations *)

(** [str.lower()] on ASCII letters. *)
Definition lower_ascii (c : ascii) : ascii :=
  let n := nat_of_ascii c in
  if Nat.leb 65 n && Nat.leb n 90 then ascii_of_nat (n + 32) else c.

Fixpoint lower (s : string) : string :=
  match s with
  | EmptyString => EmptyString
  | String c s' => String (lower_ascii c) (lower s')
  end.

(** The execution parameters of a model. *)
Record ExecParams := mkExecParams {
  e_overwrite : bool;
  e_debug : bool;
  e_test_size : Q;
  e_random_state : Z;
  e_compress : Z;
  e_retain_data : bool
}.

(** The defaults assigned at the start of [_set_params]. *)
Definition default_exec_params : ExecParams :=
  mkExecParams false false (33 # 100) 42 3 false.

Definition set_dim_reduction (b : bool) (m : Model) : Model :=
  mkModel (name m) (overwrite m) (debug m) (test_size m) (random_state m) (compress m)
    (retain_data m) (scaler m) (missing m) (scale_hashed m) (scaler_kwargs m)
    (estimator m) (estimator_kwargs m) (reduction m) (dim_reduction_args m)
    b (features_df m) (pipe m) (estimation_step m) (score m).

(** The algorithm registries built in [__init__]. *)
Definition algorithms : list string :=
  ["DummyClassifier"; "DummyRegressor"; "AdaBoostClassifier"; "AdaBoostRegressor";
   "BaggingClassifier"; "BaggingRegressor"; "ExtraTreesClassifier"; "ExtraTreesRegressor";
   "GradientBoostingClassifier"; "GradientBoostingRegressor";
   "RandomForestClassifier"; "RandomForestRegressor";
   "VotingClassifier"; "GaussianProcessClassifier";
   "GaussianProcessRegressor"; "LinearRegression";
   "LogisticRegression"; "LogisticRegressionCV";
   "PassiveAggressiveClassifier";
   "PassiveAggressiveRegressor"; "Perceptron";
   "RANSACRegressor"; "Ridge"; "RidgeClassifier";
   "RidgeCV"; "RidgeClassifierCV"; "SGDClassifier";
   "SGDRegressor"; "TheilSenRegressor"; "BernoulliNB";
   "GaussianNB"; "MultinomialNB";
   "KNeighborsClassifier"; "KNeighborsRegressor";
   "RadiusNeighborsClassifier";
   "RadiusNeighborsRegressor"; "BernoulliRBM";
   "MLPClassifier"; "MLPRegressor"; "LinearSVC";
   "LinearSVR"; "NuSVC"; "NuSVR"; "SVC"; "SVR";
   "DecisionTreeClassifier"; "DecisionTreeRegressor";
   "ExtraTreeClassifier"; "ExtraTreeRegressor"].

Definition decomposers : list string := ["PCA"; "KernelPCA"; "IncrementalPCA"; "TruncatedSVD"].

(** [self.algorithms[key]] / [self.decomposers[key]] *)
Definition registry_lookup (registry : list string) (key : string) : Result string :=
  if existsb (String.eqb key) registry then Ok key else Raise (KeyError key).

(** [self.model.<attr>] for an attribute this file assigns only in some runs. *)
Definition attr {A} (a : string) (o : option A) : Result A :=
  match o with Some v => Ok v | None => Raise (AttributeError a) end.

(** Request columns: [self.request_df.loc[0, col]] and a row's field. *)
Definition cell (rows : list (list string)) (row col : nat) : Result string :=
  match nth_error rows row with
  | None => Raise (KeyError "0")
  | Some r => match nth_error r col with Some v => Ok v | None => Raise IndexError end
  end.

(** A data set after [pd.DataFrame(...)] and [utils.convert_types]. *)
Definition Data : Type := list (list PyVal).

(** The collaborators of the class that are not in this file: the argument
    parsers of [_utils], [locale], pandas and scikit-learn. *)
Record Env := mkEnv {
  (** [_utils.get_kwargs]: a comma separated [key=value] string to a dict of
      strings (may raise on a malformed string). *)
  get_kwargs : string -> Result (list (string * string));
  (** [_utils.get_kwargs_by_type]: typed conversion of the remaining entries. *)
  get_kwargs_by_type : list (string * string) -> Result (list (string * PyVal));
  (** [locale.atof] and [locale.atoi]. *)
  atof : string -> Result Q;
  atoi : string -> Result Z;
  (** [pd.DataFrame([x.split("|") ...], columns=<feature names>)] followed by
      [utils.convert_types(df, features_df)]. *)
  convert_types : list FeatureSpec -> list string -> Result Data;
  (** [Preprocessor(features_df, scale_hashed=..., missing=..., scaler=..., **scaler_kwargs)]. *)
  Preprocessor_init : list FeatureSpec -> Model -> Result unit;
  (** Calling a registry class with keyword arguments. *)
  construct : string -> list (string * PyVal) -> Result unit;
  (** Selecting the target column and the kept columns, then
      [train_test_split(X, y, test_size, random_state)]:
      [(X_train, X_test, y_train, y_test)]. *)
  train_test_split : Data -> string -> list string -> Q -> Z -> Result (Data * Data * Data * Data);
  (** [pipe.fit(X, y)] (the fitted steps), [pipe.score(X, y)]. *)
  pipe_fit : list (string * Stage) -> Data -> Data -> Result (list (string * Stage));
  pipe_score : list (string * Stage) -> Data -> Data -> Result Q;
  (** [pipe.predict], [pipe.predict_proba], [pipe.predict_log_proba] on a fitted pipeline. *)
  pipe_predict : list (string * Stage) -> Data -> Result (list string);
  pipe_predict_proba : list (string * Stage) -> Data -> Result (list (list Q));
  pipe_predict_log_proba : list (string * Stage) -> Data -> Result (list (list Q));
  (** ["{:.3f}".format(x)] *)
  fmt3 : Q -> string
}.

Section Program.
Context (E : Env).

(** [_print_exception(s, e)]:
<<
    sys.stdout.write("\n{0}: {1} \n\n".format(s, e))
    if self.debug:
>>
    The instance has no attribute [debug] (only [self.model.debug] exists),
    so the call raises there. *)
Definition _print_exception {A} (s : string) : Result A := Raise (AttributeError "debug").

(** The execution-argument part of [_set_params]. *)
Definition set_execution_params (execution_args : string) : Result ExecParams :=
  let d := default_exec_params in
  if Nat.ltb 0 (String.length execution_args) then
    kw <-? get_kwargs E execution_args ;;
    let ow := match od_get "overwrite" kw with
              | Some v => String.eqb "true" (lower v) | None => e_overwrite d end in
    ts <-? (match od_get "test_size" kw with Some v => atof E v | None => Ok (e_test_size d) end) ;;
    rs <-? (match od_get "random_state" kw with Some v => atoi E v | None => Ok (e_random_state d) end) ;;
    cp <-? (match od_get "compress" kw with Some v => atoi E v | None => Ok (e_compress d) end) ;;
    let rd := match od_get "retain_data" kw with
              | Some v => String.eqb "true" (lower v) | None => e_retain_data d end in
    let dbg := match od_get "debug" kw with
               | Some v => String.eqb "true" (lower v) | None => e_debug d end in
    Ok (mkExecParams ow dbg ts rs cp rd)
  else Ok d.

(** The scaler part: [(scaler, missing, scale_hashed, scaler_kwargs)]. *)
Definition set_scaler_params (scaler_args : string) (m : Model)
  : Result (option string * option string * option bool * list (string * PyVal)) :=
  if Nat.ltb 0 (String.length scaler_args) then
    kw <-? get_kwargs E scaler_args ;;
    if od_mem "scaler" kw then
      let sc := od_get "scaler" kw in
      let kw := od_del "scaler" kw in
      let ms := match od_get "missing" kw with Some v => Some (lower v) | None => missing m end in
      let kw := od_del "missing" kw in
      let sh := match od_get "scale_hashed" kw with
                | Some v => Some (String.eqb "true" (lower v)) | None => scale_hashed m end in
      let kw := od_del "scale_hashed" kw in
      skw <-? get_kwargs_by_type E kw ;;
      Ok (sc, ms, sh, skw)
    else _print_exception "Arguments for scaling did not include the scaler name e.g StandardScaler"
  else Ok (scaler m, missing m, scale_hashed m, scaler_kwargs m).

(** The estimator part: [(estimator, estimator_kwargs)]. *)
Definition set_estimator_params (estimator_args : string) (m : Model)
  : Result (option string * list (string * PyVal)) :=
  if Nat.ltb 0 (String.length estimator_args) then
    kw <-? get_kwargs E estimator_args ;;
    if od_mem "estimator" kw then
      let es := od_get "estimator" kw in
      ekw <-? get_kwargs_by_type E (od_del "estimator" kw) ;;
      Ok (es, ekw)
    else _print_exception "Arguments for estimator did not include the estimator class e.g. RandomForestClassifier"
  else Ok (estimator m, estimator_kwargs m).

(** The dimensionality-reduction part: [(reduction, dim_reduction_args)]. *)
Definition set_reduction_params (dim_args : option string) (m : Model)
  : Result (option string * list (string * PyVal)) :=
  match dim_args with
  | Some a =>
      kw <-? get_kwargs E a ;;
      if od_mem "reduction" kw then
        let rd := od_get "reduction" kw in
        rkw <-? get_kwargs_by_type E (od_del "reduction" kw) ;;
        Ok (rd, rkw)
      else _print_exception "Arguments for dimensionality reduction did not include the class e.g. PCA"
  | None => Ok (reduction m, dim_reduction_args m)
  end.

(** [_set_params]: the four parts in the order of the source (execution,
    scaler, estimator, reduction).  The debug log (its file and the class
    counter [log_no]) is not modelled. *)
Definition _set_params (m : Model) (estimator_args scaler_args execution_args : string)
  (dim_args : option string) : Result Model :=
  ex <-? set_execution_params execution_args ;;
  sc <-? set_scaler_params scaler_args m ;;
  es <-? set_estimator_params estimator_args m ;;
  rd <-? set_reduction_params dim_args m ;;
  let '(scl, ms, sh, skw) := sc in
  Ok (mkModel (name m) (e_overwrite ex) (e_debug ex) (e_test_size ex) (e_random_state ex)
        (e_compress ex) (e_retain_data ex) scl ms sh skw (fst es) (snd es)
        (fst rd) (snd rd) (dim_reduction m) (features_df m) (pipe m)
        (estimation_step m) (score m)).

(** [setup(dim_reduction)]: request columns [model_name, estimator_args,
    scaler_args, (dim_reduction_args,) execution_args]; the response is the
    model name (the timestamp of the status row is not modelled). *)
Definition setup (dim_red : bool) (request : list (list string)) : M string :=
  n <- lift (cell request 0 0) ;;
  est <- lift (cell request 0 1) ;;
  scl <- lift (cell request 0 2) ;;
  exe <- lift (cell request 0 (if dim_red then 4 else 3)) ;;
  dra <- lift (if dim_red then (a <-? cell request 0 3 ;; Ok (Some a)) else Ok None) ;;
  m <- lift (_set_params (PersistentModel_new n) est scl exe dra) ;;
  l <- alloc (OModel (set_dim_reduction dim_red m)) ;;
  l <- save l ;;
  _update_cache l ;;;
  ret n.

Fixpoint map_result {A B} (f : A -> Result B) (l : list A) : Result (list B) :=
  match l with
  | [] => Ok []
  | x :: l' => y <-? f x ;; ys <-? map_result f l' ;; Ok (y :: ys)
  end.

(** [[x[col] for x in self.request_df.values.tolist()]] *)
Definition column (rows : list (list string)) (col : nat) : Result (list string) :=
  map_result (fun r => match nth_error r col with Some v => Ok v | None => Raise IndexError end) rows.

(** [set_features]: the decoded request rows become the model's feature
    frame (a new frame object), then the model is saved and cached. *)
Definition set_features (request : list FeatureSpec) : M string :=
  n <- lift (match request with r :: _ => Ok (f_model_name r) | [] => Raise (KeyError "0") end) ;;
  l <- _get_model n ;;
  m <- read_model l ;;
  fl <- alloc (OFrame (mkFrame request [])) ;;
  write l (OModel (set_features_df (Some fl) m)) ;;;
  l <- save l ;;
  _update_cache l ;;;
  ret n.

(** A row of the [get_features] response. *)
Record FeatureRow := mkFeatureRow {
  r_model_name : string;
  r_sort_order : Z;
  r_name : string;
  r_variable_type : string;
  r_data_type : string;
  r_feature_strategy : string;
  r_hash_features : Z
}.

(** [[i+1 for i in range(n)]] *)
Definition sort_order_values (n : nat) : list Z :=
  map (fun i => Z.of_nat (i + 1)) (seq 0 n).

(** [get_features]:
<<
    self.response = self.model.features_df
    self.response["sort_order"] = pd.Series([i+1 for i in range(len(self.response.index))], ...)
    self.response = self.response[["model_name", "sort_order", "name", ...]]
>>
    The first assignment aliases the model's frame, so the column is added
    to the frame object the model refers to. *)
Definition get_features (request : list (list string)) : M (list FeatureRow) :=
  n <- lift (cell request 0 0) ;;
  l <- _get_model n ;;
  m <- read_model l ;;
  p <- read_features m ;;
  let fl := fst p in
  let f := snd p in
  let f' := frame_set_column "sort_order" (sort_order_values (length (frame_rows f))) f in
  write fl (OFrame f') ;;;
  so <- lift (attr "sort_order" (od_get "sort_order" (frame_extra f'))) ;;
  ret (map (fun zr => let r := snd zr in
                      mkFeatureRow (f_model_name r) (fst zr) (f_name r) (variable_type r)
                                   (data_type r) (feature_strategy r) (hash_features r))
           (combine so (frame_rows f'))).

Definition is_target (r : FeatureSpec) : bool := String.eqb (variable_type r) "target".

(** [features_df['variable_type'].isin(["excluded", "target", "identifier"])] *)
Definition excluded_role (r : FeatureSpec) : bool :=
  existsb (String.eqb (variable_type r)) ["excluded"; "target"; "identifier"].

(** [fit]: request columns [model_name, n_features].  Assignments to
    [self.model.<attr>] are writes to the model object the cache refers
    to.  Keeping the split data in the model ([retain_data]) is not
    modelled, nor is the timestamp of the status row.

    The first part, up to the construction of the preprocessor, returns the
    model reference, the model as read, the kept feature rows and the split
    data. *)
Definition fit_prepare (request : list (list string))
  : M (nat * Model * list FeatureSpec * (Data * Data * Data * Data)) :=
  n <- lift (cell request 0 0) ;;
  l <- _get_model n ;;
  m <- read_model l ;;
  p <- read_features m ;;
  let f := snd p in
  feats <- lift (column request 1) ;;
  data <- lift (convert_types E (frame_rows f) feats) ;;
  (* target = features_df.loc[features_df["variable_type"] == "target"]; target.index[0] *)
  target_name <- lift (match filter is_target (frame_rows f) with
                       | t :: _ => Ok (f_name t)
                       | [] => Raise IndexError
                       end) ;;
  (* self.model.features_df = self.model.features_df.loc[~exclusions] *)
  let exclusions := map excluded_role (frame_rows f) in
  fl' <- alloc (OFrame (frame_loc_mask (map negb exclusions) f)) ;;
  write l (OModel (set_features_df (Some fl') m)) ;;;
  let kept := filter (fun r => negb (excluded_role r)) (frame_rows f) in
  sp <- lift (train_test_split E data target_name (map f_name kept) (test_size m) (random_state m)) ;;
  lift (Preprocessor_init E kept m) ;;;
  ret (l, m, kept, sp).

(** The second part: the estimator (and reduction) from the registries,
    the pipeline, fitting, scoring, saving and caching. *)
Definition fit_pipeline (l : nat) (m : Model) (sp : Data * Data * Data * Data) : M (string * Q) :=
  let '(X_train, X_test, y_train, y_test) := sp in
  (* estimator = self.algorithms[self.model.estimator]( **self.model.estimator_kwargs) *)
  en <- lift (attr "estimator" (estimator m)) ;;
  cls <- lift (registry_lookup algorithms en) ;;
  lift (construct E cls (estimator_kwargs m)) ;;;
  let p0 := mkPipeline [("preprocessor", Preprocessor); ("estimator", EstimatorStage cls [])] false in
  m1 <- read_model l ;;
  write l (OModel (set_pipe (Some p0) 1 m1)) ;;;
  (* reduction = self.decomposers[self.model.reduction]( **self.model.dim_reduction_kwargs);
     [_set_params] stores the reduction parameters as [dim_reduction_args], so the
     attribute read next is never assigned in this file (and [Pipeline] has no
     [insert] method either): the branch raises after the registry lookup. *)
  (if dim_reduction m then
     rn <- lift (attr "reduction" (reduction m)) ;;
     lift (registry_lookup decomposers rn) ;;;
     raise (AttributeError "dim_reduction_kwargs")
   else ret tt) ;;;
  fs <- lift (pipe_fit E (steps p0) X_train y_train) ;;
  m2 <- read_model l ;;
  write l (OModel (set_pipe (Some (mkPipeline fs true)) (estimation_step m2) m2)) ;;;
  sc <- lift (pipe_score E fs X_test y_test) ;;
  m3 <- read_model l ;;
  write l (OModel (set_score sc m3)) ;;;
  l <- save l ;;
  _update_cache l ;;;
  ret (name m3, sc).

Definition fit (request : list (list string)) : M (string * Q) :=
  r <- fit_prepare request ;;
  let '(l, m, _, sp) := r in
  fit_pipeline l m sp.

(** [self.model.pipe.steps[k][1].classes_] *)
Definition classes_at (p : Pipeline) (k : nat) : Result (list string) :=
  match nth_error (steps p) k with
  | Some (_, EstimatorStage _ cs) => Ok cs
  | Some _ => Raise (AttributeError "classes_")
  | None => Raise IndexError
  end.

(** The inner loop of the probability formatting:
<<
    for b in a:
        s = s + ", {0}: {1:.3f}".format(self.model.pipe.steps[self.model.estimation_step][1].classes_[i], b)
        i = i + 1
>> *)
Fixpoint proba_loop (p : Pipeline) (k : nat) (i : nat) (a : list Q) (s : string) : Result string :=
  match a with
  | [] => Ok s
  | b :: a' =>
      cs <-? classes_at p k ;;
      c <-? (match nth_error cs i with Some c => Ok c | None => Raise IndexError end) ;;
      proba_loop p k (S i) a' (s ++ ", " ++ c ++ ": " ++ fmt3 E b)
  end.

(** [s[2:]] *)
Definition drop2 (s : string) : string := substring 2 (String.length s - 2) s.

(** One response row: [probabilities.append(s[2:])]. *)
Definition proba_row (p : Pipeline) (k : nat) (a : list Q) : Result string :=
  s <-? proba_loop p k 0 a "" ;; Ok (drop2 s).

(** The response of [predict]: a [Series] of results for a chart
    expression, or the request rows [(model_name, key)] joined with the
    results on the key for the load script. *)
Inductive Response :=
| Series (vals : list string)
| Keyed (rows : list (string * string * string)).

(** [self.request_df.join(self.response)] on the key index: each request row
    is paired with every result whose key equals its own, in order. *)
Definition join_on_key (left : list (string * string)) (right : list (string * string))
  : list (string * string * string) :=
  flat_map (fun nk => map (fun kr => (fst nk, snd nk, snd kr))
                          (filter (fun kr => String.eqb (fst kr) (snd nk)) right)) left.

(** The part of [predict] before the pipeline is used: the request, the
    model ([_get_model]) and the converted feature rows [self.X]. *)
Definition predict_input (load_script : bool) (request : list (list string)) : M (Model * Data) :=
  let feature_col_num := if load_script then 2 else 1 in
  n <- lift (cell request 0 0) ;;
  l <- _get_model n ;;
  m <- read_model l ;;
  p <- read_features m ;;
  feats <- lift (column request feature_col_num) ;;
  X <- lift (convert_types E (frame_rows (snd p)) feats) ;;
  ret (m, X).

(** The use of the pipeline: [self.model.pipe.predict_proba(self.X)] and the
    like; [pipe] unset is an attribute error, an unfitted pipeline raises
    scikit-learn's [NotFittedError]. *)
Definition predict_values (variant : string) (m : Model) (X : Data) : Result (list string) :=
  if String.eqb variant "predict_proba" || String.eqb variant "predict_log_proba" then
    pp <-? attr variant (pipe m) ;;
    ys <-? (if fitted pp then
              if String.eqb variant "predict_proba"
              then pipe_predict_proba E (steps pp) X
              else pipe_predict_log_proba E (steps pp) X
            else Raise NotFittedError) ;;
    map_result (proba_row pp (estimation_step m)) ys
  else
    pp <-? attr "predict" (pipe m) ;;
    if fitted pp then pipe_predict E (steps pp) X else Raise NotFittedError.

(** [predict(load_script, variant)]: request columns [model_name, (key,)
    n_features]. *)
Definition predict (load_script : bool) (variant : string) (request : list (list string)) : M Response :=
  mx <- predict_input load_script request ;;
  y <- lift (predict_values variant (fst mx) (snd mx)) ;;
  if load_script then
    names <- lift (column request 0) ;;
    keys <- lift (column request 1) ;;
    ret (Keyed (join_on_key (combine names keys) (combine keys y)))
  else ret (Series y).

End Program.

(** ** A concrete environment for running the model

    [demo_get_kwargs] follows the spec's description of the argument
    strings (comma separated [key=value] tokens, surrounding spaces
    ignored, a token without [=] is rejected, the last duplicate wins); the
    numeric collaborators are replaced by small deterministic stand-ins. *)

Fixpoint split_on (c : ascii) (s : string) : list string :=
  match s with
  | EmptyString => [EmptyString]
  | String c' s' =>
      if Ascii.eqb c c' then EmptyString :: split_on c s'
      else match split_on c s' with
           | w :: ws => String c' w :: ws
           | [] => [String c' EmptyString]
           end
  end.

Fixpoint drop_spaces (s : string) : string :=
  match s with
  | EmptyString => EmptyString
  | String c s' => if Ascii.eqb c " "%char then drop_spaces s' else String c (drop_spaces s')
  end.

Definition demo_token (tok : string) : Result (string * string) :=
  match split_on "="%char (drop_spaces tok) with
  | [k; v] => Ok (k, v)
  | _ => Raise (ValueError tok)
  end.

Definition demo_get_kwargs (s : string) : Result (list (string * string)) :=
  toks <-? map_result demo_token (split_on ","%char s) ;;
  Ok (fold_left (fun d kv => od_set (fst kv) (snd kv) d) toks []).

Definition digit_of (c : ascii) : option Z :=
  let n := nat_of_ascii c in
  if Nat.leb 48 n && Nat.leb n 57 then Some (Z.of_nat (n - 48)) else None.

Fixpoint digits_acc (s : string) (acc : Z) : option Z :=
  match s with
  | EmptyString => Some acc
  | String c s' => match digit_of c with
                   | Some d => digits_acc s' (10 * acc + d)
                   | None => None
                   end
  end.

Definition demo_atoi (s : string) : Result Z :=
  match s with
  | EmptyString => Raise (ValueError s)
  | _ => match digits_acc s 0 with Some z => Ok z | None => Raise (ValueError s) end
  end.

Definition demo_atof (s : string) : Result Q :=
  match split_on "."%char s with
  | [i] => z <-? demo_atoi i ;; Ok (inject_Z z)
  | [i; f] => zi <-? demo_atoi i ;; zf <-? demo_atoi f ;;
              Ok (Qplus (inject_Z zi) (Qmake zf (Pos.of_nat (Nat.pow 10 (String.length f)))))
  | _ => Raise (ValueError s)
  end.

Fixpoint digits_rev (fuel : nat) (z : Z) : string :=
  match fuel with
  | O => EmptyString
  | S fuel' =>
      let d := String (ascii_of_nat (48 + Z.to_nat (z mod 10))) EmptyString in
      if Z.ltb z 10 then d else digits_rev fuel' (z / 10) ++ d
  end.

Definition z_to_string (z : Z) : string := digits_rev 40 z.

(** ["{:.3f}".format(q)] for non-negative [q], rounding half up. *)
Definition demo_fmt3 (q : Q) : string :=
  let t := ((Qnum q * 1000 * 2 + Zpos (Qden q)) / (2 * Zpos (Qden q)))%Z in
  let fr := (t mod 1000)%Z in
  z_to_string (t / 1000) ++ "." ++
  (if Z.ltb fr 10 then "00" else if Z.ltb fr 100 then "0" else "") ++ z_to_string fr.

(** A two-class estimator: fitting records the classes ["0"; "1"]. *)
Definition demo_fit (stp : list (string * Stage)) (X y : Data) : Result (list (string * Stage)) :=
  Ok (map (fun s => match snd s with
                    | EstimatorStage c _ => (fst s, EstimatorStage c ["0"; "1"])
                    | _ => s
                    end) stp).

(** A concrete set of collaborators for the examples. Its [convert_types]
    splits each request row on ["|"] and, as [pd.DataFrame(rows,
    columns=...)] does, refuses a row whose field count differs from the
    number of contract columns. *)
Definition demo_env : Env :=
  mkEnv demo_get_kwargs
        (fun kw => Ok (map (fun kv => (fst kv, VStr (snd kv))) kw))
        demo_atof demo_atoi
        (fun rows feats =>
           map_result (fun x => let vals := split_on "|"%char x in
                                if Nat.eqb (length vals) (length rows) then Ok (map VStr vals)
                                else Raise (ValueError x)) feats)
        (fun _ _ => Ok tt)
        (fun _ _ => Ok tt)
        (fun d _ _ _ _ => Ok (d, d, d, d))
        demo_fit
        (fun _ _ _ => Ok (4 # 5))
        (fun _ X => Ok (map (fun _ => "1") X))
        (fun _ X => Ok (map (fun _ => [1 # 4; 3 # 4]) X))
        (fun _ X => Ok (map (fun _ => [1 # 4; 3 # 4]) X))
        demo_fmt3.

Definition empty_state : State := mkState (fun _ => None) 0 [] (fun _ => None).

Definition demo_features : list FeatureSpec :=
  [mkFeatureSpec "m1" "id" "identifier" "str" "one hot" 0;
   mkFeatureSpec "m1" "f1" "feature" "float" "scaling" 0;
   mkFeatureSpec "m1" "y" "target" "int" "none" 0;
   mkFeatureSpec "m1" "f2" "feature" "float" "scaling" 0].

(** configure, define features, train *)
Definition demo_trained : State :=
  snd ((setup demo_env false [["m1"; "estimator=RandomForestClassifier"; "scaler=StandardScaler"; "test_size=0.25"]] ;;;
        set_features demo_features ;;;
        fit demo_env [["m1"; "a|1|0|2"]; ["m1"; "b|2|1|3"]]) empty_state).

(** ** Observations on states and responses *)

(** The model [_get_model] resolves for a name: the cached object, else the
    stored snapshot. *)
Definition resolve_model (n : string) (st : State) : option Model :=
  if od_mem n (model_cache st) then
    match od_get n (model_cache st) with
    | Some l => match heap st l with Some (OModel m) => Some m | _ => None end
    | None => None
    end
  else option_map snap_model (store st n).

(** The feature contract (frame rows) of the model [_get_model] resolves. *)
Definition contract_of (n : string) (st : State) : option (list FeatureSpec) :=
  if od_mem n (model_cache st) then
    match od_get n (model_cache st) with
    | Some l =>
        match heap st l with
        | Some (OModel m) =>
            match features_df m with
            | Some fl => match heap st fl with Some (OFrame f) => Some (frame_rows f) | _ => None end
            | None => None
            end
        | _ => None
        end
    | None => None
    end
  else match store st n with
       | Some s => option_map frame_rows (snap_features s)
       | None => None
       end.

(** The states the class produces: every reference below [next_loc] is
    unused above it, the cache maps a name to a model of that name, and a
    snapshot is stored under its model's name. *)
Definition well_formed (st : State) : Prop :=
  (forall l, next_loc st <= l -> heap st l = None) /\
  (forall k l, In (k, l) (model_cache st) -> exists m, heap st l = Some (OModel m) /\ name m = k) /\
  (forall k s, store st k = Some s -> name (snap_model s) = k).

(** The row format of the spec: one ["class: value"] pair per class,
    comma separated, classes in the estimator's [classes_] order. *)
Definition proba_spec (fmt : Q -> string) (cs : list string) (a : list Q) : string :=
  String.concat ", " (map (fun cb => fst cb ++ ": " ++ fmt (snd cb)) (combine cs a)).

(** [classes_] of the estimation step, when it has one. *)
Definition estimator_classes (p : Pipeline) (k : nat) : list string :=
  match classes_at p k with Ok cs => cs | Raise _ => [] end.

(** The result column of a [predict] response. *)
Definition response_results (r : Response) : list string :=
  match r with
  | Series vals => vals
  | Keyed rows => map snd rows
  end.

(** An execution argument string that does not set [key]. *)
Definition omits (E : Env) (execution_args key : string) : Prop :=
  String.length execution_args = 0 \/
  exists kw, get_kwargs E execution_args = Ok kw /\ od_get key kw = None.

(** ** Concrete scenarios *)

(** A full cache of [m1, m2, m3] into which [m3] is put again. *)
Definition reput_state : State := mkState demo_heap 4 [("m1", 0); ("m2", 1); ("m3", 2)] (fun _ => None).

(** A model whose contract has two target-role entries. *)
Definition two_target_features : list FeatureSpec :=
  [mkFeatureSpec "m2" "y1" "target" "int" "none" 0;
   mkFeatureSpec "m2" "f1" "feature" "float" "scaling" 0;
   mkFeatureSpec "m2" "y2" "target" "int" "none" 0].

(** A training request for it: eight rows of three fields [y1|f1|y2], one
    per contract column, with both label values. *)
Definition two_target_request : list (list string) :=
  [["m2"; "0|0.5|1"]; ["m2"; "1|1.5|0"]; ["m2"; "0|2.5|1"]; ["m2"; "1|3.5|0"];
   ["m2"; "0|4.5|1"]; ["m2"; "1|5.5|0"]; ["m2"; "0|6.5|1"]; ["m2"; "1|7.5|0"]].


(** the model configured by [estimator=SVC], [scaler=StandardScaler], [test_size=0.25] *)
Definition demo_configured : Model :=
  mkModel "m1" false false (Qplus (inject_Z 0) (25 # 100)) 42 3 false
    (Some "StandardScaler") None None [] (Some "SVC") [] None [] false None None 0 None.

(** configured and with features, not trained *)
Definition demo_untrained : State :=
  snd ((setup demo_env false [["m1"; "estimator=RandomForestClassifier"; "scaler=StandardScaler"; "test_size=0.25"]] ;;;
        set_features demo_features) empty_state).

(** configured with an estimator name outside the registry *)
Definition demo_unknown_estimator : State :=
  snd ((setup demo_env false [["m1"; "estimator=Forest"; "scaler=StandardScaler"; ""]] ;;;
        set_features demo_features) empty_state).

(** a state holding one cached model, configured and with features, whose
    snapshot store is empty *)
Definition demo_cached : State :=
  mkState (fun l => match l with
                    | 0 => Some (OModel (set_features_df (Some 1) demo_configured))
                    | 1 => Some (OFrame (mkFrame demo_features []))
                    | _ => None
                    end) 2 [("m1", 0)] (fun _ => None).

(** ** The remaining entry points of the class *)

(** [get_features_expression]: request column [model_name]; the response
    is the names of the model's feature frame, each in brackets, joined by
    the Qlik concatenation [" &'|'& "]:
<<
    delimiter = " &'|'& "
    features = self.model.features_df["name"].tolist()
    self.response = pd.Series(delimiter.join(["[" + f + "]" for f in features]))
>>
    As for the other entry points, the table description sent to Qlik and
    the debug log are not modelled. *)
Definition get_features_expression (request : list (list string)) : M string :=
  n <- lift (cell request 0 0) ;;
  l <- _get_model n ;;
  m <- read_model l ;;
  p <- read_features m ;;
  let delimiter := " &'|'& " in
  let features := map f_name (frame_rows (snd p)) in
  ret (String.concat delimiter (map (fun f => "[" ++ f ++ "]") features)).






Section ListModels.

(** The model directory [self.path], and [list(pathlib.Path(path).glob(pattern))]:
    the string form [str(p)] of each path it yields, or the exception it
    raises (pathlib refuses an absolute pattern with NotImplementedError,
    a pattern whose ['**'] is not a whole path segment with ValueError, and
    the pattern ["."] with IndexError). *)
Context (path : string) (glob : string -> string -> Result (list string)).


End ListModels.

(** The shape of the class-level cache: distinct names and at most
    [cache_limit] entries. *)
Definition cache_ok (st : State) : Prop :=
  NoDup (od_keys (model_cache st)) /\ length (model_cache st) <= cache_limit.

(** A state holding one cached model [m1] (at reference 0, with the frame
    of [demo_features] at reference 1) and an empty snapshot store. *)
Definition one_model_state (m : Model) : State :=
  mkState (fun l => match l with
                    | 0 => Some (OModel (set_features_df (Some 1) m))
                    | 1 => Some (OFrame (mkFrame demo_features []))
                    | _ => None
                    end) 2 [("m1", 0)] (fun _ => None).

(** [m1] configured with an estimator name outside [algorithms] *)
Definition demo_unknown_model : Model :=
  mkModel "m1" false false (1 # 4) 42 3 false
    (Some "StandardScaler") None None [] (Some "Forest") [] None [] false None None 0 None.

(** A computation keeps the state property [P] when every run from a state
    satisfying [P] ends in a state satisfying [P], whatever its outcome. *)
Definition keeps (P : State -> Prop) {A} (c : M A) : Prop :=
  forall st r st', P st -> c st = (r, st') -> P st'.



(** The requests a client sends one after another: each runs on the state
    the previous one left, whether that one succeeded or raised (the cache
    is class-level and the snapshots are on disk). *)
Inductive Call :=
| CSetup (dim_red : bool) (request : list (list string))
| CSetFeatures (request : list FeatureSpec)
| CGetFeatures (request : list (list string))
| CGetFeaturesExpression (request : list (list string))
| CFit (request : list (list string))
| CPredict (load_script : bool) (variant : string) (request : list (list string)).

Definition run_call (E : Env) (c : Call) (st : State) : State :=
  match c with
  | CSetup b r => snd (setup E b r st)
  | CSetFeatures r => snd (set_features r st)
  | CGetFeatures r => snd (get_features r st)
  | CGetFeaturesExpression r => snd (get_features_expression r st)
  | CFit r => snd (fit E r st)
  | CPredict ls v r => snd (predict E ls v r st)
  end.

Definition run_calls (E : Env) (cs : list Call) (st : State) : State :=
  fold_left (fun s c => run_call E c s) cs st.

(** A [set_features] request whose first row names model [n]. *)
Definition sets_features_of (n : string) (c : Call) : bool :=
  match c with
  | CSetFeatures (r :: _) => String.eqb (f_model_name r) n
  | _ => false
  end.

(** Model [n] has no feature frame: every cache entry for [n] refers to a
    model without [features_df], and its snapshot has no frame. *)
Definition awaiting_features (n : string) (st : State) : Prop :=
  well_formed st /\
  (forall l, In (n, l) (model_cache st) -> exists m, heap st l = Some (OModel m) /\ features_df m = None) /\
  (exists s, store st n = Some s /\ snap_features s = None).

(** * Proofs *)

(** ** OrderedDict lemmas *)

Lemma od_get_mem {A} (k : string) (v : A) d : od_get k d = Some v -> od_mem k d = true.
Proof.
  induction d as [| [k' w] d IH]; simpl; [discriminate |].
  destruct (String.eqb k' k); simpl; auto.
Qed.

Lemma od_get_in {A} (k : string) (v : A) d : od_get k d = Some v -> In (k, v) d.
Proof.
  induction d as [| [k' w] d IH]; simpl; [discriminate |].
  destruct (String.eqb_spec k' k) as [-> | _]; [intros H; inversion H; auto | auto].
Qed.

Lemma od_get_set_same {A} (k : string) (v : A) d : od_get k (od_set k v d) = Some v.
Proof.
  unfold od_set. destruct (od_mem k d) eqn:Hm.
  - induction d as [| [k' w] d IH]; simpl in *; [discriminate |].
    destruct (String.eqb_spec k' k) as [-> | Hne]; simpl.
    + now rewrite String.eqb_refl.
    + apply String.eqb_neq in Hne. rewrite Hne. auto.
  - induction d as [| [k' w] d IH]; simpl in *.
    + now rewrite String.eqb_refl.
    + destruct (String.eqb k' k); [discriminate | auto].
Qed.

(** ** The model cache *)

(** C1 (corrected). A cache hit in [_get_model] returns the cached model and
    leaves the cache order (indeed the whole state) unchanged: the entry is
    not promoted.  Hence, with capacity 3, after put m1, put m2, put m3,
    get m1 (a hit), put m4, the cache holds m2, m3, m4 and m1 (the oldest
    insertion) has been evicted. *)
Theorem get_model_hit_no_promotion (n : string) (st : State) (l : nat) :
  od_get n (model_cache st) = Some l ->
  _get_model n st = (Ok l, st) /\ fst (eviction_run demo_state) = Ok ["m2"; "m3"; "m4"].
Proof.
  intros H. split; [| reflexivity].
  unfold _get_model, bind, get_cache, ret.
  rewrite (od_get_mem _ _ _ H), H. reflexivity.
Qed.

Lemma get_model_hit_no_promotion_witness :
  od_get "m1" (model_cache (snd (_update_cache 0 demo_state))) = Some 0 /\
  _get_model "m1" (snd (_update_cache 0 demo_state)) = (Ok 0, snd (_update_cache 0 demo_state)) /\
  fst (eviction_run demo_state) = Ok ["m2"; "m3"; "m4"].
Proof.
  split; [reflexivity |].
  apply get_model_hit_no_promotion. reflexivity.
Defined.

(** C1 refuted as stated: after put m1, put m2, put m3, get m1, put m4 the
    cache does not hold exactly the names m3, m1, m4. *)
Lemma eviction_run_not_lru :
  ~ (exists keys, fst (eviction_run demo_state) = Ok keys /\
                  (forall k, In k keys <-> In k ["m3"; "m1"; "m4"])).
Proof.
  intros [keys [H1 H2]].
  assert (Hk : keys = ["m2"; "m3"; "m4"]) by (vm_compute in H1; congruence).
  subst keys.
  assert (H : In "m1" ["m2"; "m3"; "m4"]) by (apply (proj2 (H2 "m1")); simpl; auto).
  simpl in H. repeat (destruct H as [H | H]; [discriminate H |]). exact H.
Qed.

(** C2 (code defect). Putting [m3] again into the full cache [m1, m2, m3]
    first evicts the oldest entry [m1], then drops the old [m3] and appends
    the new one: the cache ends with two entries. *)
Theorem update_cache_reput_evicts_other :
  fst (_update_cache 2 reput_state) = Ok tt /\
  model_cache (snd (_update_cache 2 reput_state)) = [("m2", 1); ("m3", 2)].
Proof. split; reflexivity. Qed.

(** ** Configuration: [_set_params] and [setup] *)

Ltac destruct_binds_in H :=
  repeat match type of H with
         | context [rbind ?r _] => destruct r eqn:?; cbn [rbind] in H
         | context [match od_get ?k ?d with _ => _ end] => destruct (od_get k d) eqn:?; cbn [rbind] in H
         end.

Lemma execution_params_defaults (E : Env) (exe : string) (ex : ExecParams) :
  set_execution_params E exe = Ok ex ->
  (omits E exe "overwrite" -> e_overwrite ex = false) /\
  (omits E exe "test_size" -> e_test_size ex = 33 # 100) /\
  (omits E exe "random_state" -> e_random_state ex = 42%Z) /\
  (omits E exe "compress" -> e_compress ex = 3%Z) /\
  (omits E exe "retain_data" -> e_retain_data ex = false) /\
  (omits E exe "debug" -> e_debug ex = false).
Proof.
  unfold set_execution_params. intros H.
  destruct (Nat.ltb 0 (String.length exe)) eqn:Hl.
  - destruct (get_kwargs E exe) as [kw | e] eqn:Hk; simpl in H; [| discriminate].
    assert (Hom : forall key, omits E exe key -> od_get key kw = None).
    { intros key [H0 | [kw' [Hk' Hn]]].
      - rewrite H0 in Hl. discriminate.
      - rewrite Hk in Hk'. inversion Hk'. subst. exact Hn. }
    repeat split; intros Hx; apply Hom in Hx; rewrite Hx in H; cbn [rbind] in H;
      destruct_binds_in H; try discriminate; inversion H; subst; reflexivity.
  - inversion H; subst. repeat split; reflexivity.
Qed.

(** C9. When configuration succeeds, every execution keyword the argument
    string does not set keeps its default: overwrite=false, test_size=0.33,
    random_state=42, compress=3, retain_data=false, debug=false. *)
Theorem set_params_execution_defaults (E : Env) (m : Model)
  (est scl exe : string) (dra : option string) (m' : Model) :
  _set_params E m est scl exe dra = Ok m' ->
  (omits E exe "overwrite" -> overwrite m' = false) /\
  (omits E exe "test_size" -> test_size m' = 33 # 100) /\
  (omits E exe "random_state" -> random_state m' = 42%Z) /\
  (omits E exe "compress" -> compress m' = 3%Z) /\
  (omits E exe "retain_data" -> retain_data m' = false) /\
  (omits E exe "debug" -> debug m' = false).
Proof.
  unfold _set_params. intros H.
  destruct (set_execution_params E exe) as [ex | e] eqn:Hx; simpl in H; [| discriminate].
  destruct (set_scaler_params E scl m) as [[[[sc ms] sh] skw] | e]; simpl in H; [| discriminate].
  destruct (set_estimator_params E est m) as [es | e]; simpl in H; [| discriminate].
  destruct (set_reduction_params E dra m) as [rd | e]; simpl in H; [| discriminate].
  inversion H; subst. simpl. exact (execution_params_defaults E exe ex Hx).
Qed.

Lemma set_params_execution_defaults_witness :
  _set_params demo_env (PersistentModel_new "m1") "estimator=SVC" "scaler=StandardScaler"
    "test_size=0.25" None = Ok demo_configured /\
  (omits demo_env "test_size=0.25" "overwrite" -> overwrite demo_configured = false) /\
  (omits demo_env "test_size=0.25" "test_size" -> test_size demo_configured = 33 # 100) /\
  (omits demo_env "test_size=0.25" "random_state" -> random_state demo_configured = 42%Z) /\
  (omits demo_env "test_size=0.25" "compress" -> compress demo_configured = 3%Z) /\
  (omits demo_env "test_size=0.25" "retain_data" -> retain_data demo_configured = false) /\
  (omits demo_env "test_size=0.25" "debug" -> debug demo_configured = false).
Proof.
  assert (H : _set_params demo_env (PersistentModel_new "m1") "estimator=SVC" "scaler=StandardScaler"
                "test_size=0.25" None = Ok demo_configured) by reflexivity.
  split; [exact H |].
  exact (set_params_execution_defaults demo_env (PersistentModel_new "m1") "estimator=SVC"
           "scaler=StandardScaler" "test_size=0.25" None demo_configured H).
Defined.

Lemma scaler_missing_raises (E : Env) (scl : string) (m : Model) kw :
  0 < String.length scl -> get_kwargs E scl = Ok kw -> od_mem "scaler" kw = false ->
  set_scaler_params E scl m = Raise (AttributeError "debug").
Proof.
  intros Hl Hk Hm. unfold set_scaler_params.
  rewrite (proj2 (Nat.ltb_lt _ _) Hl), Hk. cbn [rbind]. rewrite Hm. reflexivity.
Qed.

Lemma estimator_missing_raises (E : Env) (est : string) (m : Model) kw :
  0 < String.length est -> get_kwargs E est = Ok kw -> od_mem "estimator" kw = false ->
  set_estimator_params E est m = Raise (AttributeError "debug").
Proof.
  intros Hl Hk Hm. unfold set_estimator_params.
  rewrite (proj2 (Nat.ltb_lt _ _) Hl), Hk. cbn [rbind]. rewrite Hm. reflexivity.
Qed.

Lemma reduction_missing_raises (E : Env) (dra : string) (m : Model) kw :
  get_kwargs E dra = Ok kw -> od_mem "reduction" kw = false ->
  set_reduction_params E (Some dra) m = Raise (AttributeError "debug").
Proof.
  intros Hk Hm. unfold set_reduction_params. rewrite Hk. cbn [rbind]. rewrite Hm. reflexivity.
Qed.

(** [_set_params] fails when a selector key is missing; the error is the
    one of [_print_exception], unless an argument part handled earlier
    failed first. *)
Lemma set_params_missing_selector (E : Env) (m : Model) (est scl exe : string)
  (dra : option string) kw :
  (0 < String.length scl /\ get_kwargs E scl = Ok kw /\ od_mem "scaler" kw = false) \/
  (0 < String.length est /\ get_kwargs E est = Ok kw /\ od_mem "estimator" kw = false) \/
  (exists d, dra = Some d /\ get_kwargs E d = Ok kw /\ od_mem "reduction" kw = false) ->
  exists e, _set_params E m est scl exe dra = Raise e /\
    (e = AttributeError "debug" \/ set_execution_params E exe = Raise e \/
     set_scaler_params E scl m = Raise e \/ set_estimator_params E est m = Raise e).
Proof.
  intros Hc. unfold _set_params.
  destruct (set_execution_params E exe) as [ex | e] eqn:Hx; cbn [rbind];
    [| exists e; auto].
  destruct (set_scaler_params E scl m) as [sc | e] eqn:Hs; cbn [rbind];
    [| exists e; auto].
  destruct (set_estimator_params E est m) as [es | e] eqn:He; cbn [rbind];
    [| exists e; auto].
  destruct Hc as [[Hl [Hk Hm]] | [[Hl [Hk Hm]] | [d [Hd [Hk Hm]]]]].
  - rewrite (scaler_missing_raises E scl m kw Hl Hk Hm) in Hs. discriminate.
  - rewrite (estimator_missing_raises E est m kw Hl Hk Hm) in He. discriminate.
  - subst dra. rewrite (reduction_missing_raises E d m kw Hk Hm). exists (AttributeError "debug"). auto.
Qed.

(** C3. A configure call whose non-empty scaler arguments lack [scaler],
    whose non-empty estimator arguments lack [estimator], or whose reduction
    arguments lack [reduction] fails and leaves the whole state (cache,
    store, heap) as it was: no model, hence no pipeline, is produced.  The
    error is the selector check's (raised through [_print_exception]) unless
    an argument string handled earlier (execution, then scaler, then
    estimator arguments) failed first. *)
Theorem setup_missing_selector_fails (E : Env) (dim_red : bool) (n est scl dra exe : string)
  (kw : list (string * string)) (st : State) :
  (0 < String.length scl /\ get_kwargs E scl = Ok kw /\ od_mem "scaler" kw = false) \/
  (0 < String.length est /\ get_kwargs E est = Ok kw /\ od_mem "estimator" kw = false) \/
  (dim_red = true /\ get_kwargs E dra = Ok kw /\ od_mem "reduction" kw = false) ->
  exists e,
    setup E dim_red [if dim_red then [n; est; scl; dra; exe] else [n; est; scl; exe]] st = (Raise e, st) /\
    (e = AttributeError "debug" \/ set_execution_params E exe = Raise e \/
     set_scaler_params E scl (PersistentModel_new n) = Raise e \/
     set_estimator_params E est (PersistentModel_new n) = Raise e).
Proof.
  intros Hc.
  destruct (set_params_missing_selector E (PersistentModel_new n) est scl exe
              (if dim_red then Some dra else None) kw) as [e [He Hcl]].
  { destruct Hc as [Hc | [Hc | [Hd Hc]]]; auto.
    right; right. exists dra. subst dim_red. auto. }
  exists e. split; [| exact Hcl].
  destruct dim_red; cbv [setup bind lift cell nth_error rbind]; rewrite He; reflexivity.
Qed.

Lemma setup_missing_selector_fails_witness :
  ((0 < String.length "scaler=StandardScaler" /\
    get_kwargs demo_env "scaler=StandardScaler" = Ok [("n_estimators", "10")] /\
    od_mem "scaler" [("n_estimators", "10")] = false) \/
   (0 < String.length "n_estimators=10" /\
    get_kwargs demo_env "n_estimators=10" = Ok [("n_estimators", "10")] /\
    od_mem "estimator" [("n_estimators", "10")] = false) \/
   (false = true /\ get_kwargs demo_env "" = Ok [("n_estimators", "10")] /\
    od_mem "reduction" [("n_estimators", "10")] = false)) /\
  exists e,
    setup demo_env false [["m1"; "n_estimators=10"; "scaler=StandardScaler"; ""]] empty_state
      = (Raise e, empty_state) /\
    (e = AttributeError "debug" \/ set_execution_params demo_env "" = Raise e \/
     set_scaler_params demo_env "scaler=StandardScaler" (PersistentModel_new "m1") = Raise e \/
     set_estimator_params demo_env "n_estimators=10" (PersistentModel_new "m1") = Raise e).
Proof.
  assert (H : (0 < String.length "scaler=StandardScaler" /\
    get_kwargs demo_env "scaler=StandardScaler" = Ok [("n_estimators", "10")] /\
    od_mem "scaler" [("n_estimators", "10")] = false) \/
   (0 < String.length "n_estimators=10" /\
    get_kwargs demo_env "n_estimators=10" = Ok [("n_estimators", "10")] /\
    od_mem "estimator" [("n_estimators", "10")] = false) \/
   (false = true /\ get_kwargs demo_env "" = Ok [("n_estimators", "10")] /\
    od_mem "reduction" [("n_estimators", "10")] = false)).
  { right; left. split; [simpl; lia | split; reflexivity]. }
  split; [exact H |].
  exact (setup_missing_selector_fails demo_env false "m1" "n_estimators=10" "scaler=StandardScaler"
           "" "" [("n_estimators", "10")] empty_state H).
Defined.

(** ** Monad and model-resolution lemmas *)

Lemma bind_ok {A B} (c : M A) (k : A -> M B) st a st1 :
  c st = (Ok a, st1) -> bind c k st = k a st1.
Proof. unfold bind. intros H. rewrite H. reflexivity. Qed.

Lemma bind_raise {A B} (c : M A) (k : A -> M B) st e st1 :
  c st = (Raise e, st1) -> bind c k st = (Raise e, st1).
Proof. unfold bind. intros H. rewrite H. reflexivity. Qed.

(** Splitting a hypothesis [bind c k st = r] on the outcome of [c]. *)
Ltac split_bind H a s1 Hc :=
  match type of H with
  | bind ?c ?k ?s = _ =>
      let e := fresh "e" in
      destruct (c s) as [[a | e] s1] eqn:Hc;
      [rewrite (bind_ok c k s a s1 Hc) in H; cbv beta in H
      | rewrite (bind_raise c k s e s1 Hc) in H]
  end.

Lemma update_cache_state (l : nat) (st : State) :
  heap (snd (_update_cache l st)) = heap st /\
  next_loc (snd (_update_cache l st)) = next_loc st /\
  store (snd (_update_cache l st)) = store st.
Proof.
  unfold _update_cache, bind, read_model, get_cache, lift, put_cache.
  destruct (heap st l) as [[m | f] |]; simpl; auto.
  destruct (update_cache_dict (name m) l (model_cache st)); simpl; auto.
Qed.

(** A model obtained by [_get_model] is the one the name resolves to, up
    to the reference of its frame (a model loaded from disk gets a fresh
    frame object). *)
Lemma get_model_resolves (n : string) (st st' : State) (l : nat) (m' : Model) :
  _get_model n st = (Ok l, st') -> heap st' l = Some (OModel m') ->
  exists m, resolve_model n st = Some m /\ (m' = m \/ exists fl, m' = set_features_df fl m).
Proof.
  unfold _get_model, resolve_model. intros H Hh.
  unfold bind at 1, get_cache in H.
  destruct (od_mem n (model_cache st)) eqn:Hm.
  - destruct (od_get n (model_cache st)) as [l0 |] eqn:Hg; unfold ret, raise in H;
      inversion H; subst.
    rewrite Hh. exists m'. auto.
  - split_bind H l1 st1 Hl; [| discriminate].
    split_bind H u st2 Hu; [| discriminate].
    unfold ret in H. inversion H; subst.
    destruct (update_cache_state l st1) as [Hh2 _]. rewrite Hu in Hh2. simpl in Hh2.
    rewrite Hh2 in Hh. clear Hu Hh2. rename Hl into Hc.
    unfold load in Hc. destruct (store st n) as [s |] eqn:Hs; [| discriminate].
    simpl. exists (snap_model s). split; [reflexivity | right].
    destruct (snap_features s) as [f |].
    + split_bind Hc fl st3 Hf; [| discriminate].
      unfold alloc in Hf, Hc. inversion Hf; subst. inversion Hc; subst.
      cbn [heap] in Hh. unfold heap_upd in Hh. rewrite Nat.eqb_refl in Hh. inversion Hh. eauto.
    + unfold alloc in Hc. inversion Hc; subst.
      cbn [heap] in Hh. unfold heap_upd in Hh. rewrite Nat.eqb_refl in Hh. inversion Hh. eauto.
Qed.

(** The model [predict] works on has the pipeline of the model the name
    resolves to. *)
Lemma predict_input_model (E : Env) (ls : bool) (request : list (list string)) (st s1 : State)
      (n : string) (m0 : Model) (X : Data) :
  predict_input E ls request st = (Ok (m0, X), s1) -> cell request 0 0 = Ok n ->
  exists m, resolve_model n st = Some m /\ pipe m0 = pipe m /\ estimation_step m0 = estimation_step m.
Proof.
  intros Hp Hcell. unfold predict_input in Hp. cbv zeta in Hp.
  split_bind Hp n' s2 H1; [| discriminate].
  unfold lift in H1. rewrite Hcell in H1. inversion H1; subst.
  split_bind Hp l s3 H2; [| discriminate].
  split_bind Hp m1 s4 H3; [| discriminate].
  unfold read_model in H3. destruct (heap s3 l) as [[mm | f] |] eqn:Hh; inversion H3; subst.
  destruct (get_model_resolves _ _ _ _ _ H2 Hh) as [m [Hr Hm]].
  split_bind Hp q s5 H4; [| discriminate].
  split_bind Hp feats s6 H5; [| discriminate].
  split_bind Hp X' s7 H6; [| discriminate].
  unfold ret in Hp. inversion Hp; subst.
  exists m. split; [exact Hr |].
  destruct Hm as [Hm | [fl Hm]]; subst; split; reflexivity.
Qed.

Lemma predict_values_untrained (E : Env) (variant : string) (m : Model) (X : Data) :
  (pipe m = None \/ exists p, pipe m = Some p /\ fitted p = false) ->
  exists e, predict_values E variant m X = Raise e /\
            (e = AttributeError variant \/ e = AttributeError "predict" \/ e = NotFittedError).
Proof.
  intros [Hn | [p [Hp Hf]]]; unfold predict_values; [rewrite Hn | rewrite Hp];
    destruct (String.eqb variant "predict_proba" || String.eqb variant "predict_log_proba");
    cbn [attr rbind]; try rewrite Hf; cbn [rbind]; eauto 7.
Qed.

(** C5: predict, predict_proba and predict_log_proba on a model without a
    fitted pipeline (its [pipe] unset, or a pipeline that was never fitted)
    raise: an attribute error for the missing pipeline, scikit-learn's
    [NotFittedError] for an unfitted one, or whatever the input preparation
    raised before the pipeline was reached.  No response is produced. *)
Theorem predict_untrained_raises (E : Env) (ls : bool) (variant : string)
        (request : list (list string)) (n : string) (st : State) (m : Model) :
  cell request 0 0 = Ok n -> resolve_model n st = Some m ->
  (pipe m = None \/ exists p, pipe m = Some p /\ fitted p = false) ->
  exists e st', predict E ls variant request st = (Raise e, st') /\
    (e = AttributeError variant \/ e = AttributeError "predict" \/ e = NotFittedError \/
     fst (predict_input E ls request st) = Raise e).
Proof.
  intros Hc Hr Hnp. unfold predict.
  destruct (predict_input E ls request st) as [[[m0 X] | e] s1] eqn:Hp.
  - destruct (predict_input_model E ls request st s1 n m0 X Hp Hc) as [m' [Hr' [Hpipe _]]].
    rewrite Hr in Hr'. inversion Hr'; subst m'.
    assert (Hnp0 : pipe m0 = None \/ exists p, pipe m0 = Some p /\ fitted p = false)
      by (rewrite Hpipe; exact Hnp).
    destruct (predict_values_untrained E variant m0 X Hnp0) as [e [He Hcase]].
    rewrite (bind_ok _ _ _ _ _ Hp). cbv beta. cbn [fst snd].
    unfold bind at 1, lift. rewrite He.
    exists e, s1. split; [reflexivity | tauto].
  - rewrite (bind_raise _ _ _ _ _ Hp). exists e, s1. split; [reflexivity |].
    right; right; right. reflexivity.
Qed.

Lemma predict_untrained_raises_witness :
  exists m, resolve_model "m1" demo_untrained = Some m /\ pipe m = None /\
  exists e st', predict demo_env false "predict" [["m1"; "a|1|0|2"]] demo_untrained = (Raise e, st') /\
    (e = AttributeError "predict" \/ e = AttributeError "predict" \/ e = NotFittedError \/
     fst (predict_input demo_env false [["m1"; "a|1|0|2"]] demo_untrained) = Raise e).
Proof.
  assert (Hp : option_map pipe (resolve_model "m1" demo_untrained) = Some None)
    by (vm_compute; reflexivity).
  destruct (resolve_model "m1" demo_untrained) as [m |] eqn:Hr; [| discriminate Hp].
  injection Hp as Hp.
  exists m. split; [reflexivity | split; [exact Hp |]].
  exact (predict_untrained_raises demo_env false "predict" [["m1"; "a|1|0|2"]] "m1"
           demo_untrained m eq_refl Hr (or_introl Hp)).
Defined.

(** ** Registry lookups and training *)

Lemma registry_lookup_unknown (registry : list string) (key : string) :
  ~ In key registry -> registry_lookup registry key = Raise (KeyError key).
Proof.
  intros Hn. unfold registry_lookup.
  destruct (existsb (String.eqb key) registry) eqn:He; [| reflexivity].
  apply existsb_exists in He. destruct He as [x [Hx Heq]].
  apply String.eqb_eq in Heq. subst x. contradiction.
Qed.

Lemma registry_lookup_known (registry : list string) (key : string) :
  In key registry -> registry_lookup registry key = Ok key.
Proof.
  intros Hi. unfold registry_lookup.
  replace (existsb (String.eqb key) registry) with true; [reflexivity |].
  symmetry. apply existsb_exists. exists key. split; [exact Hi | apply String.eqb_refl].
Qed.

(** After the first part of [fit], the model read is the one the name
    resolves to (up to its frame reference), and the model reference now
    holds it with the filtered frame. *)
Lemma fit_prepare_post (E : Env) (request : list (list string)) (st s1 : State) (n : string)
      (l : nat) (m0 : Model) (kept : list FeatureSpec) (sp : Data * Data * Data * Data) :
  fit_prepare E request st = (Ok (l, m0, kept, sp), s1) -> cell request 0 0 = Ok n ->
  (exists m, resolve_model n st = Some m /\ (m0 = m \/ exists fl, m0 = set_features_df fl m)) /\
  exists fl', heap s1 l = Some (OModel (set_features_df (Some fl') m0)).
Proof.
  intros Hp Hcell. unfold fit_prepare in Hp. cbv zeta in Hp.
  split_bind Hp n' s2 K1; [| discriminate].
  unfold lift in K1. rewrite Hcell in K1. inversion K1; subst.
  split_bind Hp l1 s3 K2; [| discriminate].
  split_bind Hp m1 s4 K3; [| discriminate].
  unfold read_model in K3. destruct (heap s3 l1) as [[mm | f] |] eqn:Hh; inversion K3; subst.
  pose proof (get_model_resolves _ _ _ _ _ K2 Hh) as Hres.
  split_bind Hp q s5 K4; [| discriminate].
  unfold read_features in K4.
  destruct (features_df m1) as [fl |]; [| discriminate].
  destruct (heap s4 fl) as [[mf | f] |]; inversion K4; subst.
  split_bind Hp feats s6 K5; [| discriminate]. unfold lift in K5. inversion K5; subst.
  split_bind Hp X s7 K6; [| discriminate]. unfold lift in K6. inversion K6; subst.
  split_bind Hp tn s8 K7; [| discriminate]. unfold lift in K7. inversion K7; subst.
  split_bind Hp fl' s9 K8; [| discriminate].
  split_bind Hp u s10 K9; [| discriminate]. unfold write in K9. inversion K9; subst.
  split_bind Hp sp' s11 K10; [| discriminate]. unfold lift in K10. inversion K10; subst.
  split_bind Hp u' s12 K11; [| discriminate]. unfold lift in K11. inversion K11; subst.
  unfold ret in Hp. inversion Hp; subst.
  split; [exact Hres |].
  exists fl'. cbn [heap]. unfold heap_upd. rewrite Nat.eqb_refl. reflexivity.
Qed.

Lemma fit_prepare_model_fields (m0 m : Model) :
  (m0 = m \/ exists fl, m0 = set_features_df fl m) ->
  estimator m0 = estimator m /\ estimator_kwargs m0 = estimator_kwargs m /\
  dim_reduction m0 = dim_reduction m /\ reduction m0 = reduction m.
Proof. intros [-> | [fl ->]]; repeat split. Qed.

(** C6: training a model whose configured estimator name is not a key of
    [algorithms] raises [KeyError] with that name; likewise, with
    dimensionality reduction enabled and a known estimator, a reduction name
    outside [decomposers] raises [KeyError] with that name.  The only other
    outcome is an error of the data preparation that precedes the lookups. *)
Theorem fit_unknown_registry_key (E : Env) (request : list (list string)) (n : string)
        (st : State) (m : Model) (key : string) :
  cell request 0 0 = Ok n -> resolve_model n st = Some m ->
  ((estimator m = Some key /\ ~ In key algorithms) \/
   (exists en, estimator m = Some en /\ In en algorithms /\
      construct E en (estimator_kwargs m) = Ok tt /\ dim_reduction m = true /\
      reduction m = Some key /\ ~ In key decomposers)) ->
  exists e st', fit E request st = (Raise e, st') /\
    (e = KeyError key \/ fst (fit_prepare E request st) = Raise e).
Proof.
  intros Hc Hr Hcase. unfold fit.
  destruct (fit_prepare E request st) as [[[[[l m0] kept] [[[a b] c] d]] | e] s1] eqn:Hp.
  - destruct (fit_prepare_post E request st s1 n l m0 kept _ Hp Hc) as [[m' [Hr' Hm]] [fl' Hh]].
    rewrite Hr in Hr'. inversion Hr'; subst m'.
    destruct (fit_prepare_model_fields m0 m Hm) as [Hest0 [Hkw0 [Hdr0 Hred0]]].
    rewrite (bind_ok _ _ _ _ _ Hp). unfold fit_pipeline.
    rewrite Hest0, Hkw0, Hdr0, Hred0.
    destruct Hcase as [[Hest Hnin] | [en [Hest [Hin [Hcons [Hdr [Hred Hnin]]]]]]].
    + rewrite Hest. cbv [bind lift attr].
      rewrite (registry_lookup_unknown _ _ Hnin).
      eexists; eexists; split; [reflexivity | left; reflexivity].
    + rewrite Hest, Hdr, Hred. cbv [bind lift attr].
      rewrite (registry_lookup_known _ _ Hin), Hcons.
      cbv [read_model]. rewrite Hh. cbv [write].
      rewrite (registry_lookup_unknown _ _ Hnin).
      eexists; eexists; split; [reflexivity | left; reflexivity].
  - rewrite (bind_raise _ _ _ _ _ Hp). exists e, s1. split; [reflexivity | right; reflexivity].
Qed.

Lemma fit_unknown_registry_key_witness :
  exists m, resolve_model "m1" demo_unknown_estimator = Some m /\
  estimator m = Some "Forest" /\ ~ In "Forest" algorithms /\
  exists e st', fit demo_env [["m1"; "a|1|0|2"]] demo_unknown_estimator = (Raise e, st') /\
    (e = KeyError "Forest" \/ fst (fit_prepare demo_env [["m1"; "a|1|0|2"]] demo_unknown_estimator) = Raise e).
Proof.
  assert (He : option_map estimator (resolve_model "m1" demo_unknown_estimator) = Some (Some "Forest"))
    by (vm_compute; reflexivity).
  assert (Hn : ~ In "Forest" algorithms).
  { intros Hi. unfold algorithms in Hi.
    repeat (destruct Hi as [Hi | Hi]; [discriminate Hi |]). exact Hi. }
  destruct (resolve_model "m1" demo_unknown_estimator) as [m |] eqn:Hr; [| discriminate He].
  injection He as He.
  exists m. split; [reflexivity | split; [exact He | split; [exact Hn |]]].
  exact (fit_unknown_registry_key demo_env [["m1"; "a|1|0|2"]] "m1" demo_unknown_estimator m
           "Forest" eq_refl Hr (or_introl (conj He Hn))).
Defined.

(** ** The cache after a lookup, and [get_features] *)

Lemma update_cache_dict_in {A} (k : string) (v : A) (c c' : list (string * A)) :
  update_cache_dict k v c = Ok c' -> In (k, v) c'.
Proof.
  unfold update_cache_dict, rbind.
  destruct (if Nat.eqb cache_limit (length c) then od_popitem_first c else Ok c) as [c1 | e];
    intros H; inversion H; subst.
  apply od_get_in, od_get_set_same.
Qed.

Lemma update_cache_in (l : nat) (st st' : State) (u : unit) :
  _update_cache l st = (Ok u, st') -> exists k, In (k, l) (model_cache st').
Proof.
  unfold _update_cache. intros H.
  split_bind H m s1 K1; [| discriminate].
  split_bind H c s2 K2; [| discriminate].
  unfold get_cache in K2. inversion K2; subst.
  split_bind H c' s3 K3; [| discriminate].
  unfold lift in K3. inversion K3; subst.
  unfold put_cache in H. inversion H; subst. cbn [model_cache].
  exists (name m). eapply update_cache_dict_in. eassumption.
Qed.

(** The reference [_get_model] returns is held in the cache afterwards; on
    a hit it is the cached reference and the state is untouched. *)
Lemma get_model_cached (n : string) (st st' : State) (l : nat) :
  _get_model n st = (Ok l, st') ->
  (exists k, In (k, l) (model_cache st')) /\
  (forall l0, od_get n (model_cache st) = Some l0 -> l = l0 /\ st' = st).
Proof.
  unfold _get_model. intros H.
  unfold bind at 1, get_cache in H.
  destruct (od_mem n (model_cache st)) eqn:Hm.
  - destruct (od_get n (model_cache st)) as [l1 |] eqn:Hg; unfold ret, raise in H;
      [| discriminate H].
    injection H as Hl Hs. subst l st'.
    split; [exists n; apply od_get_in; exact Hg |].
    intros l0 H0. split; [congruence | reflexivity].
  - split_bind H l1 s1 Hl; [| discriminate].
    split_bind H u s2 Hu; [| discriminate].
    unfold ret in H. inversion H; subst.
    split; [exact (update_cache_in _ _ _ _ Hu) |].
    intros l0 H0. apply od_get_mem in H0. congruence.
Qed.

Lemma map_fst_combine {A B} (a : list A) (b : list B) :
  length a = length b -> map fst (combine a b) = a.
Proof.
  revert b. induction a as [| x a IH]; intros [| y b] H; simpl in *; try discriminate; auto.
  f_equal. apply IH. lia.
Qed.

Lemma map_snd_combine {A B} (a : list A) (b : list B) :
  length a = length b -> map snd (combine a b) = b.
Proof.
  revert b. induction a as [| x a IH]; intros [| y b] H; simpl in *; try discriminate; auto.
  f_equal. apply IH. lia.
Qed.

Lemma sort_order_values_length (n : nat) : length (sort_order_values n) = n.
Proof. unfold sort_order_values. rewrite length_map, length_seq. reflexivity. Qed.

(** C10: a successful [get_features] call leaves, in the frame object the
    cached model refers to, a [sort_order] column holding [1..n] for the [n]
    contract rows, and the response carries those values in contract order.
    When the model was already cached, the model reference and its frame
    reference are the ones held before the call, with the same rows: the
    column is added to the live contract object in place. *)
Theorem get_features_sort_order_in_place (request : list (list string)) (n : string)
        (st st' : State) (rows : list FeatureRow) :
  cell request 0 0 = Ok n -> get_features request st = (Ok rows, st') ->
  exists k l m fl f,
    In (k, l) (model_cache st') /\ heap st' l = Some (OModel m) /\
    features_df m = Some fl /\ heap st' fl = Some (OFrame f) /\
    od_get "sort_order" (frame_extra f) = Some (sort_order_values (length (frame_rows f))) /\
    map r_sort_order rows = sort_order_values (length (frame_rows f)) /\
    map r_name rows = map f_name (frame_rows f) /\
    (forall l0, od_get n (model_cache st) = Some l0 ->
       l = l0 /\
       forall m0 fl0 f0, heap st l0 = Some (OModel m0) -> features_df m0 = Some fl0 ->
         heap st fl0 = Some (OFrame f0) -> m = m0 /\ fl = fl0 /\ frame_rows f = frame_rows f0).
Proof.
  intros Hcell H. unfold get_features in H. cbv zeta in H.
  split_bind H n' s1 K1; [| discriminate].
  unfold lift in K1. rewrite Hcell in K1. injection K1 as <- <-.
  split_bind H l s2 K2; [| discriminate].
  destruct (get_model_cached _ _ _ _ K2) as [[k Hk] Hhit].
  split_bind H m s3 K3; [| discriminate].
  unfold read_model in K3. destruct (heap s2 l) as [[m' | f'] |] eqn:Hh; [| discriminate | discriminate].
  injection K3 as -> <-.
  split_bind H p s4 K4; [| discriminate].
  unfold read_features in K4.
  destruct (features_df m) as [fl |] eqn:Hfd; [| discriminate].
  destruct (heap s2 fl) as [[mf | f] |] eqn:Hf; [discriminate | | discriminate].
  injection K4 as <- <-. cbn [fst snd] in H.
  split_bind H u s5 K5; [| discriminate].
  unfold write in K5. injection K5 as <- <-.
  split_bind H so s6 K6; [| discriminate].
  unfold lift, attr, frame_set_column in K6. cbn [frame_extra] in K6.
  rewrite od_get_set_same in K6. injection K6 as <- <-.
  unfold ret in H. injection H as <- <-.
  assert (Hne : Nat.eqb l fl = false)
    by (destruct (Nat.eqb_spec l fl) as [-> |]; [congruence | reflexivity]).
  exists k, l, m, fl, (frame_set_column "sort_order" (sort_order_values (length (frame_rows f))) f).
  cbn [heap model_cache]. unfold heap_upd. rewrite Hne, Nat.eqb_refl.
  assert (Hlen : length (sort_order_values (length (frame_rows f))) = length (frame_rows f))
    by apply sort_order_values_length.
  unfold frame_set_column. cbn [frame_rows frame_extra].
  split; [exact Hk |]. split; [exact Hh |]. split; [exact Hfd |]. split; [reflexivity |].
  split; [apply od_get_set_same |].
  split; [| split].
  - rewrite map_map. cbn [r_sort_order]. apply map_fst_combine. exact Hlen.
  - rewrite map_map. cbn [r_name].
    rewrite <- (map_map snd f_name). f_equal. apply map_snd_combine. exact Hlen.
  - intros lc H0. destruct (Hhit lc H0) as [-> ->]. split; [reflexivity |].
    intros m0 fl0 f0 H1 H2 H3. rewrite Hh in H1. injection H1 as <-.
    rewrite Hfd in H2. injection H2 as <-. rewrite Hf in H3. injection H3 as <-. auto.
Qed.

Lemma get_features_sort_order_in_place_witness :
  exists rows st', get_features [["m1"]] demo_trained = (Ok rows, st') /\
  exists k l m fl f,
    In (k, l) (model_cache st') /\ heap st' l = Some (OModel m) /\
    features_df m = Some fl /\ heap st' fl = Some (OFrame f) /\
    od_get "sort_order" (frame_extra f) = Some (sort_order_values (length (frame_rows f))) /\
    map r_sort_order rows = sort_order_values (length (frame_rows f)) /\
    map r_name rows = map f_name (frame_rows f) /\
    (forall l0, od_get "m1" (model_cache demo_trained) = Some l0 ->
       l = l0 /\
       forall m0 fl0 f0, heap demo_trained l0 = Some (OModel m0) -> features_df m0 = Some fl0 ->
         heap demo_trained fl0 = Some (OFrame f0) -> m = m0 /\ fl = fl0 /\ frame_rows f = frame_rows f0).
Proof.
  assert (Hok : match fst (get_features [["m1"]] demo_trained) with Ok _ => True | Raise _ => False end)
    by (vm_compute; exact I).
  destruct (get_features [["m1"]] demo_trained) as [[rows | e] st'] eqn:Hg; [| destruct Hok].
  exists rows, st'. split; [reflexivity |].
  exact (get_features_sort_order_in_place [["m1"]] "m1" demo_trained st' rows eq_refl Hg).
Defined.

(** ** Training and the feature contract *)

Lemma mask_filter_negb (g : FeatureSpec -> bool) (rows : list FeatureSpec) :
  mask_filter (map negb (map g rows)) rows = filter (fun r => negb (g r)) rows.
Proof. induction rows as [| r rows IH]; simpl; [reflexivity |]. destruct (g r); simpl; congruence. Qed.

Lemma alloc_fresh (o : Obj) (st s1 : State) (a : nat) :
  (forall l, next_loc st <= l -> heap st l = None) -> alloc o st = (Ok a, s1) ->
  a = next_loc st /\ next_loc s1 = S (next_loc st) /\ heap s1 a = Some o /\
  (forall l, next_loc s1 <= l -> heap s1 l = None) /\
  (forall l, l <> a -> heap s1 l = heap st l).
Proof.
  intros Hf Ha. unfold alloc in Ha. injection Ha as <- <-. cbn [heap next_loc].
  unfold heap_upd. split; [reflexivity |]. split; [reflexivity |]. split; [rewrite Nat.eqb_refl; reflexivity |].
  split.
  - intros l Hl. destruct (Nat.eqb_spec l (next_loc st)); [lia |]. apply Hf. lia.
  - intros l Hl. apply Nat.eqb_neq in Hl. rewrite Hl. reflexivity.
Qed.

(** On a well-formed state, [_get_model] keeps the heap above [next_loc]
    free and returns a model with the requested name whose frame has the
    rows of the name's contract. *)
Lemma get_model_facts (n : string) (st s1 : State) (l : nat) :
  well_formed st -> _get_model n st = (Ok l, s1) ->
  (forall l', next_loc s1 <= l' -> heap s1 l' = None) /\
  exists m, heap s1 l = Some (OModel m) /\ name m = n /\
  (forall rows0, contract_of n st = Some rows0 ->
     exists fl f, features_df m = Some fl /\ heap s1 fl = Some (OFrame f) /\ frame_rows f = rows0).
Proof.
  intros [Hfr [Hca Hst]] H. unfold _get_model in H.
  unfold bind at 1, get_cache in H. unfold contract_of.
  destruct (od_mem n (model_cache st)) eqn:Hm.
  - destruct (od_get n (model_cache st)) as [l1 |] eqn:Hg; unfold ret, raise in H;
      [| discriminate H].
    injection H as <- <-.
    split; [exact Hfr |].
    destruct (Hca n l1 (od_get_in _ _ _ Hg)) as [m [Hh Hn]].
    exists m. split; [exact Hh | split; [exact Hn |]].
    rewrite Hh. intros rows0.
    destruct (features_df m) as [fl |]; [| discriminate].
    destruct (heap st fl) as [[mf | f] |] eqn:Hf; try discriminate.
    intros Hr. injection Hr as <-. exists fl, f. auto.
  - split_bind H l1 s2 Hl; [| discriminate].
    split_bind H u s3 Hu; [| discriminate].
    unfold ret in H. injection H as <- <-.
    destruct (update_cache_state l1 s2) as [Hh2 [Hn2 _]]. rewrite Hu in Hh2, Hn2. cbn [snd] in Hh2, Hn2.
    rewrite Hh2, Hn2. clear Hu Hh2 Hn2.
    unfold load in Hl. destruct (store st n) as [s |] eqn:Hs; [| discriminate].
    pose proof (Hst n s Hs) as Hname.
    destruct (snap_features s) as [f |] eqn:Hsf.
    + split_bind Hl fl s4 Hf; [| discriminate].
      destruct (alloc_fresh _ _ _ _ Hfr Hf) as [Hfl [Hn4 [Hhf [Hfr4 Hold4]]]].
      destruct (alloc_fresh _ _ _ _ Hfr4 Hl) as [Hl1 [Hn2 [Hhl [Hfr2 Hold2]]]].
      split; [exact Hfr2 |].
      eexists. split; [exact Hhl |]. split; [exact Hname |].
      intros rows0 Hr. cbn [option_map] in Hr. injection Hr as <-.
      exists fl, f. split; [reflexivity |]. split; [| reflexivity].
      rewrite Hold2; [exact Hhf |]. intros ->. subst. lia.
    + destruct (alloc_fresh _ _ _ _ Hfr Hl) as [Hl1 [Hn2 [Hhl [Hfr2 Hold2]]]].
      split; [exact Hfr2 |].
      eexists. split; [exact Hhl |]. split; [exact Hname |].
      intros rows0 Hr. discriminate Hr.
Qed.

(** The first part of [fit] on a well-formed state: the kept rows are the
    contract rows without the excluded roles, and the model reference holds
    the model with a fresh frame of those rows. *)
Lemma fit_prepare_contract (E : Env) (request : list (list string)) (st s1 : State) (n : string)
      (l : nat) (m0 : Model) (kept : list FeatureSpec) (sp : Data * Data * Data * Data)
      (rows0 : list FeatureSpec) :
  well_formed st -> cell request 0 0 = Ok n -> contract_of n st = Some rows0 ->
  fit_prepare E request st = (Ok (l, m0, kept, sp), s1) ->
  kept = filter (fun r => negb (excluded_role r)) rows0 /\ name m0 = n /\
  (forall l', next_loc s1 <= l' -> heap s1 l' = None) /\
  exists fl' fr, l <> fl' /\ heap s1 l = Some (OModel (set_features_df (Some fl') m0)) /\
    heap s1 fl' = Some (OFrame fr) /\ frame_rows fr = kept.
Proof.
  intros Hwf Hcell Hcon Hp. unfold fit_prepare in Hp. cbv zeta in Hp.
  split_bind Hp n' s2 K1; [| discriminate].
  unfold lift in K1. rewrite Hcell in K1. injection K1 as <- <-.
  split_bind Hp l1 s3 K2; [| discriminate].
  destruct (get_model_facts _ _ _ _ Hwf K2) as [Hfr3 [m [Hh [Hn Hc]]]].
  destruct (Hc rows0 Hcon) as [fl0 [f0 [Hfd0 [Hf0 Hrows]]]].
  split_bind Hp m1 s4 K3; [| discriminate].
  unfold read_model in K3. rewrite Hh in K3. injection K3 as <- <-.
  split_bind Hp q s5 K4; [| discriminate].
  unfold read_features in K4. rewrite Hfd0, Hf0 in K4. injection K4 as <- <-.
  cbn [fst snd] in Hp.
  split_bind Hp feats s6 K5; [| discriminate]. unfold lift in K5. injection K5 as _ <-.
  split_bind Hp X s7 K6; [| discriminate]. unfold lift in K6. injection K6 as _ <-.
  split_bind Hp tn s8 K7; [| discriminate]. unfold lift in K7. injection K7 as _ <-.
  split_bind Hp fl' s9 K8; [| discriminate].
  destruct (alloc_fresh _ _ _ _ Hfr3 K8) as [Hfl [Hn9 [Hh9 [Hfr9 Hold9]]]].
  assert (Hlt : l1 < next_loc s3).
  { destruct (Nat.lt_ge_cases l1 (next_loc s3)) as [| Hge]; [assumption |].
    rewrite (Hfr3 l1 Hge) in Hh. discriminate. }
  split_bind Hp u s10 K9; [| discriminate]. unfold write in K9. injection K9 as _ <-.
  split_bind Hp sp' s11 K10; [| discriminate]. unfold lift in K10. injection K10 as _ <-.
  split_bind Hp u' s12 K11; [| discriminate]. unfold lift in K11. injection K11 as _ <-.
  unfold ret in Hp. injection Hp as <- <- <- <- <-.
  split; [rewrite Hrows; reflexivity |]. split; [exact Hn |].
  cbn [heap next_loc]. unfold heap_upd.
  split.
  { intros l' Hl'. destruct (Nat.eqb_spec l' l1); [lia |]. apply Hfr9. exact Hl'. }
  exists fl', (frame_loc_mask (map negb (map excluded_role (frame_rows f0))) f0).
  split; [lia |]. rewrite Nat.eqb_refl. split; [reflexivity |].
  destruct (Nat.eqb_spec fl' l1); [lia |]. split; [exact Hh9 |].
  unfold frame_loc_mask. cbn [frame_rows]. apply mask_filter_negb.
Qed.

Lemma write_post (l : nat) (o : Obj) (st s1 : State) (u : unit) :
  write l o st = (Ok u, s1) ->
  heap s1 l = Some o /\ (forall x, x <> l -> heap s1 x = heap st x) /\
  store s1 = store st /\ model_cache s1 = model_cache st.
Proof.
  unfold write. intros H. injection H as _ <-. cbn [heap store model_cache]. unfold heap_upd.
  rewrite Nat.eqb_refl. split; [reflexivity |]. split; [| split; reflexivity].
  intros x Hx. apply Nat.eqb_neq in Hx. rewrite Hx. reflexivity.
Qed.

Lemma read_model_post (l : nat) (st s1 : State) (m : Model) :
  read_model l st = (Ok m, s1) -> s1 = st /\ heap st l = Some (OModel m).
Proof.
  unfold read_model. destruct (heap st l) as [[m' | f] |]; intros H; try discriminate.
  injection H as -> <-. auto.
Qed.

Lemma update_cache_get (l : nat) (st st' : State) (u : unit) (m : Model) :
  _update_cache l st = (Ok u, st') -> heap st l = Some (OModel m) ->
  od_get (name m) (model_cache st') = Some l.
Proof.
  unfold _update_cache. intros H Hh.
  split_bind H m1 s1 K1; [| discriminate].
  destruct (read_model_post _ _ _ _ K1) as [-> Hh1]. rewrite Hh in Hh1. injection Hh1 as <-.
  split_bind H c s2 K2; [| discriminate].
  unfold get_cache in K2. injection K2 as <- <-.
  split_bind H c' s3 K3; [| discriminate].
  unfold lift in K3. injection K3 as Hu <-.
  unfold put_cache in H. injection H as _ <-. cbn [model_cache].
  revert Hu. unfold update_cache_dict, rbind.
  destruct (if Nat.eqb cache_limit (length (model_cache st)) then od_popitem_first (model_cache st)
            else Ok (model_cache st)) as [c1 | e]; intros Hu; [| discriminate].
  injection Hu as <-. apply od_get_set_same.
Qed.

(** The second part of [fit] leaves the model's frame reference and frame
    alone, saves the model with that frame and caches it under its name. *)
Lemma fit_pipeline_post (E : Env) (l : nat) (m : Model) (sp : Data * Data * Data * Data)
      (s1 s2 : State) (r : string * Q) (mA : Model) (fl : nat) (fr : Frame) :
  fit_pipeline E l m sp s1 = (Ok r, s2) -> heap s1 l = Some (OModel mA) ->
  features_df mA = Some fl -> heap s1 fl = Some (OFrame fr) -> l <> fl ->
  exists mB, heap s2 l = Some (OModel mB) /\ features_df mB = Some fl /\ name mB = name mA /\
    heap s2 fl = Some (OFrame fr) /\ store s2 (name mB) = Some (mkSnapshot mB (Some fr)) /\
    od_get (name mB) (model_cache s2) = Some l.
Proof.
  intros H Hh Hfd Hf Hne. destruct sp as [[[a b] c] d]. unfold fit_pipeline in H. cbv beta iota in H.
  split_bind H en t1 K1; [| discriminate]. unfold lift in K1. injection K1 as _ <-.
  split_bind H cls t2 K2; [| discriminate]. unfold lift in K2. injection K2 as _ <-.
  split_bind H u1 t3 K3; [| discriminate]. unfold lift in K3. injection K3 as _ <-.
  split_bind H m1 t4 K4; [| discriminate].
  destruct (read_model_post _ _ _ _ K4) as [-> Hh4]. rewrite Hh in Hh4. injection Hh4 as <-.
  split_bind H u2 t5 K5; [| discriminate].
  destruct (write_post _ _ _ _ _ K5) as [Hl5 [Ho5 [Hs5 Hc5]]].
  split_bind H u3 t6 K6; [| discriminate].
  assert (Ht6 : t6 = t5).
  { destruct (dim_reduction m).
    - split_bind K6 rn t7 K7; [| discriminate]. unfold lift in K7. injection K7 as _ <-.
      split_bind K6 u4 t8 K8; [| discriminate]. unfold lift in K8. injection K8 as _ <-.
      unfold raise in K6. discriminate K6.
    - unfold ret in K6. injection K6 as _ <-. reflexivity. }
  subst t6. clear K6.
  split_bind H fs t7 K7; [| discriminate]. unfold lift in K7. injection K7 as _ <-.
  split_bind H m2 t8 K8; [| discriminate].
  destruct (read_model_post _ _ _ _ K8) as [-> Hh8]. rewrite Hl5 in Hh8. injection Hh8 as <-.
  split_bind H u5 t9 K9; [| discriminate].
  destruct (write_post _ _ _ _ _ K9) as [Hl9 [Ho9 [Hs9 Hc9]]].
  split_bind H sc t10 K10; [| discriminate]. unfold lift in K10. injection K10 as _ <-.
  split_bind H m3 t11 K11; [| discriminate].
  destruct (read_model_post _ _ _ _ K11) as [-> Hh11]. rewrite Hl9 in Hh11. injection Hh11 as <-.
  split_bind H u6 t12 K12; [| discriminate].
  destruct (write_post _ _ _ _ _ K12) as [Hl12 [Ho12 [Hs12 Hc12]]].
  assert (Hf12 : heap t12 fl = Some (OFrame fr)).
  { rewrite Ho12, Ho9, Ho5 by congruence. exact Hf. }
  split_bind H l' t13 K13; [| discriminate].
  unfold save in K13. rewrite Hl12 in K13. cbn [features_df set_score set_pipe] in K13.
  rewrite Hfd, Hf12 in K13. injection K13 as <- <-.
  split_bind H u7 t14 K14; [| discriminate].
  match type of K14 with
  | _update_cache _ ?s = _ => destruct (update_cache_state l s) as [Hh14 [_ Hs14]]
  end.
  rewrite K14 in Hh14, Hs14. cbn [snd heap store] in Hh14, Hs14.
  unfold ret in H. injection H as _ <-.
  eexists. split; [rewrite Hh14; exact Hl12 |].
  split; [exact Hfd |]. split; [reflexivity |].
  split; [rewrite Hh14; exact Hf12 |].
  split; [rewrite Hs14; cbn [name set_score set_pipe]; rewrite String.eqb_refl; reflexivity |].
  eapply update_cache_get; [exact K14 | cbn [heap]; exact Hl12].
Qed.

Lemma get_model_hit (n : string) (st : State) (l : nat) :
  od_get n (model_cache st) = Some l -> _get_model n st = (Ok l, st).
Proof.
  intros Hg. unfold _get_model, bind, get_cache. rewrite (od_get_mem _ _ _ Hg), Hg. reflexivity.
Qed.

(** [get_features] on a cached model lists the rows of its frame. *)
Lemma get_features_hit (k : string) (st : State) (l : nat) (m : Model) (fl : nat) (f : Frame) :
  od_get k (model_cache st) = Some l -> heap st l = Some (OModel m) ->
  features_df m = Some fl -> heap st fl = Some (OFrame f) ->
  exists rows st'', get_features [[k]] st = (Ok rows, st'') /\
    map r_name rows = map f_name (frame_rows f) /\
    map r_variable_type rows = map variable_type (frame_rows f).
Proof.
  intros Hg Hh Hfd Hf. unfold get_features. cbv zeta.
  erewrite bind_ok by reflexivity. cbv beta.
  erewrite bind_ok by (apply get_model_hit; exact Hg). cbv beta.
  erewrite bind_ok by (unfold read_model; rewrite Hh; reflexivity). cbv beta.
  erewrite bind_ok by (unfold read_features; rewrite Hfd, Hf; reflexivity). cbv beta.
  erewrite bind_ok by reflexivity. cbv beta.
  erewrite bind_ok
    by (unfold lift, attr, frame_set_column; cbn [frame_extra]; rewrite od_get_set_same; reflexivity).
  cbv beta. unfold ret, frame_set_column. cbn [fst snd frame_rows].
  eexists; eexists; split; [reflexivity |].
  assert (Hlen : length (sort_order_values (length (frame_rows f))) = length (frame_rows f))
    by apply sort_order_values_length.
  split; rewrite map_map; cbn [r_name r_variable_type].
  - rewrite <- (map_map snd f_name). f_equal. apply map_snd_combine. exact Hlen.
  - rewrite <- (map_map snd variable_type). f_equal. apply map_snd_combine. exact Hlen.
Qed.

(** C7: after a successful [fit] on a model whose contract has the rows
    [rows0] (in a state of the shape the class produces), the rows whose
    role is [excluded], [target] or [identifier] are gone from the contract
    of the cached model and from the saved snapshot, and a following
    [get_features] call for the model lists exactly the remaining rows, in
    contract order. *)
Theorem fit_strips_contract (E : Env) (request : list (list string)) (n : string)
        (st st' : State) (r : string * Q) (rows0 : list FeatureSpec) :
  well_formed st -> cell request 0 0 = Ok n -> contract_of n st = Some rows0 ->
  fit E request st = (Ok r, st') ->
  contract_of n st' = Some (filter (fun x => negb (excluded_role x)) rows0) /\
  (exists s, store st' n = Some s /\
     option_map frame_rows (snap_features s) = Some (filter (fun x => negb (excluded_role x)) rows0)) /\
  (exists rows st'', get_features [[n]] st' = (Ok rows, st'') /\
     map r_name rows = map f_name (filter (fun x => negb (excluded_role x)) rows0) /\
     map r_variable_type rows = map variable_type (filter (fun x => negb (excluded_role x)) rows0)).
Proof.
  intros Hwf Hcell Hcon H. unfold fit in H.
  split_bind H pr s1 K1; [| discriminate].
  destruct pr as [[[l m0] kept] sp]. cbv beta iota in H.
  destruct (fit_prepare_contract _ _ _ _ _ _ _ _ _ _ Hwf Hcell Hcon K1)
    as [Hkept [Hn [_ [fl' [fr [Hne [Hl [Hfl Hrows]]]]]]]].
  destruct (fit_pipeline_post E l m0 sp s1 st' r _ fl' fr H Hl eq_refl Hfl Hne)
    as [mB [HhB [HfdB [HnB [HfB [HsB HcB]]]]]].
  cbn [name set_features_df] in HnB. rewrite Hn in HnB. rewrite HnB in HsB, HcB.
  subst kept.
  split; [| split].
  - unfold contract_of. rewrite (od_get_mem _ _ _ HcB), HcB, HhB, HfdB, HfB. rewrite Hrows. reflexivity.
  - exists (mkSnapshot mB (Some fr)). split; [exact HsB |]. cbn [snap_features option_map]. rewrite Hrows. reflexivity.
  - rewrite <- Hrows. exact (get_features_hit n st' l mB fl' fr HcB HhB HfdB HfB).
Qed.

Lemma well_formed_demo_cached : well_formed demo_cached.
Proof.
  split; [| split].
  - intros l Hl. cbn in Hl. do 2 (destruct l as [| l]; [lia |]). reflexivity.
  - intros k l [Hin | []]. injection Hin as <- <-. eexists. split; reflexivity.
  - intros k s Hs. discriminate Hs.
Qed.

Lemma fit_strips_contract_witness :
  exists r st', fit demo_env [["m1"; "a|1|0|2"]; ["m1"; "b|2|1|3"]] demo_cached = (Ok r, st') /\
  contract_of "m1" st' = Some (filter (fun x => negb (excluded_role x)) demo_features) /\
  (exists s, store st' "m1" = Some s /\
     option_map frame_rows (snap_features s) = Some (filter (fun x => negb (excluded_role x)) demo_features)) /\
  (exists rows st'', get_features [["m1"]] st' = (Ok rows, st'') /\
     map r_name rows = map f_name (filter (fun x => negb (excluded_role x)) demo_features) /\
     map r_variable_type rows = map variable_type (filter (fun x => negb (excluded_role x)) demo_features)).
Proof.
  assert (Hc : contract_of "m1" demo_cached = Some demo_features) by (vm_compute; reflexivity).
  assert (Hok : match fst (fit demo_env [["m1"; "a|1|0|2"]; ["m1"; "b|2|1|3"]] demo_cached) with
                | Ok _ => True | Raise _ => False end) by (vm_compute; exact I).
  destruct (fit demo_env [["m1"; "a|1|0|2"]; ["m1"; "b|2|1|3"]] demo_cached) as [[r | e] st'] eqn:Hf;
    [| destruct Hok].
  exists r, st'. split; [reflexivity |].
  exact (fit_strips_contract demo_env [["m1"; "a|1|0|2"]; ["m1"; "b|2|1|3"]] "m1" demo_cached st' r
           demo_features well_formed_demo_cached eq_refl Hc Hf).
Defined.

(** ** Probability rows *)

Lemma str_app_assoc (a b c : string) : (a ++ b) ++ c = a ++ (b ++ c).
Proof. induction a as [| x a IH]; simpl; [reflexivity | rewrite IH; reflexivity]. Qed.

Lemma str_app_nil (a : string) : a ++ "" = a.
Proof. induction a as [| x a IH]; simpl; [reflexivity | rewrite IH; reflexivity]. Qed.

Lemma substring_all (s : string) : substring 0 (String.length s) s = s.
Proof. induction s as [| x s IH]; simpl; [reflexivity | rewrite IH; reflexivity]. Qed.

Lemma drop2_sep (x : string) : drop2 (", " ++ x) = x.
Proof. unfold drop2. simpl. rewrite Nat.sub_0_r. apply substring_all. Qed.

Lemma concat_empty_cons (x : string) (l : list string) :
  String.concat "" (x :: l) = x ++ String.concat "" l.
Proof. destruct l; simpl; [rewrite str_app_nil |]; reflexivity. Qed.

Lemma concat_sep_prefix {A} (f : A -> string) (l : list A) :
  l <> [] ->
  String.concat "" (map (fun x => ", " ++ f x) l) = ", " ++ String.concat ", " (map f l).
Proof.
  induction l as [| x l IH]; intros Hne; [contradiction |].
  destruct l as [| y l].
  - reflexivity.
  - rewrite map_cons, concat_empty_cons, IH by discriminate.
    rewrite str_app_assoc. reflexivity.
Qed.

Lemma nth_error_skipn_cons {A} (l : list A) (i : nat) (c : A) :
  nth_error l i = Some c -> skipn i l = c :: skipn (S i) l.
Proof.
  revert i. induction l as [| x l IH]; intros [| i] H; simpl in *; try discriminate.
  - injection H as ->. reflexivity.
  - apply IH. exact H.
Qed.

Lemma proba_loop_ok (E : Env) (p : Pipeline) (k : nat) (cs : list string) (a : list Q) :
  classes_at p k = Ok cs ->
  forall i s s', proba_loop E p k i a s = Ok s' ->
  length a <= length cs - i /\
  s' = s ++ String.concat "" (map (fun cb => ", " ++ fst cb ++ ": " ++ fmt3 E (snd cb))
                                  (combine (skipn i cs) a)).
Proof.
  intros Hcs. induction a as [| b a IH]; intros i s s' H.
  - cbn [proba_loop] in H. injection H as <-. split; [simpl; lia |].
    destruct (skipn i cs); simpl; rewrite str_app_nil; reflexivity.
  - cbn [proba_loop] in H. rewrite Hcs in H. cbn [rbind] in H.
    destruct (nth_error cs i) as [c |] eqn:Hc; [| discriminate H]. cbn [rbind] in H.
    destruct (IH _ _ _ H) as [Hlen ->].
    assert (Hi : i < length cs) by (apply nth_error_Some; congruence).
    split; [simpl; lia |].
    rewrite (nth_error_skipn_cons _ _ _ Hc). cbn [combine map].
    rewrite concat_empty_cons. rewrite !str_app_assoc. reflexivity.
Qed.

Lemma proba_row_ok (E : Env) (p : Pipeline) (k : nat) (a : list Q) (r : string) :
  proba_row E p k a = Ok r ->
  length a <= length (estimator_classes p k) /\
  r = proba_spec (fmt3 E) (estimator_classes p k) a.
Proof.
  unfold proba_row, proba_spec. intros H.
  destruct a as [| b a].
  - cbn [proba_loop rbind] in H. injection H as <-. split; [simpl; lia |].
    destruct (estimator_classes p k); reflexivity.
  - unfold estimator_classes. destruct (classes_at p k) as [cs | e] eqn:Hcs.
    + destruct (proba_loop E p k 0 (b :: a) "") as [s' | e] eqn:Hl; [| discriminate H].
      cbn [rbind] in H. injection H as <-.
      destruct (proba_loop_ok E p k cs (b :: a) Hcs 0 "" s' Hl) as [Hlen ->].
      split; [rewrite Nat.sub_0_r in Hlen; exact Hlen |].
      cbn [skipn append].
      rewrite (concat_sep_prefix (fun cb : string * Q => fst cb ++ ": " ++ fmt3 E (snd cb)));
        [apply drop2_sep |].
      destruct cs; simpl in *; [lia | discriminate].
    + cbn [proba_loop rbind] in H. rewrite Hcs in H. discriminate H.
Qed.

Lemma map_result_in {A B} (f : A -> Result B) (l : list A) (l' : list B) :
  map_result f l = Ok l' -> forall y, In y l' -> exists x, In x l /\ f x = Ok y.
Proof.
  revert l'. induction l as [| x l IH]; intros l' H y Hy; cbn [map_result] in H.
  - injection H as <-. destruct Hy.
  - destruct (f x) as [y0 | e] eqn:Hf; [| discriminate H]. cbn [rbind] in H.
    destruct (map_result f l) as [ys | e] eqn:Hm; [| discriminate H]. cbn [rbind] in H.
    injection H as <-. destruct Hy as [<- | Hy].
    + exists x. split; [left; reflexivity | exact Hf].
    + destruct (IH ys eq_refl y Hy) as [x' [Hx' Hf']]. exists x'. split; [right; exact Hx' | exact Hf'].
Qed.

Lemma join_on_key_results (left right : list (string * string)) (t : string * string * string) :
  In t (join_on_key left right) -> In (snd t) (map snd right).
Proof.
  unfold join_on_key. intros Ht. apply in_flat_map in Ht. destruct Ht as [nk [_ Ht]].
  apply in_map_iff in Ht. destruct Ht as [kr [<- Hkr]]. apply filter_In in Hkr.
  simpl. apply in_map. exact (proj1 Hkr).
Qed.

Lemma predict_response_results (E : Env) (ls : bool) (request : list (list string)) (y : list string)
      (s2 st' : State) (resp : Response) :
  (if ls then
     names <- lift (column request 0) ;;
     keys <- lift (column request 1) ;;
     ret (Keyed (join_on_key (combine names keys) (combine keys y)))
   else ret (Series y)) s2 = (Ok resp, st') ->
  forall r, In r (response_results resp) -> In r y.
Proof.
  intros H r Hr. destruct ls.
  - split_bind H names s3 K1; [| discriminate].
    split_bind H keys s4 K2; [| discriminate].
    unfold ret in H. injection H as <- _. cbn [response_results] in Hr.
    apply in_map_iff in Hr. destruct Hr as [t [<- Ht]].
    apply join_on_key_results in Ht. apply in_map_iff in Ht. destruct Ht as [[k r'] [<- Hk]].
    exact (in_combine_r _ _ _ _ Hk).
  - unfold ret in H. injection H as <- _. exact Hr.
Qed.

(** C8: every result of a successful [predict_proba] or
    [predict_log_proba] call (with or without the load-script key join) is,
    for one row [a] of values the fitted pipeline returned, the pairs
    ["class: value"] joined by [", "], the classes taken in the order of the
    estimation step's [classes_] and each value rendered by the
    ["{:.3f}"] formatter; the row has no more values than there are
    classes. *)
Theorem predict_proba_row_format (E : Env) (ls : bool) (variant : string)
        (request : list (list string)) (st st' : State) (resp : Response) :
  (variant = "predict_proba" \/ variant = "predict_log_proba") ->
  predict E ls variant request st = (Ok resp, st') ->
  exists m X pp ys,
    fst (predict_input E ls request st) = Ok (m, X) /\ pipe m = Some pp /\ fitted pp = true /\
    (if String.eqb variant "predict_proba" then pipe_predict_proba E (steps pp) X
     else pipe_predict_log_proba E (steps pp) X) = Ok ys /\
    forall r, In r (response_results resp) ->
      exists a, In a ys /\ length a <= length (estimator_classes pp (estimation_step m)) /\
        r = proba_spec (fmt3 E) (estimator_classes pp (estimation_step m)) a.
Proof.
  intros Hv H. unfold predict in H.
  split_bind H mx s1 K1; [| discriminate]. destruct mx as [m X].
  split_bind H y s2 K2; [| discriminate]. unfold lift in K2. injection K2 as Hy <-.
  cbn [fst snd] in Hy.
  unfold predict_values in Hy.
  assert (Hb : (String.eqb variant "predict_proba" || String.eqb variant "predict_log_proba") = true)
    by (destruct Hv as [-> | ->]; reflexivity).
  rewrite Hb in Hy.
  destruct (pipe m) as [pp |] eqn:Hp; [| discriminate Hy]. cbn [attr rbind] in Hy.
  destruct (fitted pp) eqn:Hf; [| discriminate Hy].
  destruct (if String.eqb variant "predict_proba" then pipe_predict_proba E (steps pp) X
            else pipe_predict_log_proba E (steps pp) X) as [ys | e] eqn:Hys; [| discriminate Hy].
  cbn [rbind] in Hy.
  exists m, X, pp, ys.
  split; [reflexivity |]. split; [exact Hp |]. split; [exact Hf |]. split; [exact Hys |].
  intros r Hr.
  pose proof (predict_response_results E ls request y s1 st' resp H r Hr) as Hry.
  destruct (map_result_in _ _ _ Hy r Hry) as [a [Ha Hra]].
  exists a. split; [exact Ha |]. exact (proba_row_ok E pp (estimation_step m) a r Hra).
Qed.

Lemma predict_proba_row_format_witness :
  ("predict_proba" = "predict_proba" \/ "predict_proba" = "predict_log_proba") /\
  exists resp st',
    predict demo_env false "predict_proba" [["m1"; "1|2"]] demo_trained = (Ok resp, st') /\
    response_results resp = ["0: 0.250, 1: 0.750"] /\
  exists m X pp ys,
    fst (predict_input demo_env false [["m1"; "1|2"]] demo_trained) = Ok (m, X) /\
    pipe m = Some pp /\ fitted pp = true /\
    (if String.eqb "predict_proba" "predict_proba" then pipe_predict_proba demo_env (steps pp) X
     else pipe_predict_log_proba demo_env (steps pp) X) = Ok ys /\
    forall r, In r (response_results resp) ->
      exists a, In a ys /\ length a <= length (estimator_classes pp (estimation_step m)) /\
        r = proba_spec (fmt3 demo_env) (estimator_classes pp (estimation_step m)) a.
Proof.
  assert (Hv : "predict_proba" = "predict_proba" \/ "predict_proba" = "predict_log_proba")
    by (left; reflexivity).
  split; [exact Hv |].
  assert (Hok : match fst (predict demo_env false "predict_proba" [["m1"; "1|2"]] demo_trained) with
                | Ok resp => response_results resp = ["0: 0.250, 1: 0.750"]
                | Raise _ => False end) by (vm_compute; reflexivity).
  destruct (predict demo_env false "predict_proba" [["m1"; "1|2"]] demo_trained)
    as [[resp | e] st'] eqn:Hp; [| destruct Hok].
  exists resp, st'. split; [reflexivity |]. split; [exact Hok |].
  exact (predict_proba_row_format demo_env false "predict_proba" [["m1"; "1|2"]] demo_trained
           st' resp Hv Hp).
Defined.

(** ** Training and the target rows *)

Lemma load_post (n : string) (st s1 : State) (l : nat) :
  load n st = (Ok l, s1) -> exists m, heap s1 l = Some (OModel m).
Proof.
  unfold load. destruct (store st n) as [s |]; [| discriminate].
  destruct (snap_features s) as [f |]; intros H.
  - split_bind H fl s2 Hf; [| discriminate].
    unfold alloc in Hf, H. injection Hf as <- <-. injection H as <- <-.
    cbn [heap]. unfold heap_upd. rewrite Nat.eqb_refl. eauto.
  - unfold alloc in H. injection H as <- <-.
    cbn [heap]. unfold heap_upd. rewrite Nat.eqb_refl. eauto.
Qed.

Lemma load_some (n : string) (st : State) (s : Snapshot) :
  store st n = Some s -> exists l s1, load n st = (Ok l, s1).
Proof.
  intros Hs. unfold load. rewrite Hs.
  destruct (snap_features s); cbv [bind alloc]; eauto.
Qed.

Lemma update_cache_dict_ok {A} (k : string) (v : A) (c : list (string * A)) :
  exists c', update_cache_dict k v c = Ok c'.
Proof.
  unfold update_cache_dict, rbind.
  destruct (Nat.eqb cache_limit (length c)) eqn:Hl.
  - destruct c as [| x c]; [discriminate Hl |]. cbn [od_popitem_first]. eauto.
  - eauto.
Qed.

Lemma update_cache_succeeds (l : nat) (st : State) (m : Model) :
  heap st l = Some (OModel m) -> exists st', _update_cache l st = (Ok tt, st').
Proof.
  intros Hh. unfold _update_cache.
  erewrite bind_ok by (unfold read_model; rewrite Hh; reflexivity). cbv beta.
  erewrite bind_ok by reflexivity. cbv beta.
  destruct (update_cache_dict_ok (name m) l (model_cache st)) as [c' Hc].
  erewrite bind_ok by (unfold lift; rewrite Hc; reflexivity). cbv beta.
  unfold put_cache. eauto.
Qed.

Lemma get_model_succeeds (n : string) (st : State) (rows0 : list FeatureSpec) :
  contract_of n st = Some rows0 -> exists l s1, _get_model n st = (Ok l, s1).
Proof.
  unfold contract_of. intros Hc.
  destruct (od_mem n (model_cache st)) eqn:Hm.
  - destruct (od_get n (model_cache st)) as [l |] eqn:Hg; [| discriminate Hc].
    exists l, st. apply get_model_hit. exact Hg.
  - destruct (store st n) as [s |] eqn:Hs; [| discriminate Hc].
    destruct (load_some n st s Hs) as [l [s1 Hl]].
    destruct (load_post n st s1 l Hl) as [m Hh].
    destruct (update_cache_succeeds l s1 m Hh) as [s2 Hu].
    exists l, s2. unfold _get_model. unfold bind at 1, get_cache. rewrite Hm.
    rewrite (bind_ok _ _ _ _ _ Hl). cbv beta. rewrite (bind_ok _ _ _ _ _ Hu). reflexivity.
Qed.




(** * Further properties of the class *)

Open Scope nat_scope.
Open Scope list_scope.
Open Scope string_scope.

Lemma od_keys_del (k : string) {A} (d : list (string * A)) :
  od_keys (od_del k d) = filter (fun x => negb (String.eqb x k)) (od_keys d).
Proof.
  induction d as [| [k' v] d IH]; [reflexivity |].
  cbn [od_del od_keys filter map fst] in *. unfold od_del, od_keys in IH.
  destruct (String.eqb k' k); cbn [negb map fst]; rewrite IH; reflexivity.
Qed.

Lemma od_mem_keys {A} (k : string) (d : list (string * A)) :
  od_mem k d = true <-> In k (od_keys d).
Proof.
  unfold od_mem, od_keys. rewrite existsb_exists. split.
  - intros [[k' v] [Hin Heq]]. apply String.eqb_eq in Heq. cbn [fst] in Heq. subst k'.
    apply (in_map fst _ _ Hin).
  - intros Hin. apply in_map_iff in Hin. destruct Hin as [[k' v] [Hk Hin]].
    exists (k', v). split; [exact Hin | cbn [fst] in *; subst; apply String.eqb_refl].
Qed.

Lemma od_mem_del {A} (k : string) (d : list (string * A)) : od_mem k (od_del k d) = false.
Proof.
  destruct (od_mem k (od_del k d)) eqn:H; [| reflexivity].
  apply od_mem_keys in H. rewrite od_keys_del in H. apply filter_In in H.
  destruct H as [_ H]. rewrite String.eqb_refl in H. discriminate.
Qed.

Lemma od_set_fresh {A} (k : string) (v : A) (d : list (string * A)) :
  od_mem k d = false -> od_set k v d = app d [(k, v)].
Proof. unfold od_set. intros ->. reflexivity. Qed.

Lemma od_del_absent {A} (k : string) (d : list (string * A)) :
  od_mem k d = false -> od_del k d = d.
Proof.
  induction d as [| [k' v] d IH]; [reflexivity |].
  unfold od_mem. cbn [existsb fst]. intros H. apply orb_false_iff in H. destruct H as [H1 H2].
  unfold od_del. cbn [filter fst]. rewrite H1. cbn [negb].
  f_equal. apply IH. exact H2.
Qed.

Lemma od_del_length {A} (k : string) (d : list (string * A)) : length (od_del k d) <= length d.
Proof. unfold od_del. apply filter_length_le. Qed.

(** The cache update appends the new entry after removing the old one of
    the same name from the cache (itself without its oldest entry when full). *)
Lemma update_cache_dict_shape {A} (k : string) (v : A) (c : list (string * A)) :
  c <> [] \/ cache_limit <> length c ->
  update_cache_dict k v c =
  Ok (app (od_del k (if Nat.eqb cache_limit (length c) then tl c else c)) [(k, v)]).
Proof.
  intros Hc. unfold update_cache_dict.
  assert (Hp : (if Nat.eqb cache_limit (length c) then od_popitem_first c else Ok c) =
               Ok (if Nat.eqb cache_limit (length c) then tl c else c)).
  { destruct (Nat.eqb_spec cache_limit (length c)) as [He | Hne]; [| reflexivity].
    destruct c as [| x c]; [destruct Hc as [Hc | Hc]; contradiction |]. reflexivity. }
  rewrite Hp. cbn [rbind].
  set (c1 := if Nat.eqb cache_limit (length c) then tl c else c).
  destruct (od_mem k c1) eqn:Hm.
  - rewrite od_set_fresh by apply od_mem_del. reflexivity.
  - rewrite od_set_fresh by exact Hm. rewrite (od_del_absent _ _ Hm). reflexivity.
Qed.

Lemma NoDup_filter_keep {B} (f : B -> bool) (l : list B) : NoDup l -> NoDup (filter f l).
Proof.
  induction l as [| x l IH]; intros H; [constructor |].
  inversion H as [| ? ? Hx Hl]; subst. cbn [filter]. destruct (f x).
  - constructor; [| apply IH; exact Hl]. intros Hin. apply filter_In in Hin. tauto.
  - apply IH. exact Hl.
Qed.

Lemma update_cache_shape (l : nat) (st : State) (m : Model) :
  cache_ok st -> heap st l = Some (OModel m) ->
  exists st', _update_cache l st = (Ok tt, st') /\ cache_ok st' /\
    od_get (name m) (model_cache st') = Some l /\
    od_keys (model_cache st') =
      app (filter (fun x => negb (String.eqb x (name m)))
              (od_keys (if Nat.eqb cache_limit (length (model_cache st))
                        then tl (model_cache st) else model_cache st)))
          [name m] /\
    heap st' = heap st /\ next_loc st' = next_loc st /\ store st' = store st.
Proof.
  intros [Hnd Hlen] Hh.
  set (c := model_cache st) in *.
  assert (Hc : c <> [] \/ cache_limit <> length c).
  { destruct c; [right; discriminate | left; discriminate]. }
  pose proof (update_cache_dict_shape (name m) l c Hc) as Hu.
  unfold _update_cache.
  erewrite bind_ok by (unfold read_model; rewrite Hh; reflexivity). cbv beta.
  erewrite bind_ok by reflexivity. cbv beta.
  erewrite bind_ok by (unfold lift; fold c; rewrite Hu; reflexivity). cbv beta.
  unfold put_cache. eexists. split; [reflexivity |]. cbn [model_cache heap next_loc store].
  set (c1 := if Nat.eqb cache_limit (length c) then tl c else c).
  assert (Hk : od_keys (app (od_del (name m) c1) [(name m, l)]) =
               app (filter (fun x => negb (String.eqb x (name m))) (od_keys c1)) [name m]).
  { unfold od_keys at 1. rewrite map_app. fold (od_keys (od_del (name m) c1)). rewrite od_keys_del. reflexivity. }
  assert (Hnd1 : NoDup (od_keys c1)).
  { unfold c1. destruct (Nat.eqb cache_limit (length c)); [| exact Hnd].
    destruct c as [| x c']; [exact Hnd |]. cbn [tl]. unfold od_keys in Hnd |- *. cbn [map] in Hnd.
    inversion Hnd; assumption. }
  assert (Hl1 : length c1 + 1 <= cache_limit).
  { unfold c1. destruct (Nat.eqb_spec cache_limit (length c)) as [He | Hne].
    - destruct c as [| x c']; cbn [length tl] in *; unfold cache_limit in *; lia.
    - unfold cache_limit in *; lia. }
  unfold cache_ok. cbn [model_cache]. split; [split |].
  - rewrite Hk. apply NoDup_app; [apply NoDup_filter_keep; exact Hnd1 | constructor; [intros [] | constructor] |].
    intros x Hx Hx2. destruct Hx2 as [<- | []]. apply filter_In in Hx. destruct Hx as [_ Hx].
    rewrite String.eqb_refl in Hx. discriminate.
  - rewrite length_app. cbn [length]. pose proof (od_del_length (name m) c1). lia.
  - split; [| split; [exact Hk | auto]].
    rewrite <- od_set_fresh by apply od_mem_del. apply od_get_set_same.
Qed.


Lemma keeps_bind (P : State -> Prop) {A B} (c : M A) (k : A -> M B) :
  keeps P c -> (forall a, keeps P (k a)) -> keeps P (bind c k).
Proof.
  intros Hc Hk st r st' Hp H. unfold bind in H.
  destruct (c st) as [[a | e] s1] eqn:E1.
  - exact (Hk a s1 r st' (Hc st _ s1 Hp E1) H).
  - injection H as _ <-. exact (Hc st _ s1 Hp E1).
Qed.

Lemma keeps_ret (P : State -> Prop) {A} (a : A) : keeps P (ret a).
Proof. intros st r st' Hp H. injection H as _ <-. exact Hp. Qed.

Lemma keeps_raise (P : State -> Prop) {A} (e : PyExc) : keeps P (@raise A e).
Proof. intros st r st' Hp H. injection H as _ <-. exact Hp. Qed.

Lemma keeps_lift (P : State -> Prop) {A} (x : Result A) : keeps P (lift x).
Proof. intros st r st' Hp H. injection H as _ <-. exact Hp. Qed.

Lemma keeps_read_model (P : State -> Prop) (l : nat) : keeps P (read_model l).
Proof. intros st r st' Hp H. unfold read_model in H. destruct (heap st l) as [[] |]; injection H as _ <-; exact Hp. Qed.

Lemma keeps_read_features (P : State -> Prop) (m : Model) : keeps P (read_features m).
Proof.
  intros st r st' Hp H. unfold read_features in H.
  destruct (features_df m) as [fl |]; [destruct (heap st fl) as [[] |] |]; injection H as _ <-; exact Hp.
Qed.

Lemma keeps_get_cache (P : State -> Prop) : keeps P get_cache.
Proof. intros st r st' Hp H. injection H as _ <-. exact Hp. Qed.

Lemma cache_ok_same (st st' : State) : model_cache st' = model_cache st -> cache_ok st -> cache_ok st'.
Proof. unfold cache_ok. intros ->. auto. Qed.

Lemma keeps_alloc (o : Obj) : keeps cache_ok (alloc o).
Proof. intros st r st' Hp H. injection H as _ <-. exact Hp. Qed.

Lemma keeps_write (l : nat) (o : Obj) : keeps cache_ok (write l o).
Proof. intros st r st' Hp H. injection H as _ <-. exact Hp. Qed.

Lemma keeps_save (l : nat) : keeps cache_ok (save l).
Proof.
  intros st r st' Hp H. unfold save in H.
  destruct (heap st l) as [[] |]; injection H as _ <-; exact Hp.
Qed.

Lemma keeps_load (n : string) : keeps cache_ok (load n).
Proof.
  intros st r st' Hp H. unfold load in H. destruct (store st n) as [s |].
  - destruct (snap_features s).
    + exact (keeps_bind _ _ _ (keeps_alloc _) (fun _ => keeps_alloc _) st r st' Hp H).
    + exact (keeps_alloc _ st r st' Hp H).
  - injection H as _ <-. exact Hp.
Qed.

Lemma keeps_update_cache (l : nat) : keeps cache_ok (_update_cache l).
Proof.
  intros st r st' Hp H. destruct (heap st l) as [[m | f] |] eqn:Hh.
  - destruct (update_cache_shape l st m Hp Hh) as [st2 [H2 [Hok _]]]. rewrite H2 in H.
    injection H as _ <-. exact Hok.
  - unfold _update_cache, bind, read_model in H. rewrite Hh in H. injection H as _ <-. exact Hp.
  - unfold _update_cache, bind, read_model in H. rewrite Hh in H. injection H as _ <-. exact Hp.
Qed.

Ltac keeps_step :=
  cbv zeta;
  first
  [ apply keeps_update_cache | apply keeps_load | apply keeps_save
  | apply keeps_bind; [| intros ?]
  | apply keeps_ret | apply keeps_raise | apply keeps_lift | apply keeps_read_model
  | apply keeps_read_features | apply keeps_get_cache | apply keeps_alloc | apply keeps_write
  | match goal with
    | |- keeps _ (if ?b then _ else _) => destruct b
    | |- keeps _ (match ?x with _ => _ end) => destruct x
    end ].

Lemma keeps_get_model (n : string) : keeps cache_ok (_get_model n).
Proof. unfold _get_model. repeat keeps_step. Qed.

Ltac keeps_tac := repeat (first [apply keeps_get_model | keeps_step]).

Lemma keeps_entry_points (E : Env) (b ls : bool) (variant : string) (request : list (list string))
      (rows : list FeatureSpec) :
  keeps cache_ok (setup E b request) /\ keeps cache_ok (set_features rows) /\
  keeps cache_ok (get_features request) /\ keeps cache_ok (fit E request) /\
  keeps cache_ok (predict E ls variant request) /\ keeps cache_ok (get_features_expression request).
Proof.
  refine (conj _ (conj _ (conj _ (conj _ (conj _ _))))).
  - unfold setup. keeps_tac.
  - unfold set_features. keeps_tac.
  - unfold get_features. keeps_tac.
  - unfold fit, fit_prepare, fit_pipeline. keeps_tac.
  - unfold predict, predict_input. keeps_tac.
  - unfold get_features_expression. keeps_tac.
Qed.

Lemma get_model_od_get (n : string) (st s1 : State) (l : nat) :
  well_formed st -> _get_model n st = (Ok l, s1) -> od_get n (model_cache s1) = Some l.
Proof.
  intros Hwf H. destruct (get_model_facts n st s1 l Hwf H) as [_ [m [Hh [Hn _]]]].
  unfold _get_model in H. unfold bind at 1, get_cache in H.
  destruct (od_mem n (model_cache st)) eqn:Hm.
  - destruct (od_get n (model_cache st)) as [l1 |] eqn:Hg; unfold ret, raise in H; [| discriminate H].
    injection H as <- <-. exact Hg.
  - split_bind H l1 s2 Hl; [| discriminate].
    split_bind H u s3 Hu; [| discriminate].
    unfold ret in H. injection H as <- <-.
    destruct (update_cache_state l1 s2) as [Hh2 _]. rewrite Hu in Hh2. cbn [snd] in Hh2.
    rewrite Hh2 in Hh. rewrite <- Hn. exact (update_cache_get _ _ _ _ _ Hu Hh).
Qed.

(** The rows [get_features] builds from a frame. *)
Lemma get_features_hit_exact (k : string) (st : State) (l : nat) (m : Model) (fl : nat) (f : Frame) :
  od_get k (model_cache st) = Some l -> heap st l = Some (OModel m) ->
  features_df m = Some fl -> heap st fl = Some (OFrame f) ->
  get_features [[k]] st =
  (Ok (map (fun zr => let r := snd zr in
                      mkFeatureRow (f_model_name r) (fst zr) (f_name r) (variable_type r)
                                   (data_type r) (feature_strategy r) (hash_features r))
           (combine (sort_order_values (length (frame_rows f))) (frame_rows f))),
   mkState (heap_upd fl (OFrame (frame_set_column "sort_order" (sort_order_values (length (frame_rows f))) f)) (heap st))
           (next_loc st) (model_cache st) (store st)).
Proof.
  intros Hg Hh Hfd Hf. unfold get_features. cbv zeta.
  erewrite bind_ok by reflexivity. cbv beta.
  erewrite bind_ok by (apply get_model_hit; exact Hg). cbv beta.
  erewrite bind_ok by (unfold read_model; rewrite Hh; reflexivity). cbv beta.
  erewrite bind_ok by (unfold read_features; rewrite Hfd, Hf; reflexivity). cbv beta.
  erewrite bind_ok by reflexivity. cbv beta.
  erewrite bind_ok
    by (unfold lift, attr, frame_set_column; cbn [frame_extra]; rewrite od_get_set_same; reflexivity).
  reflexivity.
Qed.

Lemma feature_rows_fields (so : list Z) (rows : list FeatureSpec) :
  length so = length rows ->
  let out := map (fun zr => let r := snd zr in
                      mkFeatureRow (f_model_name r) (fst zr) (f_name r) (variable_type r)
                                   (data_type r) (feature_strategy r) (hash_features r))
                 (combine so rows) in
  map (fun r => (r_model_name r, r_name r, r_variable_type r, r_data_type r,
                 r_feature_strategy r, r_hash_features r)) out =
  map (fun r => (f_model_name r, f_name r, variable_type r, data_type r,
                 feature_strategy r, hash_features r)) rows /\
  map r_sort_order out = so.
Proof.
  intros Hlen out. unfold out. rewrite !map_map. cbn [r_model_name r_name r_variable_type r_data_type
    r_feature_strategy r_hash_features r_sort_order]. split.
  - rewrite <- (map_map snd (fun r => (f_model_name r, f_name r, variable_type r, data_type r,
                 feature_strategy r, hash_features r))). f_equal. apply map_snd_combine. exact Hlen.
  - apply map_fst_combine. exact Hlen.
Qed.

(** The state after a successful [set_features] on a well-formed state. *)
Lemma set_features_post (rows : list FeatureSpec) (n : string) (st st1 : State) :
  well_formed st -> set_features rows st = (Ok n, st1) ->
  exists l m fl, od_get n (model_cache st1) = Some l /\ heap st1 l = Some (OModel m) /\
    features_df m = Some fl /\ heap st1 fl = Some (OFrame (mkFrame rows [])) /\ name m = n /\
    store st1 n = Some (mkSnapshot m (Some (mkFrame rows []))).
Proof.
  intros Hwf H. unfold set_features in H.
  split_bind H n' s1 K1; [| discriminate].
  unfold lift in K1. injection K1 as Hn' <-.
  split_bind H l s2 K2; [| discriminate].
  destruct (get_model_facts _ _ _ _ Hwf K2) as [Hfr2 [m [Hh2 [Hn2 _]]]].
  split_bind H m1 s3 K3; [| discriminate].
  destruct (read_model_post _ _ _ _ K3) as [-> Hh3]. rewrite Hh2 in Hh3. injection Hh3 as <-.
  split_bind H fl s4 K4; [| discriminate].
  destruct (alloc_fresh _ _ _ _ Hfr2 K4) as [Hfl [_ [Hh4 [_ Hold4]]]].
  assert (Hlt : l < next_loc s2).
  { destruct (Nat.lt_ge_cases l (next_loc s2)) as [| Hge]; [assumption |].
    rewrite (Hfr2 l Hge) in Hh2. discriminate. }
  assert (Hne : fl <> l) by lia.
  split_bind H u s5 K5; [| discriminate].
  destruct (write_post _ _ _ _ _ K5) as [Hl5 [Ho5 [Hs5 Hc5]]].
  split_bind H l' s6 K6; [| discriminate].
  assert (Hf5 : heap s5 fl = Some (OFrame (mkFrame rows []))) by (rewrite Ho5 by exact Hne; exact Hh4).
  unfold save in K6. rewrite Hl5 in K6. cbn [features_df set_features_df] in K6. rewrite Hf5 in K6.
  injection K6 as <- <-.
  split_bind H u' s7 K7; [| discriminate].
  match type of K7 with
  | _update_cache _ ?s = _ => destruct (update_cache_state l s) as [Hh7 [_ Hs7]]
  end.
  rewrite K7 in Hh7, Hs7. cbn [snd heap store] in Hh7, Hs7.
  pose proof (update_cache_get _ _ _ _ _ K7 Hl5) as Hg7.
  unfold ret in H. injection H as <- <-.
  cbn [name set_features_df] in Hg7. rewrite Hn2 in Hg7.
  exists l, (set_features_df (Some fl) m), fl.
  split; [exact Hg7 |]. split; [rewrite Hh7; exact Hl5 |]. split; [reflexivity |].
  split; [rewrite Hh7; exact Hf5 |]. split; [exact Hn2 |].
  rewrite Hs7. cbn [name set_features_df]. rewrite Hn2, String.eqb_refl. reflexivity.
Qed.

(** set_features then get_features: once [set_features rows] succeeds for a
    model [n], the stored snapshot of [n] holds exactly [rows], and
    [get_features] on [n] answers one row per entry of [rows], with the same
    fields in the same order and the sort orders [sort_order_values]. *)
Theorem set_features_get_features_roundtrip (rows : list FeatureSpec) (n : string) (st st1 : State) :
  well_formed st -> set_features rows st = (Ok n, st1) ->
  (exists s, store st1 n = Some s /\ option_map frame_rows (snap_features s) = Some rows) /\
  exists out st2, get_features [[n]] st1 = (Ok out, st2) /\
    map (fun r => (r_model_name r, r_name r, r_variable_type r, r_data_type r,
                   r_feature_strategy r, r_hash_features r)) out =
    map (fun r => (f_model_name r, f_name r, variable_type r, data_type r,
                   feature_strategy r, hash_features r)) rows /\
    map r_sort_order out = sort_order_values (length rows).
Proof.
  intros Hwf H.
  destruct (set_features_post rows n st st1 Hwf H) as [l [m [fl [Hg [Hh [Hfd [Hf [_ Hs]]]]]]]].
  split; [eexists; split; [exact Hs | reflexivity] |].
  rewrite (get_features_hit_exact n st1 l m fl _ Hg Hh Hfd Hf).
  eexists; eexists; split; [reflexivity |].
  apply feature_rows_fields. apply sort_order_values_length.
Qed.

Lemma set_params_fields (E : Env) (m m' : Model) (est scl exe : string) (dra : option string) :
  _set_params E m est scl exe dra = Ok m' -> name m' = name m /\ features_df m' = features_df m.
Proof.
  unfold _set_params. intros H.
  destruct (set_execution_params E exe) as [ex | e]; cbn [rbind] in H; [| discriminate H].
  destruct (set_scaler_params E scl m) as [[[[sc ms] sh] skw] | e]; cbn [rbind] in H; [| discriminate H].
  destruct (set_estimator_params E est m) as [es | e]; cbn [rbind] in H; [| discriminate H].
  destruct (set_reduction_params E dra m) as [rd | e]; cbn [rbind] in H; [| discriminate H].
  injection H as <-. split; reflexivity.
Qed.

(** After a successful [setup], the name is cached and refers to a model
    with no feature frame. *)
Lemma setup_post (E : Env) (b : bool) (request : list (list string)) (n : string) (st st1 : State) :
  setup E b request st = (Ok n, st1) ->
  cell request 0 0 = Ok n /\
  exists l m, od_get n (model_cache st1) = Some l /\ heap st1 l = Some (OModel m) /\
    features_df m = None /\ dim_reduction m = b.
Proof.
  intros H. unfold setup in H.
  split_bind H n' s1 K1; [| discriminate]. unfold lift in K1. injection K1 as Hc <-.
  split_bind H est s2 K2; [| discriminate]. unfold lift in K2. injection K2 as _ <-.
  split_bind H scl s3 K3; [| discriminate]. unfold lift in K3. injection K3 as _ <-.
  split_bind H exe s4 K4; [| discriminate]. unfold lift in K4. injection K4 as _ <-.
  split_bind H dra s5 K5; [| discriminate]. unfold lift in K5. injection K5 as _ <-.
  split_bind H m s6 K6; [| discriminate]. unfold lift in K6. injection K6 as Hm <-.
  destruct (set_params_fields _ _ _ _ _ _ _ Hm) as [Hnm Hfm]. cbn [name features_df PersistentModel_new] in Hnm, Hfm.
  split_bind H l s7 K7; [| discriminate].
  unfold alloc in K7. injection K7 as <- <-.
  split_bind H l' s8 K8; [| discriminate].
  unfold save in K8. cbn [heap] in K8. unfold heap_upd in K8. rewrite Nat.eqb_refl in K8.
  cbn [features_df set_dim_reduction] in K8. rewrite Hfm in K8. injection K8 as <- <-.
  split_bind H u s9 K9; [| discriminate].
  match type of K9 with
  | _update_cache _ ?s = _ => destruct (update_cache_state (next_loc st) s) as [Hh9 _]
  end.
  rewrite K9 in Hh9. cbn [snd heap] in Hh9.
  assert (Hl : heap (mkState (heap_upd (next_loc st) (OModel (set_dim_reduction b m)) (heap st))
                     (S (next_loc st)) (model_cache st)
                     (fun n0 => if String.eqb n0 (name (set_dim_reduction b m))
                                then Some (mkSnapshot (set_dim_reduction b m) None) else store st n0))
                     (next_loc st) = Some (OModel (set_dim_reduction b m)))
    by (cbn [heap]; unfold heap_upd; rewrite Nat.eqb_refl; reflexivity).
  pose proof (update_cache_get _ _ _ _ _ K9 Hl) as Hg. cbn [name set_dim_reduction] in Hg.
  unfold ret in H. injection H as <- <-.
  split; [exact Hc |].
  exists (next_loc st), (set_dim_reduction b m). rewrite Hnm in Hg.
  split; [exact Hg |]. split; [rewrite Hh9; exact Hl |]. split; [exact Hfm | reflexivity].
Qed.

(** ** Models awaiting their features

    [awaiting_features n] holds from [setup] of [n] until [set_features]
    runs for it: every step of the class either leaves the cache entry and
    the snapshot of [n] without a feature frame, or touches only models of
    other names. *)

Lemma lift_post {A} (x : Result A) (st s1 : State) (r : Result A) :
  lift x st = (r, s1) -> s1 = st.
Proof. unfold lift. intros H. injection H as _ <-. reflexivity. Qed.

Lemma od_mem_get {A} (k : string) (d : list (string * A)) :
  od_mem k d = true -> exists v, od_get k d = Some v.
Proof.
  induction d as [| [k' v] d IH]; cbn; [discriminate |].
  destruct (String.eqb k' k); cbn; eauto.
Qed.

Lemma od_mem_false_in {A} (k : string) (v : A) (d : list (string * A)) :
  od_mem k d = false -> ~ In (k, v) d.
Proof.
  induction d as [| [k' w] d IH]; cbn; [tauto |].
  destruct (String.eqb_spec k' k) as [-> | Hne]; cbn; [discriminate |].
  intros H [Heq | Hin]; [congruence | exact (IH H Hin)].
Qed.

Lemma update_cache_dict_from {A} (k : string) (v : A) (c c' : list (string * A)) (p : string * A) :
  update_cache_dict k v c = Ok c' -> In p c' -> In p c \/ p = (k, v).
Proof.
  unfold update_cache_dict. intros H Hp.
  destruct (if Nat.eqb cache_limit (length c) then od_popitem_first c else Ok c) as [c1 | e] eqn:E1;
    cbn [rbind] in H; [| discriminate H].
  assert (Hc1 : forall q, In q c1 -> In q c).
  { intros q Hq. destruct (Nat.eqb cache_limit (length c)); [| injection E1 as <-; exact Hq].
    destruct c as [| x c]; cbn in E1; [discriminate E1 | injection E1 as <-; right; exact Hq]. }
  injection H as <-.
  assert (Hc2 : forall q, In q (if od_mem k c1 then od_del k c1 else c1) -> In q c1).
  { intros q Hq. destruct (od_mem k c1); [unfold od_del in Hq; apply filter_In in Hq; apply Hq | exact Hq]. }
  unfold od_set in Hp. destruct (od_mem k (if od_mem k c1 then od_del k c1 else c1)).
  - apply in_map_iff in Hp. destruct Hp as [q [Hq Hin]].
    destruct (String.eqb (fst q) k); [right; congruence |].
    left. subst q. apply Hc1, Hc2. exact Hin.
  - apply in_app_or in Hp. destruct Hp as [Hp | [Hp | []]]; [left; apply Hc1, Hc2; exact Hp | right; congruence].
Qed.

Lemma update_cache_dict_key {A} (k : string) (v x : A) (c c' : list (string * A)) :
  update_cache_dict k v c = Ok c' -> In (k, x) c' -> x = v.
Proof.
  unfold update_cache_dict. intros H Hp.
  destruct (if Nat.eqb cache_limit (length c) then od_popitem_first c else Ok c) as [c1 | e] eqn:E1;
    cbn [rbind] in H; [| discriminate H].
  injection H as <-.
  assert (Hm : od_mem k (if od_mem k c1 then od_del k c1 else c1) = false).
  { destruct (od_mem k c1) eqn:Hm1; [apply od_mem_del | exact Hm1]. }
  unfold od_set in Hp. rewrite Hm in Hp.
  apply in_app_or in Hp. destruct Hp as [Hp | [Hp | []]].
  - exfalso. exact (od_mem_false_in _ _ _ Hm Hp).
  - congruence.
Qed.

Lemma read_model_same (l : nat) (st s1 : State) (r : Result Model) :
  read_model l st = (r, s1) -> s1 = st.
Proof. unfold read_model. destruct (heap st l) as [[m | f] |]; intros H; injection H as _ <-; reflexivity. Qed.

Lemma read_features_same (m : Model) (st s1 : State) (r : Result (nat * Frame)) :
  read_features m st = (r, s1) -> s1 = st.
Proof.
  unfold read_features. destruct (features_df m) as [fl |]; [destruct (heap st fl) as [[m' | f] |] |];
    intros H; injection H as _ <-; reflexivity.
Qed.

Lemma read_features_post (m : Model) (st s1 : State) (p : nat * Frame) :
  read_features m st = (Ok p, s1) ->
  s1 = st /\ features_df m = Some (fst p) /\ heap st (fst p) = Some (OFrame (snd p)).
Proof.
  unfold read_features. destruct (features_df m) as [fl |]; [| discriminate].
  destruct (heap st fl) as [[m' | f] |] eqn:Hf; try discriminate.
  intros H. injection H as <- <-. auto.
Qed.

Lemma af_alloc (n : string) (o : Obj) (st st' : State) (r : Result nat) :
  awaiting_features n st -> alloc o st = (r, st') ->
  awaiting_features n st' /\ r = Ok (next_loc st) /\ heap st' (next_loc st) = Some o /\
  (forall x, x <> next_loc st -> heap st' x = heap st x).
Proof.
  intros [[Hfr [Hca Hst]] [Hnc Hs]] H. unfold alloc in H. injection H as <- <-.
  assert (Hold : forall x, x <> next_loc st -> heap_upd (next_loc st) o (heap st) x = heap st x)
    by (intros x Hx; unfold heap_upd; destruct (Nat.eqb_spec x (next_loc st)); congruence).
  assert (Hlt : forall x o0, heap st x = Some o0 -> x <> next_loc st)
    by (intros x o0 Hx ->; rewrite Hfr in Hx by lia; discriminate).
  unfold awaiting_features, well_formed; cbn [heap next_loc model_cache store].
  refine (conj (conj (conj _ (conj _ _)) (conj _ _)) (conj eq_refl (conj _ Hold))).
  - intros x Hx. unfold heap_upd. destruct (Nat.eqb_spec x (next_loc st)); [lia |]. apply Hfr. lia.
  - intros k x Hin. destruct (Hca k x Hin) as [m [Hm Hn]]. exists m.
    rewrite Hold by (eapply Hlt; exact Hm). auto.
  - exact Hst.
  - intros x Hin. destruct (Hnc x Hin) as [m [Hm Hf]]. exists m.
    rewrite Hold by (eapply Hlt; exact Hm). auto.
  - exact Hs.
  - unfold heap_upd. rewrite Nat.eqb_refl. reflexivity.
Qed.

Lemma af_write (n : string) (l : nat) (o : Obj) (st st' : State) (r : Result unit) :
  awaiting_features n st ->
  ((exists f f', heap st l = Some (OFrame f) /\ o = OFrame f') \/
   (exists m m', heap st l = Some (OModel m) /\ o = OModel m' /\ name m' = name m /\
                 (name m' = n -> features_df m' = None))) ->
  write l o st = (r, st') -> awaiting_features n st' /\ heap st' l = Some o.
Proof.
  intros [[Hfr [Hca Hst]] [Hnc Hs]] Ho H. unfold write in H. injection H as <- <-.
  assert (Hl : exists o0, heap st l = Some o0)
    by (destruct Ho as [[f [f' [Hh _]]] | [m [m' [Hh _]]]]; eauto).
  destruct Hl as [o0 Hl].
  assert (Hlt : l < next_loc st)
    by (destruct (Nat.lt_ge_cases l (next_loc st)) as [| Hge]; [assumption | rewrite Hfr in Hl by exact Hge; discriminate]).
  unfold awaiting_features, well_formed; cbn [heap next_loc model_cache store].
  split; [split; [split; [| split] | split] |].
  - intros x Hx. unfold heap_upd. destruct (Nat.eqb_spec x l); [lia | apply Hfr; exact Hx].
  - intros k x Hin. destruct (Hca k x Hin) as [m0 [Hm0 Hn0]]. unfold heap_upd.
    destruct (Nat.eqb_spec x l) as [-> | Hne]; [| eauto].
    destruct Ho as [[f [f' [Hh _]]] | [m [m' [Hh [-> [Hnm _]]]]]]; rewrite Hm0 in Hh; [discriminate |].
    injection Hh as <-. exists m'. split; [reflexivity | congruence].
  - exact Hst.
  - intros x Hin. destruct (Hnc x Hin) as [m0 [Hm0 Hf0]]. unfold heap_upd.
    destruct (Nat.eqb_spec x l) as [-> | Hne]; [| eauto].
    destruct (Hca n l Hin) as [m1 [Hm1 Hn1]]. rewrite Hm0 in Hm1. injection Hm1 as <-.
    destruct Ho as [[f [f' [Hh _]]] | [m [m' [Hh [-> [Hnm Hok]]]]]]; rewrite Hm0 in Hh; [discriminate |].
    injection Hh as <-. exists m'. split; [reflexivity | apply Hok; congruence].
  - exact Hs.
  - unfold heap_upd. rewrite Nat.eqb_refl. reflexivity.
Qed.

Lemma af_save (n : string) (l : nat) (st st' : State) (r : Result nat) :
  awaiting_features n st ->
  (forall m, heap st l = Some (OModel m) -> name m = n -> features_df m = None) ->
  save l st = (r, st') -> awaiting_features n st' /\ heap st' = heap st.
Proof.
  intros Haf Hok H. pose proof Haf as [[Hfr [Hca Hst]] [Hnc [s [Hs Hsf]]]]. unfold save in H.
  destruct (heap st l) as [[m | f] |] eqn:Hl; [| injection H as _ <-; auto | injection H as _ <-; auto].
  injection H as _ <-. unfold awaiting_features, well_formed; cbn [heap next_loc model_cache store].
  split; [| reflexivity].
  split; [split; [exact Hfr | split; [exact Hca |]] | split; [exact Hnc |]].
  - intros k s' Hk. destruct (String.eqb_spec k (name m)) as [-> | Hne];
      [injection Hk as <-; reflexivity | apply Hst; exact Hk].
  - destruct (String.eqb_spec n (name m)) as [Hn | Hne].
    + eexists. split; [reflexivity |]. cbn [snap_features]. rewrite (Hok m eq_refl (eq_sym Hn)). reflexivity.
    + exists s. auto.
Qed.

Lemma af_update_cache (n : string) (l : nat) (st st' : State) (r : Result unit) :
  awaiting_features n st ->
  (forall m, heap st l = Some (OModel m) -> name m = n -> features_df m = None) ->
  _update_cache l st = (r, st') -> awaiting_features n st' /\ heap st' = heap st.
Proof.
  intros Haf Hok H. pose proof Haf as [[Hfr [Hca Hst]] [Hnc Hs]]. unfold _update_cache in H.
  split_bind H m s1 K1; [| apply read_model_same in K1; subst s1; injection H as _ <-; auto].
  destruct (read_model_post _ _ _ _ K1) as [-> Hm].
  split_bind H c s2 K2; [| discriminate K2]. unfold get_cache in K2. injection K2 as <- <-.
  split_bind H c' s3 K3; [| unfold lift in K3; injection K3 as _ <-; injection H as _ <-; auto].
  unfold lift in K3. injection K3 as Hu <-.
  unfold put_cache in H. injection H as _ <-.
  unfold awaiting_features, well_formed; cbn [heap next_loc model_cache store].
  split; [| reflexivity].
  split; [split; [exact Hfr | split; [| exact Hst]] | split; [| exact Hs]].
  - intros k x Hin. destruct (update_cache_dict_from _ _ _ _ _ Hu Hin) as [Hin' | Heq];
      [exact (Hca k x Hin') | injection Heq as -> ->; eauto].
  - intros x Hin. destruct (update_cache_dict_from _ _ _ _ _ Hu Hin) as [Hin' | Heq];
      [exact (Hnc x Hin') | injection Heq as Hn ->].
    exists m. split; [exact Hm | exact (Hok m Hm (eq_sym Hn))].
Qed.

Lemma af_load (n k : string) (st st' : State) (r : Result nat) :
  awaiting_features n st -> load k st = (r, st') ->
  awaiting_features n st' /\
  forall l, r = Ok l -> exists m, heap st' l = Some (OModel m) /\ name m = k /\
                                  (name m = n -> features_df m = None).
Proof.
  intros Haf H. pose proof Haf as [[Hfr [Hca Hst]] [Hnc [s0 [Hs0 Hsf0]]]]. unfold load in H.
  destruct (store st k) as [s |] eqn:Hk; [| injection H as <- <-; split; [exact Haf | intros ? Hl; discriminate Hl]].
  pose proof (Hst k s Hk) as Hname.
  destruct (snap_features s) as [f |] eqn:Hsf.
  - split_bind H fl s1 K1; [| unfold alloc in K1; discriminate K1].
    destruct (af_alloc _ _ _ _ _ Haf K1) as [Haf1 _].
    destruct (af_alloc _ _ _ _ _ Haf1 H) as [Haf2 [Hr2 [Hh2 _]]].
    split; [exact Haf2 |]. intros l Hl. rewrite Hl in Hr2. injection Hr2 as ->.
    eexists. split; [exact Hh2 |]. cbn [name set_features_df]. split; [exact Hname |].
    intros Hn. exfalso. rewrite Hname in Hn. rewrite <- Hn in Hs0. rewrite Hs0 in Hk. injection Hk as <-. congruence.
  - destruct (af_alloc _ _ _ _ _ Haf H) as [Haf2 [Hr2 [Hh2 _]]].
    split; [exact Haf2 |]. intros l Hl. rewrite Hl in Hr2. injection Hr2 as ->.
    eexists. split; [exact Hh2 |]. cbn [name set_features_df features_df]. split; [exact Hname | reflexivity].
Qed.

Lemma af_get_model (n k : string) (st st' : State) (r : Result nat) :
  awaiting_features n st -> _get_model k st = (r, st') ->
  awaiting_features n st' /\
  forall l, r = Ok l -> exists m, heap st' l = Some (OModel m) /\ name m = k /\
                                  (name m = n -> features_df m = None).
Proof.
  intros Haf H. pose proof Haf as [[Hfr [Hca Hst]] [Hnc Hs]]. unfold _get_model in H.
  unfold bind at 1, get_cache in H.
  destruct (od_mem k (model_cache st)).
  - destruct (od_get k (model_cache st)) as [l |] eqn:Hg; unfold ret, raise in H;
      injection H as <- <-; split; try exact Haf; [| intros ? Hl; discriminate Hl].
    intros l' Hl'. injection Hl' as <-.
    pose proof (od_get_in _ _ _ Hg) as Hin.
    destruct (Hca k l Hin) as [m [Hm Hn]]. exists m. split; [exact Hm | split; [exact Hn |]].
    intros Hn'. rewrite Hn in Hn'. rewrite Hn' in Hin.
    destruct (Hnc l Hin) as [m' [Hm' Hf']]. rewrite Hm in Hm'. injection Hm' as <-. exact Hf'.
  - split_bind H l s1 K1.
    2: { destruct (af_load _ _ _ _ _ Haf K1) as [Haf1 _]. injection H as <- <-. split; [exact Haf1 | intros ? Hl; discriminate Hl]. }
    destruct (af_load _ _ _ _ _ Haf K1) as [Haf1 Hl1]. destruct (Hl1 l eq_refl) as [m [Hm [Hn Hok]]].
    assert (Hok' : forall m', heap s1 l = Some (OModel m') -> name m' = n -> features_df m' = None)
      by (intros m' Hm'; rewrite Hm in Hm'; injection Hm' as <-; exact Hok).
    split_bind H u s2 K2.
    2: { destruct (af_update_cache _ _ _ _ _ Haf1 Hok' K2) as [Haf2 _]. injection H as <- <-.
         split; [exact Haf2 | intros ? Hl; discriminate Hl]. }
    destruct (af_update_cache _ _ _ _ _ Haf1 Hok' K2) as [Haf2 Hh2].
    unfold ret in H. injection H as <- <-. split; [exact Haf2 |].
    intros l' Hl'. injection Hl' as <-. exists m. rewrite Hh2. auto.
Qed.

Lemma keeps_af_get_model (n k : string) : keeps (awaiting_features n) (_get_model k).
Proof. intros st r st' Haf H. exact (proj1 (af_get_model n k st st' r Haf H)). Qed.

Ltac af_keeps := repeat (first [apply keeps_af_get_model | keeps_step]).

Lemma af_get_features_expression (n : string) (request : list (list string)) :
  keeps (awaiting_features n) (get_features_expression request).
Proof. unfold get_features_expression. af_keeps. Qed.

Lemma af_predict (E : Env) (n : string) (ls : bool) (variant : string) (request : list (list string)) :
  keeps (awaiting_features n) (predict E ls variant request).
Proof. unfold predict, predict_input. af_keeps. Qed.

Lemma af_get_features (n : string) (request : list (list string)) (st st' : State) (r : Result (list FeatureRow)) :
  awaiting_features n st -> get_features request st = (r, st') -> awaiting_features n st'.
Proof.
  intros Haf H. unfold get_features in H. cbv zeta in H.
  split_bind H k s1 K1; apply lift_post in K1; subst s1; [| injection H as _ <-; exact Haf].
  split_bind H l s2 K2; destruct (af_get_model _ _ _ _ _ Haf K2) as [Haf2 _];
    [| injection H as _ <-; exact Haf2].
  split_bind H m s3 K3; [| apply read_model_same in K3; subst s3; injection H as _ <-; exact Haf2].
  apply read_model_same in K3. subst s3.
  split_bind H p s4 K4; [| apply read_features_same in K4; subst s4; injection H as _ <-; exact Haf2].
  destruct (read_features_post _ _ _ _ K4) as [-> [_ Hp]].
  split_bind H u s5 K5; [| unfold write in K5; discriminate K5].
  destruct (af_write _ _ _ _ _ _ Haf2 (or_introl (ex_intro _ (snd p) (ex_intro _ _ (conj Hp eq_refl)))) K5)
    as [Haf5 _].
  split_bind H so s6 K6; apply lift_post in K6; subst s6; [| injection H as _ <-; exact Haf5].
  unfold ret in H. injection H as _ <-. exact Haf5.
Qed.

Lemma af_set_features (n : string) (rows : list FeatureSpec) (st st' : State) (r : Result string) :
  awaiting_features n st -> sets_features_of n (CSetFeatures rows) = false ->
  set_features rows st = (r, st') -> awaiting_features n st'.
Proof.
  intros Haf Hne H. unfold set_features in H.
  split_bind H k s1 K1.
  2: { apply lift_post in K1. subst s1. injection H as _ <-. exact Haf. }
  assert (Hk : k <> n).
  { destruct rows as [| r0 rows]; unfold lift in K1; [discriminate K1 |]. injection K1 as <- _.
    cbn [sets_features_of] in Hne. apply String.eqb_neq. exact Hne. }
  apply lift_post in K1. subst s1.
  split_bind H l s2 K2; destruct (af_get_model _ _ _ _ _ Haf K2) as [Haf2 Hl2];
    [| injection H as _ <-; exact Haf2].
  destruct (Hl2 l eq_refl) as [m0 [Hm0 [Hn0 _]]].
  split_bind H m s3 K3; [| apply read_model_same in K3; subst s3; injection H as _ <-; exact Haf2].
  destruct (read_model_post _ _ _ _ K3) as [-> Hm]. rewrite Hm0 in Hm. injection Hm as <-.
  split_bind H fl s4 K4; [| unfold alloc in K4; discriminate K4].
  destruct (af_alloc _ _ _ _ _ Haf2 K4) as [Haf4 [_ [_ Hold4]]].
  assert (Hl4 : heap s4 l = Some (OModel m0)).
  { pose proof Haf2 as [[Hfr _] _]. rewrite Hold4; [exact Hm0 |].
    intros ->. rewrite Hfr in Hm0 by lia. discriminate. }
  split_bind H u s5 K5; [| unfold write in K5; discriminate K5].
  assert (Hw : (exists f f', heap s4 l = Some (OFrame f) /\ OModel (set_features_df (Some fl) m0) = OFrame f') \/
               (exists mo m', heap s4 l = Some (OModel mo) /\ OModel (set_features_df (Some fl) m0) = OModel m' /\
                  name m' = name mo /\ (name m' = n -> features_df m' = None))).
  { right. exists m0, (set_features_df (Some fl) m0). split; [exact Hl4 | split; [reflexivity | split; [reflexivity |]]].
    cbn [name set_features_df]. intros Hn. exfalso. apply Hk. congruence. }
  destruct (af_write _ _ _ _ _ _ Haf4 Hw K5) as [Haf5 Hl5].
  assert (Hok : forall mo, heap s5 l = Some (OModel mo) -> name mo = n -> features_df mo = None).
  { intros mo Hmo. rewrite Hl5 in Hmo. injection Hmo as <-. cbn [name set_features_df].
    intros Hn. exfalso. apply Hk. congruence. }
  split_bind H l' s6 K6; destruct (af_save _ _ _ _ _ Haf5 Hok K6) as [Haf6 Hh6];
    [| injection H as _ <-; exact Haf6].
  assert (Hl' : l' = l).
  { unfold save in K6. rewrite Hl5 in K6. injection K6 as <- _. reflexivity. }
  subst l'. rewrite <- Hh6 in Hok.
  split_bind H u' s7 K7; destruct (af_update_cache _ _ _ _ _ Haf6 Hok K7) as [Haf7 _];
    [| injection H as _ <-; exact Haf7].
  unfold ret in H. injection H as _ <-. exact Haf7.
Qed.

Lemma af_rewrite_model (n : string) (l : nat) (m m' : Model) (st s1 : State) (u : Result unit) :
  awaiting_features n st -> heap st l = Some (OModel m) -> name m <> n ->
  write l (OModel m') st = (u, s1) -> name m' = name m ->
  awaiting_features n s1 /\ heap s1 l = Some (OModel m').
Proof.
  intros Haf Hm Hn H Hn'. apply (af_write n l (OModel m') st s1 u Haf); [| exact H].
  right. exists m, m'. split; [exact Hm | split; [reflexivity | split; [exact Hn' |]]].
  intros C. exfalso. apply Hn. congruence.
Qed.

Lemma af_fit_prepare (E : Env) (n : string) (request : list (list string)) (st s1 : State)
      (r : Result (nat * Model * list FeatureSpec * (Data * Data * Data * Data))) :
  awaiting_features n st -> fit_prepare E request st = (r, s1) ->
  awaiting_features n s1 /\
  forall l m kept sp, r = Ok (l, m, kept, sp) ->
    exists mA, heap s1 l = Some (OModel mA) /\ name mA <> n.
Proof.
  intros Haf H. unfold fit_prepare in H. cbv zeta in H.
  assert (Hr : forall e s, (Raise e, s) = (r, s1) -> awaiting_features n s ->
            awaiting_features n s1 /\
            forall l m kept sp, r = Ok (l, m, kept, sp) -> exists mA, heap s1 l = Some (OModel mA) /\ name mA <> n).
  { intros e s Heq Hs. injection Heq as <- <-. split; [exact Hs | intros ? ? ? ? C; discriminate C]. }
  split_bind H k s2 K1; apply lift_post in K1; subst s2; [| exact (Hr _ _ H Haf)].
  split_bind H l s3 K2; destruct (af_get_model _ _ _ _ _ Haf K2) as [Haf3 Hl3]; [| exact (Hr _ _ H Haf3)].
  destruct (Hl3 l eq_refl) as [m0 [Hm0 [_ Hok0]]].
  split_bind H m s4 K3; [| apply read_model_same in K3; subst s4; exact (Hr _ _ H Haf3)].
  destruct (read_model_post _ _ _ _ K3) as [-> Hm]. rewrite Hm0 in Hm. injection Hm as <-.
  split_bind H p s5 K4; [| apply read_features_same in K4; subst s5; exact (Hr _ _ H Haf3)].
  destruct (read_features_post _ _ _ _ K4) as [-> [Hfd _]].
  assert (Hn0 : name m0 <> n) by (intros C; rewrite (Hok0 C) in Hfd; discriminate Hfd).
  split_bind H feats s6 K5; apply lift_post in K5; subst s6; [| exact (Hr _ _ H Haf3)].
  split_bind H data s7 K6; apply lift_post in K6; subst s7; [| exact (Hr _ _ H Haf3)].
  split_bind H tn s8 K7; apply lift_post in K7; subst s8; [| exact (Hr _ _ H Haf3)].
  split_bind H fl s9 K8; [| unfold alloc in K8; discriminate K8].
  destruct (af_alloc _ _ _ _ _ Haf3 K8) as [Haf9 [_ [_ Hold9]]].
  assert (Hl9 : heap s9 l = Some (OModel m0)).
  { pose proof Haf3 as [[Hfr _] _]. rewrite Hold9; [exact Hm0 |].
    intros ->. rewrite Hfr in Hm0 by lia. discriminate. }
  split_bind H u s10 K9; [| unfold write in K9; discriminate K9].
  destruct (af_rewrite_model _ _ _ (set_features_df (Some fl) m0) _ _ _ Haf9 Hl9 Hn0 K9 eq_refl)
    as [Haf10 Hl10].
  split_bind H sp s11 K10; apply lift_post in K10; subst s11; [| exact (Hr _ _ H Haf10)].
  split_bind H u' s12 K11; apply lift_post in K11; subst s12; [| exact (Hr _ _ H Haf10)].
  unfold ret in H. injection H as <- <-. split; [exact Haf10 |].
  intros l' m' kept' sp' Heq. injection Heq as <- _ _ _.
  eexists. split; [exact Hl10 | exact Hn0].
Qed.

Lemma af_fit_pipeline (E : Env) (n : string) (l : nat) (m mA : Model) (sp : Data * Data * Data * Data)
      (st s1 : State) (r : Result (string * Q)) :
  awaiting_features n st -> heap st l = Some (OModel mA) -> name mA <> n ->
  fit_pipeline E l m sp st = (r, s1) -> awaiting_features n s1.
Proof.
  intros Haf Hl Hn H. destruct sp as [[[Xtr Xte] ytr] yte]. unfold fit_pipeline in H. cbv beta iota zeta in H.
  split_bind H en s2 K1; apply lift_post in K1; subst s2; [| injection H as _ <-; exact Haf].
  split_bind H cls s3 K2; apply lift_post in K2; subst s3; [| injection H as _ <-; exact Haf].
  split_bind H u1 s4 K3; apply lift_post in K3; subst s4; [| injection H as _ <-; exact Haf].
  split_bind H m1 s5 K4; [| apply read_model_same in K4; subst s5; injection H as _ <-; exact Haf].
  destruct (read_model_post _ _ _ _ K4) as [-> Hm1]. rewrite Hl in Hm1. injection Hm1 as <-.
  split_bind H u2 s6 K5; [| unfold write in K5; discriminate K5].
  destruct (af_rewrite_model _ _ _ _ _ _ _ Haf Hl Hn K5 eq_refl) as [Haf6 Hl6].
  assert (Hn6 : name (set_pipe (Some (mkPipeline [("preprocessor", Preprocessor); ("estimator", EstimatorStage cls [])] false)) 1 mA) <> n)
    by exact Hn.
  clear K5.
  split_bind H u3 s7 K6.
  2: { assert (s7 = s6).
       { destruct (dim_reduction m).
         - split_bind K6 rn t7 K7; apply lift_post in K7; subst t7; [| injection K6 as _ <-; reflexivity].
           split_bind K6 u4 t8 K8; apply lift_post in K8; subst t8; [| injection K6 as _ <-; reflexivity].
           unfold raise in K6. injection K6 as _ <-. reflexivity.
         - unfold ret in K6. discriminate K6. }
       subst s7. injection H as _ <-. exact Haf6. }
  assert (Hs7 : s7 = s6).
  { destruct (dim_reduction m).
    - split_bind K6 rn t7 K7; [| discriminate].
      split_bind K6 u4 t8 K8; [| discriminate]. unfold raise in K6. discriminate K6.
    - unfold ret in K6. injection K6 as _ <-. reflexivity. }
  subst s7. clear K6.
  split_bind H fs s8 K7; apply lift_post in K7; subst s8; [| injection H as _ <-; exact Haf6].
  split_bind H m2 s9 K8; [| apply read_model_same in K8; subst s9; injection H as _ <-; exact Haf6].
  destruct (read_model_post _ _ _ _ K8) as [-> Hm2]. rewrite Hl6 in Hm2. injection Hm2 as <-.
  split_bind H u5 s10 K9; [| unfold write in K9; discriminate K9].
  destruct (af_rewrite_model _ _ _ _ _ _ _ Haf6 Hl6 Hn6 K9 eq_refl) as [Haf10 Hl10].
  clear K9.
  split_bind H sc s11 K10; apply lift_post in K10; subst s11; [| injection H as _ <-; exact Haf10].
  split_bind H m3 s12 K11; [| apply read_model_same in K11; subst s12; injection H as _ <-; exact Haf10].
  destruct (read_model_post _ _ _ _ K11) as [-> Hm3]. rewrite Hl10 in Hm3. injection Hm3 as <-.
  split_bind H u6 s13 K12; [| unfold write in K12; discriminate K12].
  destruct (af_rewrite_model _ _ _ _ _ _ _ Haf10 Hl10 Hn6 K12 eq_refl) as [Haf13 Hl13].
  clear K12.
  assert (Hok : forall mo, heap s13 l = Some (OModel mo) -> name mo = n -> features_df mo = None).
  { intros mo Hmo. rewrite Hl13 in Hmo. injection Hmo as <-. intros C. exfalso. exact (Hn6 C). }
  split_bind H l' s14 K13; destruct (af_save _ _ _ _ _ Haf13 Hok K13) as [Haf14 Hh14];
    [| injection H as _ <-; exact Haf14].
  assert (Hl' : l' = l).
  { unfold save in K13. rewrite Hl13 in K13. injection K13 as <- _. reflexivity. }
  subst l'. rewrite <- Hh14 in Hok.
  split_bind H u7 s15 K14; destruct (af_update_cache _ _ _ _ _ Haf14 Hok K14) as [Haf15 _];
    [| injection H as _ <-; exact Haf15].
  unfold ret in H. injection H as _ <-. exact Haf15.
Qed.

Lemma af_fit (E : Env) (n : string) (request : list (list string)) (st s1 : State) (r : Result (string * Q)) :
  awaiting_features n st -> fit E request st = (r, s1) -> awaiting_features n s1.
Proof.
  intros Haf H. unfold fit in H.
  split_bind H q s2 K1; destruct (af_fit_prepare _ _ _ _ _ _ Haf K1) as [Haf2 Hq];
    [| injection H as _ <-; exact Haf2].
  destruct q as [[[l m] kept] sp]. destruct (Hq l m kept sp eq_refl) as [mA [Hl Hn]].
  exact (af_fit_pipeline _ _ _ _ _ _ _ _ _ Haf2 Hl Hn H).
Qed.

Lemma af_setup_success (E : Env) (b : bool) (request : list (list string)) (n : string) (st st1 : State) :
  well_formed st -> setup E b request st = (Ok n, st1) -> awaiting_features n st1.
Proof.
  intros [Hfr [Hca Hst]] H. unfold setup in H.
  split_bind H n' s1 K1; [| discriminate]. unfold lift in K1. injection K1 as _ <-.
  split_bind H est s2 K2; [| discriminate]. unfold lift in K2. injection K2 as _ <-.
  split_bind H scl s3 K3; [| discriminate]. unfold lift in K3. injection K3 as _ <-.
  split_bind H exe s4 K4; [| discriminate]. unfold lift in K4. injection K4 as _ <-.
  split_bind H dra s5 K5; [| discriminate]. unfold lift in K5. injection K5 as _ <-.
  split_bind H m s6 K6; [| discriminate]. unfold lift in K6. injection K6 as Hm <-.
  destruct (set_params_fields _ _ _ _ _ _ _ Hm) as [Hnm Hfm]. cbn [name features_df PersistentModel_new] in Hnm, Hfm.
  split_bind H l s7 K7; [| discriminate].
  unfold alloc in K7. injection K7 as <- <-.
  split_bind H l' s8 K8; [| discriminate].
  unfold save in K8. cbn [heap] in K8. unfold heap_upd in K8. rewrite Nat.eqb_refl in K8.
  cbn [features_df set_dim_reduction] in K8. rewrite Hfm in K8. injection K8 as <- <-.
  split_bind H u s9 K9; [| discriminate].
  unfold ret in H. injection H as <- <-.
  unfold _update_cache in K9.
  split_bind K9 m' t1 L1; [| unfold read_model in L1; cbn [heap] in L1; unfold heap_upd in L1;
                             rewrite Nat.eqb_refl in L1; discriminate L1].
  destruct (read_model_post _ _ _ _ L1) as [-> Hm']. cbn [heap] in Hm'. unfold heap_upd in Hm'.
  rewrite Nat.eqb_refl in Hm'. injection Hm' as <-.
  split_bind K9 c t2 L2; [| discriminate L2]. unfold get_cache in L2. injection L2 as <- <-.
  split_bind K9 c' t3 L3; [| unfold lift in L3; injection L3 as _ <-; discriminate K9].
  unfold lift in L3. injection L3 as Hu <-. unfold put_cache in K9. injection K9 as _ <-.
  cbn [name set_dim_reduction model_cache] in Hu. rewrite Hnm in Hu.
  assert (Hold : forall x, x <> next_loc st -> heap_upd (next_loc st) (OModel (set_dim_reduction b m)) (heap st) x = heap st x)
    by (intros x Hx; unfold heap_upd; destruct (Nat.eqb_spec x (next_loc st)); [contradiction | reflexivity]).
  assert (Hnew : heap_upd (next_loc st) (OModel (set_dim_reduction b m)) (heap st) (next_loc st)
                 = Some (OModel (set_dim_reduction b m)))
    by (unfold heap_upd; rewrite Nat.eqb_refl; reflexivity).
  unfold heap_upd in Hold, Hnew.
  assert (Hnm' : name (set_dim_reduction b m) = n') by exact Hnm.
  assert (Hfm' : features_df (set_dim_reduction b m) = None) by exact Hfm.
  unfold awaiting_features, well_formed; cbn [heap next_loc model_cache store snap_model snap_features].
  split; [split; [| split] | split].
  - intros x Hx. rewrite Hold by lia. apply Hfr. lia.
  - intros k x Hin. destruct (update_cache_dict_from _ _ _ _ _ Hu Hin) as [Hin' | Heq].
    + destruct (Hca k x Hin') as [m1 [Hm1 Hk1]].
      assert (x <> next_loc st) by (intros ->; rewrite Hfr in Hm1 by lia; discriminate).
      rewrite Hold by assumption. eauto.
    + injection Heq as -> ->. exists (set_dim_reduction b m). split; [exact Hnew | exact Hnm'].
  - intros k s Hk. rewrite Hnm in Hk. destruct (String.eqb_spec k n') as [-> | Hne]; [injection Hk as <-; exact Hnm' | exact (Hst k s Hk)].
  - intros x Hin. rewrite (update_cache_dict_key _ _ _ _ _ Hu Hin).
    exists (set_dim_reduction b m). split; [exact Hnew | exact Hfm'].
  - rewrite Hnm, String.eqb_refl. eexists. split; reflexivity.
Qed.

Lemma af_setup (E : Env) (n : string) (b : bool) (request : list (list string)) (st st' : State) (r : Result string) :
  awaiting_features n st -> setup E b request st = (r, st') -> awaiting_features n st'.
Proof.
  intros Haf H. unfold setup in H.
  split_bind H k s1 K1; apply lift_post in K1; subst s1; [| injection H as _ <-; exact Haf].
  split_bind H est s2 K2; apply lift_post in K2; subst s2; [| injection H as _ <-; exact Haf].
  split_bind H scl s3 K3; apply lift_post in K3; subst s3; [| injection H as _ <-; exact Haf].
  split_bind H exe s4 K4; apply lift_post in K4; subst s4; [| injection H as _ <-; exact Haf].
  split_bind H dra s5 K5; apply lift_post in K5; subst s5; [| injection H as _ <-; exact Haf].
  split_bind H m s6 K6; [| unfold lift in K6; injection K6 as _ <-; injection H as _ <-; exact Haf].
  unfold lift in K6. injection K6 as Hm <-.
  destruct (set_params_fields _ _ _ _ _ _ _ Hm) as [_ Hfm]. cbn [features_df PersistentModel_new] in Hfm.
  split_bind H l s7 K7; [| unfold alloc in K7; discriminate K7].
  destruct (af_alloc _ _ _ _ _ Haf K7) as [Haf7 [Hl7 [Hh7 _]]]. injection Hl7 as ->.
  assert (Hok : forall mo, heap s7 (next_loc st) = Some (OModel mo) -> name mo = n -> features_df mo = None)
    by (intros mo Hmo _; rewrite Hh7 in Hmo; injection Hmo as <-; exact Hfm).
  split_bind H l' s8 K8; destruct (af_save _ _ _ _ _ Haf7 Hok K8) as [Haf8 Hh8];
    [| injection H as _ <-; exact Haf8].
  assert (Hl' : l' = next_loc st) by (unfold save in K8; rewrite Hh7 in K8; injection K8 as <- _; reflexivity).
  subst l'. rewrite <- Hh8 in Hok.
  split_bind H u s9 K9; destruct (af_update_cache _ _ _ _ _ Haf8 Hok K9) as [Haf9 _];
    [| injection H as _ <-; exact Haf9].
  unfold ret in H. injection H as _ <-. exact Haf9.
Qed.

Lemma af_run_call (E : Env) (n : string) (c : Call) (st : State) :
  awaiting_features n st -> sets_features_of n c = false -> awaiting_features n (run_call E c st).
Proof.
  intros Haf Hc. destruct c as [b r | r | r | r | r | ls v r]; cbn [run_call].
  - exact (af_setup E n b r st _ _ Haf (surjective_pairing _)).
  - exact (af_set_features n r st _ _ Haf Hc (surjective_pairing _)).
  - exact (af_get_features n r st _ _ Haf (surjective_pairing _)).
  - exact (af_get_features_expression n r st _ _ Haf (surjective_pairing _)).
  - exact (af_fit E n r st _ _ Haf (surjective_pairing _)).
  - exact (af_predict E n ls v r st _ _ Haf (surjective_pairing _)).
Qed.

Lemma af_run_calls (E : Env) (n : string) (calls : list Call) (st : State) :
  awaiting_features n st -> Forall (fun c => sets_features_of n c = false) calls ->
  awaiting_features n (run_calls E calls st).
Proof.
  unfold run_calls. revert st. induction calls as [| c calls IH]; intros st Haf Hcs; cbn [fold_left]; [exact Haf |].
  inversion Hcs as [| c' calls' Hc Hcs']; subst. apply IH; [apply af_run_call |]; assumption.
Qed.

Lemma af_model_lookup (n : string) (st : State) :
  awaiting_features n st ->
  exists l st' m, _get_model n st = (Ok l, st') /\ heap st' l = Some (OModel m) /\ features_df m = None.
Proof.
  intros Haf. pose proof Haf as [[Hfr [Hca Hst]] [Hnc [s [Hs Hsf]]]].
  destruct (od_mem n (model_cache st)) eqn:Hmem.
  - destruct (od_mem_get _ _ Hmem) as [l Hg].
    destruct (Hnc l (od_get_in _ _ _ Hg)) as [m [Hm Hf]].
    exists l, st, m. split; [exact (get_model_hit _ _ _ Hg) | split; assumption].
  - destruct (load_some _ _ _ Hs) as [l [s1 Hload]].
    destruct (af_load _ _ _ _ _ Haf Hload) as [_ Hl1].
    destruct (Hl1 l eq_refl) as [m [Hm [Hnm Hf]]].
    destruct (update_cache_succeeds _ _ _ Hm) as [s2 Hu].
    pose proof (update_cache_state l s1) as [Hh2 _]. rewrite Hu in Hh2. cbn [snd] in Hh2.
    exists l, s2, m. split; [| split; [rewrite Hh2; exact Hm | exact (Hf Hnm)]].
    unfold _get_model, bind at 1, get_cache. rewrite Hmem.
    rewrite (bind_ok _ _ _ _ _ Hload). cbv beta. rewrite (bind_ok _ _ _ _ _ Hu). reflexivity.
Qed.

(** A model [setup] has just configured has no feature frame, and keeps
    none until [set_features] runs for it: after any sequence of further
    calls ([setup], [set_features] for other models, [get_features],
    [get_features_expression], [fit], [predict]), the calls
    [get_features], [get_features_expression], [fit] and [predict] on it
    all raise the [AttributeError] of [features_df]. *)
Theorem setup_leaves_no_contract (E : Env) (b ls : bool) (variant : string)
        (request0 request : list (list string)) (calls : list Call) (n : string) (st st1 : State) :
  well_formed st -> setup E b request0 st = (Ok n, st1) ->
  Forall (fun c => sets_features_of n c = false) calls -> cell request 0 0 = Ok n ->
  fst (get_features request (run_calls E calls st1)) = Raise (AttributeError "features_df") /\
  fst (get_features_expression request (run_calls E calls st1)) = Raise (AttributeError "features_df") /\
  fst (fit E request (run_calls E calls st1)) = Raise (AttributeError "features_df") /\
  fst (predict E ls variant request (run_calls E calls st1)) = Raise (AttributeError "features_df").
Proof.
  intros Hwf Hs Hcs Hc.
  pose proof (af_run_calls E n calls st1 (af_setup_success E b request0 n st st1 Hwf Hs) Hcs) as Haf.
  remember (run_calls E calls st1) as st2 eqn:Hst2. clear Hst2.
  destruct (af_model_lookup n st2 Haf) as [l [st3 [m [Hg [Hm Hf]]]]].
  assert (Hsteps : forall A (k : nat -> Model -> nat * Frame -> M A),
            (n0 <- lift (cell request 0 0) ;; l0 <- _get_model n0 ;; m0 <- read_model l0 ;;
             p <- read_features m0 ;; k l0 m0 p) st2 = (Raise (AttributeError "features_df"), st3)).
  { intros A k.
    erewrite bind_ok by (unfold lift; rewrite Hc; reflexivity). cbv beta.
    rewrite (bind_ok _ _ _ _ _ Hg). cbv beta.
    erewrite bind_ok by (unfold read_model; rewrite Hm; reflexivity). cbv beta.
    unfold bind at 1, read_features. rewrite Hf. reflexivity. }
  split; [| split; [| split]].
  - unfold get_features. rewrite Hsteps. reflexivity.
  - unfold get_features_expression. rewrite Hsteps. reflexivity.
  - unfold fit, fit_prepare. rewrite (bind_raise _ _ _ _ _ (Hsteps _ _)). reflexivity.
  - unfold predict, predict_input. rewrite (bind_raise _ _ _ _ _ (Hsteps _ _)). reflexivity.
Qed.


(** Reading a model's features twice gives the same rows: a successful
    [get_features] leaves a state in which the same request succeeds again
    with the same response. *)
Theorem get_features_repeat (n : string) (st st1 : State) (out : list FeatureRow) :
  well_formed st -> get_features [[n]] st = (Ok out, st1) ->
  exists st2, get_features [[n]] st1 = (Ok out, st2).
Proof.
  intros Hwf H.
  assert (H0 := H). unfold get_features in H0. cbv zeta in H0.
  split_bind H0 n' s1 K1; [| discriminate]. cbn in K1. injection K1 as <- <-.
  split_bind H0 l s2 K2; [| discriminate].
  pose proof (get_model_od_get _ _ _ _ Hwf K2) as Hg.
  split_bind H0 m s3 K3; [| discriminate].
  destruct (read_model_post _ _ _ _ K3) as [-> Hh].
  split_bind H0 p s4 K4; [| discriminate].
  unfold read_features in K4. destruct (features_df m) as [fl |] eqn:Hfd; [| discriminate K4].
  destruct (heap s2 fl) as [[mf | f] |] eqn:Hf; try discriminate K4. injection K4 as <- <-.
  assert (Hs2 : get_features [[n]] s2 = (Ok out, st1)).
  { rewrite <- H. unfold get_features. cbv zeta.
    erewrite bind_ok by reflexivity. cbv beta.
    erewrite (bind_ok (_get_model n)) by (apply get_model_hit; exact Hg). cbv beta.
    symmetry. erewrite bind_ok by reflexivity. cbv beta.
    erewrite (bind_ok (_get_model n)) by exact K2. reflexivity. }
  rewrite (get_features_hit_exact n s2 l m fl f Hg Hh Hfd Hf) in Hs2.
  injection Hs2 as <- <-.
  assert (Hne : l <> fl) by (intros ->; congruence).
  eexists.
  rewrite (get_features_hit_exact n _ l m fl
             (frame_set_column "sort_order" (sort_order_values (length (frame_rows f))) f)).
  - reflexivity.
  - exact Hg.
  - cbn [heap]. unfold heap_upd. apply Nat.eqb_neq in Hne. rewrite Hne. exact Hh.
  - exact Hfd.
  - cbn [heap]. unfold heap_upd. rewrite Nat.eqb_refl. reflexivity.
Qed.

(** [get_features_expression] on a cached model with a frame. *)
Lemma get_features_expression_hit (request : list (list string)) (n : string) (st : State)
      (l : nat) (m : Model) (fl : nat) (f : Frame) :
  cell request 0 0 = Ok n -> od_get n (model_cache st) = Some l -> heap st l = Some (OModel m) ->
  features_df m = Some fl -> heap st fl = Some (OFrame f) ->
  get_features_expression request st =
  (Ok (String.concat " &'|'& " (map (fun x => "[" ++ x ++ "]") (map f_name (frame_rows f)))), st).
Proof.
  intros Hc Hg Hh Hfd Hf. unfold get_features_expression.
  erewrite bind_ok by (unfold lift; rewrite Hc; reflexivity). cbv beta.
  erewrite bind_ok by (apply get_model_hit; exact Hg). cbv beta.
  erewrite bind_ok by (unfold read_model; rewrite Hh; reflexivity). cbv beta.
  erewrite bind_ok by (unfold read_features; rewrite Hfd, Hf; reflexivity). reflexivity.
Qed.

(** [get_features_expression] answers the names of the model's feature
    contract, each in brackets, joined by [" &'|'& "]. *)
Theorem get_features_expression_contract (request : list (list string)) (n : string) (st : State)
        (rows : list FeatureSpec) :
  well_formed st -> cell request 0 0 = Ok n -> contract_of n st = Some rows ->
  exists st', get_features_expression request st =
    (Ok (String.concat " &'|'& " (map (fun x => "[" ++ x ++ "]") (map f_name rows))), st').
Proof.
  intros Hwf Hc Hcon.
  destruct (get_model_succeeds n st rows Hcon) as [l [s1 Hgm]].
  destruct (get_model_facts n st s1 l Hwf Hgm) as [_ [m [Hh [_ Hfr]]]].
  destruct (Hfr rows Hcon) as [fl [f [Hfd [Hf Hrows]]]].
  pose proof (get_model_od_get _ _ _ _ Hwf Hgm) as Hg.
  exists s1. unfold get_features_expression.
  erewrite bind_ok by (unfold lift; rewrite Hc; reflexivity). cbv beta.
  erewrite bind_ok by exact Hgm. cbv beta.
  erewrite bind_ok by (unfold read_model; rewrite Hh; reflexivity). cbv beta.
  erewrite bind_ok by (unfold read_features; rewrite Hfd, Hf; reflexivity). cbv beta.
  subst rows. reflexivity.
Qed.

(** After a successful [fit] the name is cached and its model's frame holds
    the kept rows. *)
Lemma fit_success_post (E : Env) (request : list (list string)) (n : string)
      (st st' : State) (r : string * Q) (rows0 : list FeatureSpec) :
  well_formed st -> cell request 0 0 = Ok n -> contract_of n st = Some rows0 ->
  fit E request st = (Ok r, st') ->
  exists l mB fl fr, od_get n (model_cache st') = Some l /\ heap st' l = Some (OModel mB) /\
    features_df mB = Some fl /\ heap st' fl = Some (OFrame fr) /\
    frame_rows fr = filter (fun x => negb (excluded_role x)) rows0.
Proof.
  intros Hwf Hcell Hcon H. unfold fit in H.
  split_bind H pr s1 K1; [| discriminate].
  destruct pr as [[[l m0] kept] sp]. cbv beta iota in H.
  destruct (fit_prepare_contract _ _ _ _ _ _ _ _ _ _ Hwf Hcell Hcon K1)
    as [Hkept [Hn [_ [fl' [fr [Hne [Hl [Hfl Hrows]]]]]]]].
  destruct (fit_pipeline_post E l m0 sp s1 st' r _ fl' fr H Hl eq_refl Hfl Hne)
    as [mB [HhB [HfdB [HnB [HfB [_ HcB]]]]]].
  cbn [name set_features_df] in HnB. rewrite Hn in HnB. rewrite HnB in HcB.
  exists l, mB, fl', fr. subst kept. auto.
Qed.

(** After a successful [fit], [get_features_expression] lists only the
    contract entries that [fit] kept (no target, identifier or excluded
    entry) and does not change the state. *)
Theorem fit_then_features_expression (E : Env) (request : list (list string)) (n : string)
        (st st' : State) (r : string * Q) (rows0 : list FeatureSpec) :
  well_formed st -> cell request 0 0 = Ok n -> contract_of n st = Some rows0 ->
  fit E request st = (Ok r, st') ->
  get_features_expression [[n]] st' =
  (Ok (String.concat " &'|'& "
         (map (fun x => "[" ++ x ++ "]")
              (map f_name (filter (fun x => negb (excluded_role x)) rows0)))), st').
Proof.
  intros Hwf Hcell Hcon H.
  destruct (fit_success_post E request n st st' r rows0 Hwf Hcell Hcon H)
    as [l [mB [fl [fr [Hg [Hh [Hfd [Hf Hrows]]]]]]]].
  rewrite <- Hrows. exact (get_features_expression_hit [[n]] n st' l mB fl fr eq_refl Hg Hh Hfd Hf).
Qed.

(** A [fit_pipeline] that raises has neither saved nor re-cached the model:
    the cache and the store are as before, and the model keeps its frame. *)
Lemma fit_pipeline_fail_post (E : Env) (l : nat) (m : Model) (sp : Data * Data * Data * Data)
      (s1 s2 : State) (e : PyExc) (mA : Model) (fl : nat) (fr : Frame) :
  fit_pipeline E l m sp s1 = (Raise e, s2) -> heap s1 l = Some (OModel mA) ->
  features_df mA = Some fl -> heap s1 fl = Some (OFrame fr) -> l <> fl ->
  model_cache s2 = model_cache s1 /\ store s2 = store s1 /\ heap s2 fl = Some (OFrame fr) /\
  exists mB, heap s2 l = Some (OModel mB) /\ features_df mB = Some fl.
Proof.
  intros H Hh Hfd Hf Hne. destruct sp as [[[a b] c] d]. unfold fit_pipeline in H. cbv beta iota in H.
  split_bind H en t1 K1; [apply lift_post in K1; subst t1 | apply lift_post in K1; subst t1;
    injection H as _ <-; split; [reflexivity | split; [reflexivity | split; [assumption | eexists; split; eassumption]]]].
  split_bind H cls t2 K2; [apply lift_post in K2; subst t2 | apply lift_post in K2; subst t2;
    injection H as _ <-; split; [reflexivity | split; [reflexivity | split; [assumption | eexists; split; eassumption]]]].
  split_bind H u1 t3 K3; [apply lift_post in K3; subst t3 | apply lift_post in K3; subst t3;
    injection H as _ <-; split; [reflexivity | split; [reflexivity | split; [assumption | eexists; split; eassumption]]]].
  split_bind H m1 t4 K4; [| unfold read_model in K4; rewrite Hh in K4; discriminate K4].
  destruct (read_model_post _ _ _ _ K4) as [-> Hh4]. rewrite Hh in Hh4. injection Hh4 as <-.
  split_bind H u2 t5 K5; [| discriminate K5].
  destruct (write_post _ _ _ _ _ K5) as [Hl5 [Ho5 [Hs5 Hc5]]].
  assert (Hf5 : heap t5 fl = Some (OFrame fr)) by (rewrite Ho5 by congruence; exact Hf).
  assert (Hfd5 : features_df (set_pipe (Some (mkPipeline [("preprocessor", Preprocessor);
              ("estimator", EstimatorStage cls [])] false)) 1 mA) = Some fl) by exact Hfd.
  clear K5.
  split_bind H u3 t6 K6.
  2: { assert (t6 = t5).
       { destruct (dim_reduction m).
         - split_bind K6 rn t7 K7; [apply lift_post in K7; subst t7 | apply lift_post in K7; subst t7; injection K6 as _ <-; reflexivity].
           split_bind K6 u4 t8 K8; [apply lift_post in K8; subst t8 | apply lift_post in K8; subst t8; injection K6 as _ <-; reflexivity].
           unfold raise in K6. injection K6 as _ <-. reflexivity.
         - unfold ret in K6. discriminate K6. }
       subst t6. injection H as _ <-.
       split; [exact Hc5 | split; [exact Hs5 | split; [exact Hf5 | eexists; split; [exact Hl5 | exact Hfd5]]]]. }
  assert (Ht6 : t6 = t5).
  { destruct (dim_reduction m).
    - split_bind K6 rn t7 K7; [| discriminate].
      split_bind K6 u4 t8 K8; [| discriminate]. unfold raise in K6. discriminate K6.
    - unfold ret in K6. injection K6 as _ <-. reflexivity. }
  subst t6. clear K6.
  split_bind H fs t7 K7; [apply lift_post in K7; subst t7 | apply lift_post in K7; subst t7;
    injection H as _ <-;
    split; [exact Hc5 | split; [exact Hs5 | split; [exact Hf5 | eexists; split; [exact Hl5 | exact Hfd5]]]]].
  split_bind H m2 t8 K8; [| unfold read_model in K8; rewrite Hl5 in K8; discriminate K8].
  destruct (read_model_post _ _ _ _ K8) as [-> Hh8]. rewrite Hl5 in Hh8. injection Hh8 as <-.
  split_bind H u5 t9 K9; [| discriminate K9].
  destruct (write_post _ _ _ _ _ K9) as [Hl9 [Ho9 [Hs9 Hc9]]].
  assert (Hf9 : heap t9 fl = Some (OFrame fr)) by (rewrite Ho9 by congruence; exact Hf5).
  clear K9.
  split_bind H sc t10 K10; [apply lift_post in K10; subst t10 | apply lift_post in K10; subst t10;
    injection H as _ <-;
    split; [congruence | split; [congruence | split; [exact Hf9 | eexists; split; [exact Hl9 | exact Hfd5]]]]].
  split_bind H m3 t11 K11; [| unfold read_model in K11; rewrite Hl9 in K11; discriminate K11].
  destruct (read_model_post _ _ _ _ K11) as [-> Hh11]. rewrite Hl9 in Hh11. injection Hh11 as <-.
  split_bind H u6 t12 K12; [| discriminate K12].
  destruct (write_post _ _ _ _ _ K12) as [Hl12 [Ho12 [Hs12 Hc12]]]. clear K12.
  split_bind H l' t13 K13.
  2: { unfold save in K13. rewrite Hl12 in K13. discriminate K13. }
  split_bind H u7 t14 K14.
  2: { unfold save in K13. rewrite Hl12 in K13. injection K13 as <- <-.
       match type of K14 with
       | _update_cache _ ?s = _ => destruct (update_cache_succeeds l s _ Hl12) as [st' Hu]
       end.
       rewrite Hu in K14. discriminate K14. }
  unfold ret in H. discriminate H.
Qed.

Lemma load_store (n : string) (st s1 : State) (r : Result nat) :
  load n st = (r, s1) -> store s1 = store st.
Proof.
  unfold load. destruct (store st n) as [s |]; [| intros H; injection H as _ <-; reflexivity].
  destruct (snap_features s) as [f |]; intros H.
  - unfold bind, alloc in H. injection H as _ <-. reflexivity.
  - unfold alloc in H. injection H as _ <-. reflexivity.
Qed.

Lemma get_model_store (n : string) (st s1 : State) (r : Result nat) :
  _get_model n st = (r, s1) -> store s1 = store st.
Proof.
  unfold _get_model. intros H. unfold bind at 1, get_cache in H.
  destruct (od_mem n (model_cache st)).
  - destruct (od_get n (model_cache st)); unfold ret, raise in H; injection H as _ <-; reflexivity.
  - unfold bind in H. destruct (load n st) as [[l | e] s2] eqn:Hl.
    + pose proof (load_store _ _ _ _ Hl) as Hs2.
      destruct (update_cache_state l s2) as [_ [_ Hs3]].
      destruct (_update_cache l s2) as [[u | e] s3]; cbn [snd] in Hs3;
        [unfold ret in H |]; injection H as _ <-; congruence.
    + injection H as _ <-. exact (load_store _ _ _ _ Hl).
Qed.

(** After the first part of [fit], the name is cached at the model
    reference and the store is untouched. *)
Lemma fit_prepare_cache (E : Env) (request : list (list string)) (st s1 : State) (n : string)
      (l : nat) (m0 : Model) (kept : list FeatureSpec) (sp : Data * Data * Data * Data) :
  well_formed st -> cell request 0 0 = Ok n ->
  fit_prepare E request st = (Ok (l, m0, kept, sp), s1) ->
  od_get n (model_cache s1) = Some l /\ store s1 = store st.
Proof.
  intros Hwf Hcell Hp. unfold fit_prepare in Hp. cbv zeta in Hp.
  split_bind Hp n' s2 K1; [| discriminate].
  unfold lift in K1. rewrite Hcell in K1. injection K1 as <- <-.
  split_bind Hp l1 s3 K2; [| discriminate].
  pose proof (get_model_od_get _ _ _ _ Hwf K2) as Hg.
  pose proof (get_model_store _ _ _ _ K2) as Hs.
  split_bind Hp m1 s4 K3; [| discriminate]. destruct (read_model_post _ _ _ _ K3) as [-> _].
  split_bind Hp q s5 K4; [| discriminate].
  unfold read_features in K4. destruct (features_df m1); [destruct (heap s3 n0) as [[] |] |];
    try discriminate K4. injection K4 as _ <-.
  split_bind Hp feats s6 K5; [| discriminate]. apply lift_post in K5. subst s6.
  split_bind Hp X s7 K6; [| discriminate]. apply lift_post in K6. subst s7.
  split_bind Hp tn s8 K7; [| discriminate]. apply lift_post in K7. subst s8.
  split_bind Hp fl' s9 K8; [| discriminate]. unfold alloc in K8. injection K8 as _ <-.
  split_bind Hp u s10 K9; [| discriminate]. unfold write in K9. injection K9 as _ <-.
  split_bind Hp sp' s11 K10; [| discriminate]. apply lift_post in K10. subst s11.
  split_bind Hp u' s12 K11; [| discriminate]. apply lift_post in K11. subst s12.
  unfold ret in Hp. injection Hp as <- _ _ _ <-. cbn [model_cache store]. auto.
Qed.

(** [fit] on a cached model whose frame has no target row raises. *)
Lemma fit_no_target_hit (E : Env) (request : list (list string)) (n : string) (st : State)
      (l : nat) (m : Model) (fl : nat) (f : Frame) :
  cell request 0 0 = Ok n -> od_get n (model_cache st) = Some l -> heap st l = Some (OModel m) ->
  features_df m = Some fl -> heap st fl = Some (OFrame f) -> filter is_target (frame_rows f) = [] ->
  exists e st', fit E request st = (Raise e, st').
Proof.
  intros Hc Hg Hh Hfd Hf Ht.
  assert (Hp : exists e st', fit_prepare E request st = (Raise e, st')).
  { unfold fit_prepare. cbv zeta.
    erewrite bind_ok by (unfold lift; rewrite Hc; reflexivity). cbv beta.
    erewrite bind_ok by (apply get_model_hit; exact Hg). cbv beta.
    erewrite bind_ok by (unfold read_model; rewrite Hh; reflexivity). cbv beta.
    erewrite bind_ok by (unfold read_features; rewrite Hfd, Hf; reflexivity). cbv beta.
    cbn [fst snd].
    destruct (column request 1) as [feats | e] eqn:Hcol.
    2: { unfold bind at 1, lift. eauto. }
    erewrite bind_ok by (unfold lift; reflexivity). cbv beta.
    destruct (convert_types E (frame_rows f) feats) as [X | e] eqn:Hx.
    2: { unfold bind at 1, lift. eauto. }
    erewrite bind_ok by (unfold lift; reflexivity). cbv beta.
    unfold bind at 1, lift. rewrite Ht. eauto. }
  destruct Hp as [e [st' Hp]]. unfold fit. rewrite (bind_raise _ _ _ _ _ Hp). eauto.
Qed.

Lemma filter_is_target_kept (rows : list FeatureSpec) :
  filter is_target (filter (fun x => negb (excluded_role x)) rows) = [].
Proof.
  induction rows as [| r rows IH]; [reflexivity |]. cbn [filter].
  unfold excluded_role, is_target in *. cbn [existsb].
  destruct (String.eqb (variable_type r) "target") eqn:Ht.
  - rewrite orb_true_r. exact IH.
  - destruct (String.eqb (variable_type r) "excluded" || (false || (String.eqb (variable_type r) "identifier" || false))); cbn [negb filter]; [exact IH |].
    rewrite Ht. exact IH.
Qed.

(** The first part of [fit], once the frame's target row is found, has
    stripped the cached model's frame, whatever it returns. *)
Lemma fit_prepare_strip (E : Env) (request : list (list string)) (st s1 : State) (n : string)
      (rows0 : list FeatureSpec) (feats : list string) (data : Data)
      (r : Result (nat * Model * list FeatureSpec * (Data * Data * Data * Data))) :
  well_formed st -> cell request 0 0 = Ok n -> contract_of n st = Some rows0 ->
  column request 1 = Ok feats -> convert_types E rows0 feats = Ok data -> filter is_target rows0 <> [] ->
  fit_prepare E request st = (r, s1) ->
  store s1 = store st /\
  exists l m0 fl' fr, od_get n (model_cache s1) = Some l /\ l <> fl' /\
    heap s1 l = Some (OModel (set_features_df (Some fl') m0)) /\ heap s1 fl' = Some (OFrame fr) /\
    frame_rows fr = filter (fun x => negb (excluded_role x)) rows0 /\
    forall l1 m1 kept sp, r = Ok (l1, m1, kept, sp) -> l1 = l /\ m1 = m0.
Proof.
  intros Hwf Hcell Hcon Hcol Hconv Htgt Hp. unfold fit_prepare in Hp. cbv zeta in Hp.
  split_bind Hp n' s2 K1; [| unfold lift in K1; rewrite Hcell in K1; discriminate K1].
  unfold lift in K1. rewrite Hcell in K1. injection K1 as <- <-.
  destruct (get_model_succeeds _ _ _ Hcon) as [l [s3 K2]]. rewrite (bind_ok _ _ _ _ _ K2) in Hp. cbv beta in Hp.
  destruct (get_model_facts _ _ _ _ Hwf K2) as [Hfr3 [m [Hh [_ Hc]]]].
  destruct (Hc rows0 Hcon) as [fl0 [f0 [Hfd0 [Hf0 Hrows]]]].
  pose proof (get_model_od_get _ _ _ _ Hwf K2) as Hg. pose proof (get_model_store _ _ _ _ K2) as Hs3.
  erewrite bind_ok in Hp by (unfold read_model; rewrite Hh; reflexivity). cbv beta in Hp.
  erewrite bind_ok in Hp by (unfold read_features; rewrite Hfd0, Hf0; reflexivity). cbv beta in Hp.
  cbn [fst snd] in Hp. rewrite Hrows in Hp.
  erewrite bind_ok in Hp by (unfold lift; rewrite Hcol; reflexivity). cbv beta in Hp.
  erewrite bind_ok in Hp by (unfold lift; rewrite Hconv; reflexivity). cbv beta in Hp.
  destruct (filter is_target rows0) as [| t ts] eqn:Ht; [contradiction |].
  erewrite bind_ok in Hp by reflexivity. cbv beta in Hp.
  split_bind Hp fl' s9 K8; [| unfold alloc in K8; discriminate K8].
  destruct (alloc_fresh _ _ _ _ Hfr3 K8) as [Hfl [_ [Hh9 [_ Hold9]]]].
  assert (Hst9 : store s9 = store s3 /\ model_cache s9 = model_cache s3)
    by (unfold alloc in K8; injection K8 as _ <-; split; reflexivity).
  assert (Hlt : l < next_loc s3).
  { destruct (Nat.lt_ge_cases l (next_loc s3)) as [| Hge]; [assumption |].
    rewrite (Hfr3 l Hge) in Hh. discriminate. }
  split_bind Hp u s10 K9; [| unfold write in K9; discriminate K9].
  destruct (write_post _ _ _ _ _ K9) as [Hh10 [Hold10 [Hs10 Hc10]]].
  assert (Hpost : store s10 = store st /\
    exists fr, od_get n (model_cache s10) = Some l /\ l <> fl' /\
      heap s10 l = Some (OModel (set_features_df (Some fl') m)) /\ heap s10 fl' = Some (OFrame fr) /\
      frame_rows fr = filter (fun x => negb (excluded_role x)) rows0).
  { split; [rewrite Hs10, (proj1 Hst9); exact Hs3 |].
    exists (frame_loc_mask (map negb (map excluded_role rows0)) f0).
    split; [rewrite Hc10, (proj2 Hst9); exact Hg |]. split; [lia |]. split; [exact Hh10 |].
    split; [rewrite Hold10 by lia; rewrite Hfl in Hh9; rewrite Hfl; exact Hh9 |].
    unfold frame_loc_mask. cbn [frame_rows]. rewrite <- Hrows. rewrite Hrows. apply mask_filter_negb. }
  destruct Hpost as [Hs [fr [Hg' [Hne [Hl [Hf Hfr]]]]]].
  split_bind Hp sp s11 K10; apply lift_post in K10; subst s11;
    [| injection Hp as <- <-; split; [exact Hs |];
       exists l, m, fl', fr; repeat (split; [eassumption |]); intros ? ? ? ? Hr; discriminate Hr].
  split_bind Hp u' s12 K11; apply lift_post in K11; subst s12;
    [| injection Hp as <- <-; split; [exact Hs |];
       exists l, m, fl', fr; repeat (split; [eassumption |]); intros ? ? ? ? Hr; discriminate Hr].
  unfold ret in Hp. injection Hp as <- <-. split; [exact Hs |].
  exists l, m, fl', fr; repeat (split; [eassumption |]). intros ? ? ? ? Hr. injection Hr as -> -> _ _. auto.
Qed.

(** A [fit] that raises once it has stripped the model's frame, that is
    after the frame's target row is found (at [train_test_split], at the
    [Preprocessor], or anywhere in the estimator pipeline), leaves the
    snapshot store as it was, but the cached model keeps the frame stripped
    of its target, identifier and excluded entries: a [fit] of the same
    model on the state it leaves raises. *)
Theorem failed_fit_keeps_stripped_contract (E : Env) (request : list (list string)) (n : string)
        (st st' : State) (e : PyExc) (rows0 : list FeatureSpec) (feats : list string) (data : Data) :
  well_formed st -> cell request 0 0 = Ok n -> contract_of n st = Some rows0 ->
  column request 1 = Ok feats -> convert_types E rows0 feats = Ok data -> filter is_target rows0 <> [] ->
  fit E request st = (Raise e, st') ->
  store st' = store st /\
  contract_of n st' = Some (filter (fun x => negb (excluded_role x)) rows0) /\
  (forall request', cell request' 0 0 = Ok n -> exists e' st'', fit E request' st' = (Raise e', st'')).
Proof.
  intros Hwf Hcell Hcon Hcol Hconv Htgt H. unfold fit in H.
  destruct (fit_prepare E request st) as [r s1] eqn:Hp.
  destruct (fit_prepare_strip E request st s1 n rows0 feats data r Hwf Hcell Hcon Hcol Hconv Htgt Hp)
    as [Hs1 [l [m0 [fl' [fr [Hg [Hne [Hl [Hf [Hfr Hr]]]]]]]]]].
  enough (Hend : exists mB, store st' = store st /\ od_get n (model_cache st') = Some l /\
                   heap st' l = Some (OModel mB) /\ features_df mB = Some fl' /\ heap st' fl' = Some (OFrame fr)).
  { destruct Hend as [mB [Hs [Hg' [Hh' [Hfd' Hf']]]]].
    split; [exact Hs | split].
    - unfold contract_of. rewrite (od_get_mem _ _ _ Hg'), Hg', Hh', Hfd', Hf', Hfr. reflexivity.
    - intros request' Hc'. apply (fit_no_target_hit E request' n st' l mB fl' fr Hc' Hg' Hh' Hfd' Hf').
      rewrite Hfr. apply filter_is_target_kept. }
  destruct r as [[[[l1 m1] kept] sp] | e0].
  - destruct (Hr _ _ _ _ eq_refl) as [-> ->].
    rewrite (bind_ok _ _ _ _ _ Hp) in H. cbv beta iota in H.
    destruct (fit_pipeline_fail_post E l m0 sp s1 st' e _ fl' fr H Hl eq_refl Hf Hne)
      as [Hc2 [Hs2 [Hf2 [mB [Hh2 Hfd2]]]]].
    exists mB. rewrite Hc2, Hs2. auto.
  - rewrite (bind_raise _ _ _ _ _ Hp) in H. injection H as _ <-.
    eexists. split; [exact Hs1 | split; [exact Hg | split; [exact Hl | split; [reflexivity | exact Hf]]]].
Qed.




Lemma proba_loop_short (E : Env) (p : Pipeline) (k : nat) (cs : list string) :
  classes_at p k = Ok cs ->
  forall a i s, i + length a <= length cs -> exists s', proba_loop E p k i a s = Ok s'.
Proof.
  intros Hcs a. induction a as [| b a IH]; intros i s Hle; cbn [proba_loop]; [eauto |].
  rewrite Hcs. cbn [rbind].
  destruct (nth_error cs i) as [c |] eqn:Hc.
  - cbn [rbind]. apply IH. cbn [length] in Hle. lia.
  - apply nth_error_None in Hc. cbn [length] in Hle. lia.
Qed.

Lemma proba_loop_long (E : Env) (p : Pipeline) (k : nat) (cs : list string) :
  classes_at p k = Ok cs ->
  forall a i s, i <= length cs -> length cs < i + length a -> proba_loop E p k i a s = Raise IndexError.
Proof.
  intros Hcs a. induction a as [| b a IH]; intros i s Hi Hlt; cbn [length] in Hlt; [lia |].
  cbn [proba_loop]. rewrite Hcs. cbn [rbind].
  destruct (nth_error cs i) as [c |] eqn:Hc.
  - cbn [rbind]. assert (i < length cs) by (apply nth_error_Some; congruence).
    apply IH; lia.
  - reflexivity.
Qed.

(** A probability row is formatted against the estimator's classes when it
    has at most as many probabilities as classes, and raises [IndexError]
    when it has more. *)
Theorem proba_row_bounds (E : Env) (p : Pipeline) (k : nat) (cs : list string) (a : list Q) :
  classes_at p k = Ok cs ->
  (length a <= length cs -> proba_row E p k a = Ok (proba_spec (fmt3 E) cs a)) /\
  (length cs < length a -> proba_row E p k a = Raise IndexError).
Proof.
  intros Hcs. split; intros Hl.
  - destruct (proba_loop_short E p k cs Hcs a 0 "" Hl) as [s' Hs'].
    assert (Hr : proba_row E p k a = Ok (drop2 s')) by (unfold proba_row; rewrite Hs'; reflexivity).
    destruct (proba_row_ok E p k a _ Hr) as [_ Heq].
    unfold estimator_classes in Heq. rewrite Hcs in Heq. rewrite Hr, Heq. reflexivity.
  - unfold proba_row. rewrite (proba_loop_long E p k cs Hcs a 0 "") by lia. reflexivity.
Qed.

Lemma join_on_key_cons_right_unused (left : list (string * string)) (k y : string)
      (right : list (string * string)) :
  ~ In k (map snd left) -> join_on_key left ((k, y) :: right) = join_on_key left right.
Proof.
  induction left as [| [nm k'] left IH]; intros Hn; [reflexivity |].
  unfold join_on_key in *. cbn [flat_map filter fst snd map] in *.
  destruct (String.eqb_spec k k') as [-> | Hne]; [exfalso; apply Hn; left; reflexivity |].
  rewrite IH by (intros Hi; apply Hn; right; exact Hi). reflexivity.
Qed.

Lemma filter_key_absent (k : string) (right : list (string * string)) :
  ~ In k (map fst right) -> filter (fun kr => String.eqb (fst kr) k) right = [].
Proof.
  induction right as [| [k' y] right IH]; intros Hn; [reflexivity |].
  cbn [filter fst]. destruct (String.eqb_spec k' k) as [-> | _]; [exfalso; apply Hn; left; reflexivity |].
  apply IH. intros Hi. apply Hn. right. exact Hi.
Qed.

(** With distinct keys, joining the request rows with the predictions on the
    key pairs each request row with the prediction at its own position. *)
Theorem join_on_key_distinct_keys (names keys ys : list string) :
  NoDup keys -> length names = length keys -> length keys = length ys ->
  join_on_key (combine names keys) (combine keys ys) = combine (combine names keys) ys.
Proof.
  revert names ys. induction keys as [| k keys IH]; intros names ys Hnd Hl1 Hl2.
  - destruct names; reflexivity.
  - destruct names as [| nm names]; [discriminate Hl1 |]. destruct ys as [| y ys]; [discriminate Hl2 |].
    inversion Hnd as [| ? ? Hk Hnd']; subst.
    cbn [combine]. unfold join_on_key. cbn [flat_map fst snd filter]. rewrite String.eqb_refl.
    rewrite filter_key_absent.
    2: { rewrite map_fst_combine by (cbn [length] in Hl2; lia). exact Hk. }
    cbn [map fst snd app]. f_equal.
    change (join_on_key (combine names keys) ((k, y) :: combine keys ys) = combine (combine names keys) ys).
    rewrite join_on_key_cons_right_unused.
    2: { rewrite map_snd_combine by (cbn [length] in Hl1; lia). exact Hk. }
    apply IH; [exact Hnd' | cbn [length] in *; lia | cbn [length] in *; lia].
Qed.

Lemma filter_key_count (k : string) (keys ys : list string) :
  length keys = length ys ->
  length (filter (fun kr => String.eqb (fst kr) k) (combine keys ys)) = count_occ string_dec keys k.
Proof.
  revert ys. induction keys as [| k' keys IH]; intros [| y ys] Hl; cbn [length] in Hl; try discriminate; [reflexivity |].
  cbn [combine filter fst count_occ]. destruct (String.eqb_spec k' k) as [-> | Hne].
  - destruct (string_dec k k) as [_ | C]; [| contradiction]. cbn [length]. f_equal. apply IH. lia.
  - destruct (string_dec k' k) as [C | _]; [contradiction |]. apply IH. lia.
Qed.

(** The keyed response of [predict] has one row per pair of request rows
    that share a key: a key used [c] times contributes [c * c] rows. *)
Theorem join_on_key_row_count (names keys ys : list string) :
  length names = length keys -> length keys = length ys ->
  length (join_on_key (combine names keys) (combine keys ys)) =
  list_sum (map (fun k => count_occ string_dec keys k) keys).
Proof.
  intros Hl1 Hl2. unfold join_on_key.
  assert (Hfm : forall (l : list (string * string)) (f : string * string -> list (string * string * string)),
             length (flat_map f l) = list_sum (map (fun x => length (f x)) l)).
  { induction l as [| x l IH]; intros f; [reflexivity |]. cbn [flat_map map list_sum]. rewrite length_app, IH. reflexivity. }
  rewrite Hfm.
  rewrite (map_ext (fun x => length (map (fun kr => (fst x, snd x, snd kr))
                                          (filter (fun kr => String.eqb (fst kr) (snd x)) (combine keys ys))))
                   (fun x => count_occ string_dec keys (snd x))).
  2: { intros x. rewrite length_map. apply filter_key_count. exact Hl2. }
  rewrite <- (map_map snd (fun k => count_occ string_dec keys k)).
  rewrite map_snd_combine by exact Hl1. reflexivity.
Qed.
















(** Putting a model into the cache of distinct names with at most
    [cache_limit] entries: when the cache is full its oldest entry is
    dropped first, any entry of the same name is removed, and the model is
    appended last; the result again has distinct names and at most
    [cache_limit] entries, and nothing but the cache changes. *)
Theorem update_cache_keeps_cache_shape (l : nat) (st : State) (m : Model) :
  cache_ok st -> heap st l = Some (OModel m) ->
  exists st', _update_cache l st = (Ok tt, st') /\ cache_ok st' /\
    od_get (name m) (model_cache st') = Some l /\
    od_keys (model_cache st') =
      app (filter (fun x => negb (String.eqb x (name m)))
              (od_keys (if Nat.eqb cache_limit (length (model_cache st))
                        then tl (model_cache st) else model_cache st)))
          [name m] /\
    heap st' = heap st /\ next_loc st' = next_loc st /\ store st' = store st.
Proof. exact (update_cache_shape l st m). Qed.

(** Every entry point of the class that uses the cache ([setup],
    [set_features], [get_features], [fit], [predict],
    [get_features_expression]) keeps its names distinct and its size at
    most [cache_limit], whether it succeeds or raises. *)
Theorem entry_points_keep_cache_shape (E : Env) (b ls : bool) (variant : string)
        (request : list (list string)) (rows : list FeatureSpec) (st : State) :
  cache_ok st ->
  cache_ok (snd (setup E b request st)) /\ cache_ok (snd (set_features rows st)) /\
  cache_ok (snd (get_features request st)) /\ cache_ok (snd (fit E request st)) /\
  cache_ok (snd (predict E ls variant request st)) /\
  cache_ok (snd (get_features_expression request st)).
Proof.
  intros Hst.
  destruct (keeps_entry_points E b ls variant request rows) as [H1 [H2 [H3 [H4 [H5 H6]]]]].
  refine (conj _ (conj _ (conj _ (conj _ (conj _ _))))).
  - destruct (setup E b request st) as [r st'] eqn:Hc. exact (H1 st r st' Hst Hc).
  - destruct (set_features rows st) as [r st'] eqn:Hc. exact (H2 st r st' Hst Hc).
  - destruct (get_features request st) as [r st'] eqn:Hc. exact (H3 st r st' Hst Hc).
  - destruct (fit E request st) as [r st'] eqn:Hc. exact (H4 st r st' Hst Hc).
  - destruct (predict E ls variant request st) as [r st'] eqn:Hc. exact (H5 st r st' Hst Hc).
  - destruct (get_features_expression request st) as [r st'] eqn:Hc. exact (H6 st r st' Hst Hc).
Qed.

(** ** Witnesses *)

Lemma well_formed_one_model_state (m : Model) : name m = "m1" -> well_formed (one_model_state m).
Proof.
  intros Hn. split; [| split].
  - intros l Hl. cbn in Hl. do 2 (destruct l as [| l]; [lia |]). reflexivity.
  - intros k l [Hin | []]. injection Hin as <- <-. eexists. split; [reflexivity |]. exact Hn.
  - intros k s Hs. discriminate Hs.
Qed.

Lemma cache_ok_reput_state : cache_ok reput_state.
Proof.
  split; [| cbn; unfold cache_limit; lia].
  cbn. constructor; [| constructor; [| constructor; [| constructor]]]; cbn; intros H;
    repeat destruct H as [H | H]; try discriminate H; exact H.
Qed.

Lemma update_cache_keeps_cache_shape_witness :
  exists st', _update_cache 2 reput_state = (Ok tt, st') /\ cache_ok st' /\
    od_get "m3" (model_cache st') = Some 2 /\
    od_keys (model_cache st') = ["m2"; "m3"] /\
    heap st' = heap reput_state /\ next_loc st' = 4 /\ store st' = store reput_state.
Proof.
  destruct (update_cache_keeps_cache_shape 2 reput_state (PersistentModel_new "m3")
              cache_ok_reput_state eq_refl) as [st' [H1 [H2 [H3 [H4 [H5 [H6 H7]]]]]]].
  exists st'. refine (conj H1 (conj H2 (conj H3 (conj _ (conj H5 (conj H6 H7)))))).
  rewrite H4. reflexivity.
Defined.

Lemma entry_points_keep_cache_shape_witness :
  cache_ok (snd (setup demo_env false [["m1"]] reput_state)) /\
  cache_ok (snd (set_features demo_features reput_state)) /\
  cache_ok (snd (get_features [["m1"]] reput_state)) /\ cache_ok (snd (fit demo_env [["m1"]] reput_state)) /\
  cache_ok (snd (predict demo_env false "" [["m1"]] reput_state)) /\
  cache_ok (snd (get_features_expression [["m1"]] reput_state)).
Proof.
  exact (entry_points_keep_cache_shape demo_env false false "" [["m1"]] demo_features reput_state
           cache_ok_reput_state).
Defined.

Lemma set_features_get_features_roundtrip_witness :
  exists n st1, set_features demo_features demo_cached = (Ok n, st1) /\
  (exists s, store st1 n = Some s /\ option_map frame_rows (snap_features s) = Some demo_features) /\
  exists out st2, get_features [[n]] st1 = (Ok out, st2) /\
    map r_sort_order out = sort_order_values (length demo_features).
Proof.
  assert (Hok : match fst (set_features demo_features demo_cached) with
                | Ok _ => True | Raise _ => False end) by (vm_compute; exact I).
  destruct (set_features demo_features demo_cached) as [[n | e] st1] eqn:Hs; [| destruct Hok].
  exists n, st1. split; [reflexivity |].
  destruct (set_features_get_features_roundtrip demo_features n demo_cached st1
              well_formed_demo_cached Hs) as [Hst [out [st2 [Hg [_ Hso]]]]].
  split; [exact Hst |]. exists out, st2. split; [exact Hg | exact Hso].
Defined.

Lemma setup_leaves_no_contract_witness :
  exists st1,
  setup demo_env false [["m1"; "estimator=SVC"; "scaler=StandardScaler"; "test_size=0.25"]] empty_state
    = (Ok "m1", st1) /\
  (let calls := [CSetup false [["m2"; "estimator=LogisticRegression"; "scaler=StandardScaler"; ""]];
                 CSetFeatures two_target_features; CFit two_target_request;
                 CGetFeatures [["m1"]]; CPredict false "" [["m1"; "1|2"]]] in
   fst (get_features [["m1"]] (run_calls demo_env calls st1)) = Raise (AttributeError "features_df") /\
   fst (get_features_expression [["m1"]] (run_calls demo_env calls st1)) = Raise (AttributeError "features_df") /\
   fst (fit demo_env [["m1"]] (run_calls demo_env calls st1)) = Raise (AttributeError "features_df") /\
   fst (predict demo_env false "" [["m1"]] (run_calls demo_env calls st1)) = Raise (AttributeError "features_df")).
Proof.
  assert (Hok : fst (setup demo_env false [["m1"; "estimator=SVC"; "scaler=StandardScaler"; "test_size=0.25"]]
                        empty_state) = Ok "m1") by (vm_compute; reflexivity).
  destruct (setup demo_env false [["m1"; "estimator=SVC"; "scaler=StandardScaler"; "test_size=0.25"]] empty_state)
    as [r st1] eqn:Hs. cbn [fst] in Hok. subst r.
  exists st1. split; [reflexivity |]. cbv zeta.
  eapply (setup_leaves_no_contract demo_env false false "" _ [["m1"]] _ "m1" empty_state st1).
  - unfold well_formed, empty_state; cbn [heap model_cache store].
    split; [| split]; [intros; reflexivity | intros k l [] | intros k s Hk; discriminate Hk].
  - exact Hs.
  - repeat constructor.
  - reflexivity.
Defined.

Lemma get_features_repeat_witness :
  exists out st1 st2, get_features [["m1"]] demo_cached = (Ok out, st1) /\
    get_features [["m1"]] st1 = (Ok out, st2).
Proof.
  assert (Hok : match fst (get_features [["m1"]] demo_cached) with
                | Ok _ => True | Raise _ => False end) by (vm_compute; exact I).
  destruct (get_features [["m1"]] demo_cached) as [[out | e] st1] eqn:Hg; [| destruct Hok].
  destruct (get_features_repeat "m1" demo_cached st1 out well_formed_demo_cached Hg) as [st2 H2].
  exists out, st1, st2. split; [reflexivity | exact H2].
Defined.

Lemma get_features_expression_contract_witness :
  exists st', get_features_expression [["m1"]] demo_cached = (Ok "[id] &'|'& [f1] &'|'& [y] &'|'& [f2]", st').
Proof.
  exact (get_features_expression_contract [["m1"]] "m1" demo_cached demo_features
           well_formed_demo_cached eq_refl eq_refl).
Defined.

Lemma fit_then_features_expression_witness :
  exists r st', fit demo_env [["m1"; "a|1|0|2"]; ["m1"; "b|2|1|3"]] demo_cached = (Ok r, st') /\
  get_features_expression [["m1"]] st' = (Ok "[f1] &'|'& [f2]", st').
Proof.
  assert (Hok : match fst (fit demo_env [["m1"; "a|1|0|2"]; ["m1"; "b|2|1|3"]] demo_cached) with
                | Ok _ => True | Raise _ => False end) by (vm_compute; exact I).
  destruct (fit demo_env [["m1"; "a|1|0|2"]; ["m1"; "b|2|1|3"]] demo_cached) as [[r | e] st'] eqn:Hf;
    [| destruct Hok].
  exists r, st'. split; [reflexivity |].
  exact (fit_then_features_expression demo_env [["m1"; "a|1|0|2"]; ["m1"; "b|2|1|3"]] "m1" demo_cached st' r
           demo_features well_formed_demo_cached eq_refl eq_refl Hf).
Defined.

Lemma failed_fit_keeps_stripped_contract_witness :
  exists e st', fit demo_env [["m1"; "a|1|0|2"]] (one_model_state demo_unknown_model) = (Raise e, st') /\
  store st' = store (one_model_state demo_unknown_model) /\
  contract_of "m1" st' = Some (filter (fun x => negb (excluded_role x)) demo_features) /\
  exists e' st'', fit demo_env [["m1"; "a|1|0|2"]] st' = (Raise e', st'').
Proof.
  assert (Hok : match fst (fit demo_env [["m1"; "a|1|0|2"]] (one_model_state demo_unknown_model)) with
                | Ok _ => False | Raise _ => True end) by (vm_compute; exact I).
  destruct (fit demo_env [["m1"; "a|1|0|2"]] (one_model_state demo_unknown_model)) as [[x | e] st'] eqn:Hf;
    [destruct Hok |].
  assert (Hconv : convert_types demo_env demo_features ["a|1|0|2"]
                  = Ok [[VStr "a"; VStr "1"; VStr "0"; VStr "2"]]) by (vm_compute; reflexivity).
  destruct (failed_fit_keeps_stripped_contract demo_env [["m1"; "a|1|0|2"]] "m1"
              (one_model_state demo_unknown_model) st' e demo_features ["a|1|0|2"] _
              (well_formed_one_model_state demo_unknown_model eq_refl) eq_refl eq_refl eq_refl Hconv
              ltac:(discriminate) Hf)
    as [Hs [Hc Hall]].
  exists e, st'. split; [reflexivity |]. split; [exact Hs |]. split; [exact Hc |].
  exact (Hall [["m1"; "a|1|0|2"]] eq_refl).
Defined.


Lemma proba_row_bounds_witness :
  proba_row demo_env (mkPipeline [("scaler", Preprocessor); ("estimator", EstimatorStage "SVC" ["0"; "1"])] true)
    1 [1 # 4; 3 # 4] = Ok (proba_spec (fmt3 demo_env) ["0"; "1"] [1 # 4; 3 # 4]) /\
  proba_row demo_env (mkPipeline [("scaler", Preprocessor); ("estimator", EstimatorStage "SVC" ["0"; "1"])] true)
    1 [1 # 4; 1 # 4; 1 # 2] = Raise IndexError.
Proof.
  set (p := mkPipeline [("scaler", Preprocessor); ("estimator", EstimatorStage "SVC" ["0"; "1"])] true).
  split.
  - apply (proba_row_bounds demo_env p 1 ["0"; "1"] [1 # 4; 3 # 4] eq_refl). cbn; lia.
  - apply (proba_row_bounds demo_env p 1 ["0"; "1"] [1 # 4; 1 # 4; 1 # 2] eq_refl). cbn; lia.
Defined.

Lemma join_on_key_distinct_keys_witness :
  join_on_key (combine ["m1"; "m1"] ["a"; "b"]) (combine ["a"; "b"] ["1"; "0"]) =
  combine (combine ["m1"; "m1"] ["a"; "b"]) ["1"; "0"].
Proof.
  apply join_on_key_distinct_keys; [| reflexivity | reflexivity].
  constructor; [cbn; intros [H | []]; discriminate H | constructor; [intros [] | constructor]].
Defined.

Lemma join_on_key_row_count_witness :
  length (join_on_key (combine ["m1"; "m1"; "m1"] ["a"; "a"; "b"]) (combine ["a"; "a"; "b"] ["1"; "0"; "1"])) = 5.
Proof.
  exact (join_on_key_row_count ["m1"; "m1"; "m1"] ["a"; "a"; "b"] ["1"; "0"; "1"] eq_refl eq_refl).
Defined.


